(** * cut-geocache-icons.py: slicing the geocache icons out of the sprite sheet

    A shallow embedding of [theia-extensions/zones/scripts/cut-geocache-icons.py].
    The script is a sequence of effects on the file system, on the console and
    on the imaging library, so it is embedded in a small state-and-exception
    monad over an explicit [World]:

    - the file system is a finite map from paths to nodes (directory or file);
    - the console is the list of the arguments of the [print] calls, in order;
    - every call that touches the file system or the imaging library is
      recorded in a trace, so that "before any I/O" and "no file is written"
      are statements about that trace;
    - [sys.exit] and raised exceptions are the two abnormal results; only
      the second one is caught by [except Exception].

    What the script calls but does not define (pathlib, Pillow) is modelled
    next to it: [Path.exists], [Path.mkdir], [Image.open], [Image.crop],
    [Image.save].  Three points of that model matter for the properties:

    - [Path.mkdir(parents=True, exist_ok=True)] follows pathlib: it tries
      [os.mkdir], creates the parent first when that is what is missing, and
      accepts a directory that is already there;
    - [Image.open] only identifies the image; the pixel data are loaded by
      the first operation that needs them, here [crop], which can therefore
      raise for every icon of a sheet that opened;
    - [Image.crop] does not raise on a box that exceeds the image: the
      pixels beyond the image are zero.

    Where the script is installed and the PNG codec of Pillow are parameters
    of the development ([Install]).

    The file has three parts: the embedding, a concrete installation to run
    it on ([Demo]), and the properties. *)

From Stdlib Require Import ZArith Lia Ascii String.
From stdpp Require Import gmap strings list fin_maps pretty.

Local Open Scope Z_scope.

(** ** Paths *)

(** A path is the list of its components, outermost first; the empty list is
    the directory every relative path starts from. *)
Abbreviation Path := (list string) (only parsing).

(** [Path.parent]: the path without its last component; the anchor is its
    own parent. *)
Definition parent (p : Path) : Path := removelast p.

(** [Path.name]: the last component. *)
Definition path_name (p : Path) : string := List.last p "".

(** [str(path)]. *)
Definition path_str (p : Path) : string := String.concat "/" p.

(** ** Exceptions *)

Inductive ExnClass :=
  | FileNotFoundError
  | FileExistsError
  | NotADirectoryError
  | IsADirectoryError
  | OSError
  | ValueError.

(** An exception: its class and [str(e)].  All of these classes derive from
    [Exception]. *)
Record Exn := mkExn { exn_class : ExnClass; exn_str : string }.

Definition is_FileNotFoundError (e : Exn) : bool :=
  match exn_class e with FileNotFoundError => true | _ => false end.

(** ** Images *)

Abbreviation Pixel := Z (only parsing).

(** An image in memory: [size] and the pixel rows. *)
Record Image := mkImage {
  im_width : Z;
  im_height : Z;
  im_rows : list (list Pixel)
}.

(** What [Image.open] returns: the size read from the header, and the pixel
    data, which Pillow decodes lazily at the first operation that needs it
    ([Image.load]); decoding can still raise at that point. *)
Record Sprite := mkSprite {
  sprite_width : Z;
  sprite_height : Z;
  sprite_load : Exn + list (list Pixel)
}.

(** The pixel stored at column [x] of row [y], when there is one. *)
Definition pixel_at (rows : list (list Pixel)) (x y : Z) : option Pixel :=
  if (x <? 0) || (y <? 0) then None
  else rows !! Z.to_nat y ≫= λ row, row !! Z.to_nat x.

(** The core of [Image.crop]: a fresh image of the size of the box; a pixel
    of the box that lies outside the source is left at zero. *)
Definition crop_pixel (width height : Z) (rows : list (list Pixel)) (x y : Z) : Pixel :=
  if (0 <=? x) && (x <? width) && (0 <=? y) && (y <? height)
  then default 0 (pixel_at rows x y)
  else 0.

Definition crop_region (width height : Z) (rows : list (list Pixel))
    (box : Z * Z * Z * Z) : Image :=
  let '(x0, y0, x1, y1) := box in
  mkImage (x1 - x0) (y1 - y0)
    ((λ j, (λ i, crop_pixel width height rows (x0 + i) (y0 + j)) <$> seqZ 0 (x1 - x0))
       <$> seqZ 0 (y1 - y0)).

(** The pixel rows have the announced size. *)
Definition raster_ok (width height : Z) (rows : list (list Pixel)) : Prop :=
  length rows = Z.to_nat height ∧ Forall (λ row, length row = Z.to_nat width) rows.

(** [sprite.crop(box)] as a function of the sprite: it rejects a box whose
    right or lower edge comes before the left or upper one, loads the pixel
    data, and copies the region. *)
Definition PIL_crop (sprite : Sprite) (box : Z * Z * Z * Z) : Exn + Image :=
  let '(x0, y0, x1, y1) := box in
  if x1 <? x0 then
    inl (mkExn ValueError "Coordinate 'right' is less than 'left'")
  else if y1 <? y0 then
    inl (mkExn ValueError "Coordinate 'lower' is less than 'upper'")
  else
    match sprite_load sprite with
    | inl e => inl e
    | inr rows =>
        inr (crop_region (sprite_width sprite) (sprite_height sprite) rows box)
    end.

(** ** The world the script runs in *)

Inductive Node :=
  | Dir
  | File (data : list Byte.byte).

Inductive Event :=
  | EvImportPIL
  | EvExists (p : Path)
  | EvMkdir (p : Path)
  | EvOpen (p : Path)
  | EvCrop (box : Z * Z * Z * Z)
  | EvSave (p : Path).

Record World := mkWorld {
  fs : gmap Path Node;
  stdout : list string;
  trace : list Event
}.

Definition set_fs (m : gmap Path Node) (w : World) : World :=
  mkWorld m (stdout w) (trace w).

Definition add_event (ev : Event) (w : World) : World :=
  mkWorld (fs w) (stdout w) (trace w ++ [ev]).

Definition add_line (s : string) (w : World) : World :=
  mkWorld (fs w) (stdout w ++ [s]) (trace w).

(** The node a path names; the anchor is always a directory. *)
Definition node_at (m : gmap Path Node) (p : Path) : option Node :=
  match p with
  | [] => Some Dir
  | _ => m !! p
  end.

(** [open(p, "w+b")]: the exception it raises, if any.  The parent must be a
    directory and [p] itself must not be one. *)
Definition open_wb (m : gmap Path Node) (p : Path) : option Exn :=
  match node_at m (parent p) with
  | None =>
      Some (mkExn FileNotFoundError
              ("[Errno 2] No such file or directory: '" +:+ path_str p +:+ "'"))
  | Some (File _) =>
      Some (mkExn NotADirectoryError
              ("[Errno 20] Not a directory: '" +:+ path_str p +:+ "'"))
  | Some Dir =>
      match node_at m p with
      | Some Dir =>
          Some (mkExn IsADirectoryError
                  ("[Errno 21] Is a directory: '" +:+ path_str p +:+ "'"))
      | _ => None
      end
  end.

(** ** The monad: state, exceptions and [sys.exit] *)

Inductive Result (A : Type) :=
  | Ok (a : A)
  | Raise (e : Exn)
  | SysExit (code : Z).
Arguments Ok {A} a.
Arguments Raise {A} e.
Arguments SysExit {A} code.

Definition M (A : Type) : Type := World → Result A * World.

Definition ret {A} (a : A) : M A := λ w, (Ok a, w).

Definition bind {A B} (m : M A) (k : A → M B) : M B := λ w,
  match m w with
  | (Ok a, w') => k a w'
  | (Raise e, w') => (Raise e, w')
  | (SysExit c, w') => (SysExit c, w')
  end.

Definition raise {A} (e : Exn) : M A := λ w, (Raise e, w).

(** [sys.exit(code)] raises [SystemExit], which is not an [Exception]. *)
Definition sys_exit {A} (code : Z) : M A := λ w, (SysExit code, w).

(** [try: body  except Exception as e: handler e]. *)
Definition try_except {A} (body : M A) (handler : Exn → M A) : M A := λ w,
  match body w with
  | (Raise e, w') => handler e w'
  | r => r
  end.

Definition record (ev : Event) : M unit := λ w, (Ok tt, add_event ev w).

Definition print (s : string) : M unit := λ w, (Ok tt, add_line s w).

Declare Scope M_scope.
Delimit Scope M_scope with M.
Notation "x <- m ;; k" := (bind m (λ x, k))
  (at level 100, m at next level, right associativity, only parsing) : M_scope.
Notation "m ;; k" := (bind m (λ _, k))
  (at level 100, right associativity, only parsing) : M_scope.
Local Open Scope M_scope.

(** ** pathlib *)

(** [Path.exists()]. *)
Definition Path_exists (p : Path) : M bool := λ w,
  (Ok (bool_decide (is_Some (node_at (fs w) p))), add_event (EvExists p) w).

(** [Path.is_dir()]. *)
Definition Path_is_dir (p : Path) : M bool := λ w,
  (Ok (match node_at (fs w) p with Some Dir => true | _ => false end), w).

(** [os.mkdir(p)]: one directory, whose parent must be a directory.  The
    file system of this development has no access rights: a directory can
    always be written to, so [PermissionError] is not among the exceptions
    raised here. *)
Definition os_mkdir (p : Path) : M unit := λ w,
  let w' := add_event (EvMkdir p) w in
  match node_at (fs w) p with
  | Some _ =>
      (Raise (mkExn FileExistsError ("[Errno 17] File exists: '" +:+ path_str p +:+ "'")), w')
  | None =>
      match node_at (fs w) (parent p) with
      | None =>
          (Raise (mkExn FileNotFoundError
                    ("[Errno 2] No such file or directory: '" +:+ path_str p +:+ "'")), w')
      | Some (File _) =>
          (Raise (mkExn NotADirectoryError
                    ("[Errno 20] Not a directory: '" +:+ path_str p +:+ "'")), w')
      | Some Dir => (Ok tt, set_fs (<[p := Dir]> (fs w)) w')
      end
  end.

(** [Path.mkdir(parents=False, exist_ok=exist_ok)]:
<<
    try: os.mkdir(self, mode)
    except FileNotFoundError: raise
    except OSError:
        if not exist_ok or not self.is_dir(): raise
>> *)
Definition Path_mkdir_single (exist_ok : bool) (p : Path) : M unit :=
  try_except (os_mkdir p) (λ e,
    if is_FileNotFoundError e then raise e
    else
      d <- Path_is_dir p ;;
      if negb exist_ok || negb d then raise e else ret tt).

(** [Path.mkdir(parents=True, exist_ok=exist_ok)], by recursion on the
    reversed path [rp] (its tail is the reversed parent):
<<
    try: os.mkdir(self, mode)
    except FileNotFoundError:
        if not parents or self.parent == self: raise
        self.parent.mkdir(parents=True, exist_ok=True)
        self.mkdir(mode, parents=False, exist_ok=exist_ok)
    except OSError:
        if not exist_ok or not self.is_dir(): raise
>> *)
Fixpoint Path_mkdir_rev (exist_ok : bool) (rp : list string) : M unit :=
  let p := rev rp in
  try_except (os_mkdir p) (λ e,
    if is_FileNotFoundError e then
      match rp with
      | [] => raise e
      | _ :: rp' =>
          Path_mkdir_rev true rp' ;;
          Path_mkdir_single exist_ok p
      end
    else
      d <- Path_is_dir p ;;
      if negb exist_ok || negb d then raise e else ret tt).

(** [p.mkdir(parents=True, exist_ok=True)]. *)
Definition Path_mkdir_parents_exist_ok (p : Path) : M unit :=
  Path_mkdir_rev true (rev p).

(** ** File systems and traces *)

(** The nonempty prefixes of a path: its ancestors and itself. *)
Definition path_prefixes (p : Path) : list Path :=
  (λ n, take n p) <$> seq 1 (length p).

(** Only calls of [os.mkdir]. *)
Definition only_mkdirs (evs : list Event) : Prop :=
  Forall (λ ev, ∃ q, ev = EvMkdir q) evs.

(** What creating the directory [p] and its parents may change in the
    file system: missing ancestors of [p], or [p], become directories. *)
Definition fs_frame (p : Path) (m m' : gmap Path Node) : Prop :=
  ∀ q, m' !! q = m !! q
       ∨ (m !! q = None ∧ m' !! q = Some Dir ∧ q ∈ path_prefixes p).

(** What creating the directory [p] and its parents may change in the
    world: nothing is printed and only [os.mkdir] is called. *)
Definition mkdir_frame (p : Path) (w w' : World) : Prop :=
  stdout w' = stdout w
  ∧ (∃ evs, trace w' = trace w ++ evs ∧ only_mkdirs evs)
  ∧ fs_frame p (fs w) (fs w').

(** What one call of [mkdir] guarantees, whatever the file system. *)
Definition mkdir_post (p : Path) (w : World) (r : Result unit * World) : Prop :=
  mkdir_frame p w r.2
  ∧ (∃ evs, trace r.2 = trace w ++ EvMkdir p :: evs)
  ∧ (∀ c, r.1 ≠ SysExit c)
  ∧ (r.1 = Ok tt → node_at (fs r.2) p = Some Dir).

Definition is_file (n : option Node) : bool :=
  match n with Some (File _) => true | _ => false end.

Definition is_dir (n : option Node) : bool :=
  match n with Some Dir => true | _ => false end.

(** No regular file stands where [p] or one of its ancestors should be. *)
Definition no_file_on (m : gmap Path Node) (p : Path) : Prop :=
  Forall (λ q, is_file (m !! q) = false) (path_prefixes p).

(** [p] and all its ancestors are directories. *)
Definition dirs_on (m : gmap Path Node) (p : Path) : Prop :=
  Forall (λ q, m !! q = Some Dir) (path_prefixes p).

(** Every node has a parent, as in a real file system. *)
Definition fs_closed (m : gmap Path Node) : Prop :=
  map_Forall (λ q _, is_Some (node_at m (parent q))) m.

(** The paths of the [save] calls of a trace. *)
Definition saved_paths (evs : list Event) : list Path :=
  evs ≫= λ ev, match ev with EvSave p => [p] | _ => [] end.

(** The boxes of the [crop] calls of a trace. *)
Definition crop_boxes (evs : list Event) : list (Z * Z * Z * Z) :=
  evs ≫= λ ev, match ev with EvCrop box => [box] | _ => [] end.

(** The paths of the [Image.open] calls of a trace. *)
Definition opened_paths (evs : list Event) : list Path :=
  evs ≫= λ ev, match ev with EvOpen p => [p] | _ => [] end.

(** The paths of the [os.mkdir] calls of a trace. *)
Definition mkdir_paths (evs : list Event) : list Path :=
  evs ≫= λ ev, match ev with EvMkdir p => [p] | _ => [] end.

(** How many icons a result of the loop body stands for. *)
Definition counted (r : Result Z * World) : Z :=
  match r.1 with Ok c => c | _ => 0 end.

(** ** The script *)

(** An icon descriptor: (name, x, y, width, height). *)
Abbreviation Icon := (string * Z * Z * Z * Z)%type (only parsing).

Definition ICONS : list Icon :=
  [ ("traditional", 0, 0, 50, 50);
    ("ape", 100, 0, 50, 50);
    ("hq", 200, 0, 50, 50);
    ("multi", 300, 0, 50, 50);
    ("event", 400, 0, 50, 50);
    ("cito", 500, 0, 50, 50);
    ("mega", 600, 0, 50, 50);
    ("giga", 700, 0, 50, 50);
    ("maze", 800, 0, 50, 50);
    ("earth", 900, 0, 50, 50);
    ("virtual", 1000, 0, 50, 50);
    ("webcam", 1100, 0, 50, 50);
    ("locationless", 1200, 0, 50, 50);
    ("mystery", 1300, 0, 50, 50);
    ("letterbox", 1400, 0, 50, 50);
    ("wherigo", 1500, 0, 50, 50) ].

Definition icon_name (d : Icon) : string := let '(name, _, _, _, _) := d in name.

(** The box [(x, y, x + w, y + h)] the loop crops for a descriptor. *)
Definition icon_box (d : Icon) : Z * Z * Z * Z :=
  let '(_, x, y, w, h) := d in (x, y, x + w, y + h).

(** [len(ICONS)]. *)
Definition len_ICONS : Z := Z.of_nat (length ICONS).

(** ["=" * n]. *)
Definition str_repeat (s : string) (n : nat) : string :=
  String.concat "" (replicate n s).

(** The newline character of the ["\n"] escapes. *)
Definition nl : string := String "010"%char EmptyString.

(** How the line of an icon starts: cut out, or not. *)
Definition check_mark : string := "   ✓ ".
Definition cross_mark : string := "   ❌ ".

(** [s.startswith(p)]. *)
Definition starts_with (p s : string) : bool := String.prefix p s.

(** The pixel rows of an image in which every pixel is zero. *)
Definition blank_rows (width height : Z) : list (list Pixel) :=
  replicate (Z.to_nat height) (replicate (Z.to_nat width) 0).

(** What the script finds where it is installed: its own location
    ([__file__]) and Pillow's PNG codec, that is what [Image.open] makes of
    the bytes of a file and the bytes [Image.save(_, 'PNG')] writes for an
    image. *)
Class Install := {
  script_file : Path;
  PIL_open_bytes : list Byte.byte → Exn + Sprite;
  PNG_encode : Image → list Byte.byte
}.

Section Script.

Context {I : Install}.

Definition SCRIPT_DIR : Path := parent script_file.
Definition PROJECT_ROOT : Path := parent SCRIPT_DIR.
Definition SPRITE_PATH : Path :=
  PROJECT_ROOT ++ ["src"; "browser"; "assets"; "geocaching-sprite.png"].
Definition OUTPUT_DIR : Path :=
  PROJECT_ROOT ++ ["src"; "browser"; "assets"; "geocache-icons"].

(** *** Pillow *)

(** What [Image.open(p)] finds in the file system [m]: it reads the file
    and identifies the image. *)
Definition PIL_open (m : gmap Path Node) (p : Path) : Exn + Sprite :=
  match node_at m p with
  | None =>
      inl (mkExn FileNotFoundError
             ("[Errno 2] No such file or directory: '" +:+ path_str p +:+ "'"))
  | Some Dir =>
      inl (mkExn IsADirectoryError
             ("[Errno 21] Is a directory: '" +:+ path_str p +:+ "'"))
  | Some (File data) => PIL_open_bytes data
  end.

(** [Image.open(p)]. *)
Definition Image_open (p : Path) : M Sprite := λ w,
  let w' := add_event (EvOpen p) w in
  match PIL_open (fs w) p with
  | inl e => (Raise e, w')
  | inr sprite => (Ok sprite, w')
  end.

(** [sprite.crop(box)]. *)
Definition Image_crop (sprite : Sprite) (box : Z * Z * Z * Z) : M Image :=
  record (EvCrop box) ;;
  match PIL_crop sprite box with
  | inl e => raise e
  | inr icon => ret icon
  end.

(** [icon.save(p, 'PNG')]: creates or truncates the file [p] and writes
    the encoded image. *)
Definition Image_save (icon : Image) (p : Path) : M unit := λ w,
  let w' := add_event (EvSave p) w in
  match open_wb (fs w) p with
  | Some e => (Raise e, w')
  | None => (Ok tt, set_fs (<[p := File (PNG_encode icon)]> (fs w)) w')
  end.

(** *** main *)

(** Where the icon of a descriptor is written: the file name is one
    component of the path, as it is for a name without a separator, which
    is what the names of [ICONS] are. *)
Definition output_path (name : string) : Path := OUTPUT_DIR ++ [name +:+ ".png"].

Definition success_line (name : string) (x y : Z) (out : Path) : string :=
  "   ✓ " +:+ name +:+ ".png (" +:+ pretty x +:+ ", " +:+ pretty y +:+ ") -> "
    +:+ path_name out.

Definition error_line (name : string) (e : Exn) : string :=
  "   ❌ Erreur avec " +:+ name +:+ ": " +:+ exn_str e.

(** The body of the loop, for one descriptor. *)
Definition cut_icon (sprite : Sprite) (d : Icon) (success_count : Z) : M Z :=
  let '(name, x, y, w, h) := d in
  try_except
    (icon <- Image_crop sprite (x, y, x + w, y + h) ;;
     let out := output_path name in
     Image_save icon out ;;
     print (success_line name x y out) ;;
     ret (success_count + 1))
    (λ e,
      print (error_line name e) ;;
      ret success_count).

(** [for name, x, y, w, h in icons: ...]. *)
Fixpoint cut_icons (sprite : Sprite) (icons : list Icon) (success_count : Z) : M Z :=
  match icons with
  | [] => ret success_count
  | d :: rest =>
      c <- cut_icon sprite d success_count ;;
      cut_icons sprite rest c
  end.

Definition banner : list string :=
  [ "🗺️  Découpage des icônes de géocaches"; str_repeat "=" 50 ].

Definition missing_sprite_lines : list string :=
  [ "❌ Erreur : Sprite sheet introuvable";
    "   Cherché dans : " +:+ path_str SPRITE_PATH;
    nl +:+ "💡 Vérifiez que le fichier geocaching-sprite.png existe" ].

Definition count_line (success_count : Z) : string :=
  "🎉 Terminé ! " +:+ pretty success_count +:+ "/" +:+ pretty len_ICONS
    +:+ " icônes créées".

Definition all_succeeded_line : string :=
  nl +:+ "✨ Toutes les icônes ont été découpées avec succès !".

Definition some_failed_line (failed : Z) : string :=
  nl +:+ "⚠️  " +:+ pretty failed +:+ " icône(s) n'ont pas pu être créées".

(** The lines printed after the loop. *)
Definition summary (success_count : Z) : list string :=
  [ nl +:+ str_repeat "=" 50; count_line success_count ]
  ++ (if bool_decide (success_count = len_ICONS)
      then [ all_succeeded_line;
             "🚀 Vous pouvez maintenant compiler et tester la carte" ]
      else [ some_failed_line (len_ICONS - success_count) ])
  ++ [ nl +:+ "📁 Icônes sauvegardées dans :"; "   " +:+ path_str OUTPUT_DIR ].

Definition print_all (lines : list string) : M unit :=
  foldr (λ s k, print s ;; k) (ret tt) lines.

Definition found_line : string := "✓ Sprite trouvé : " +:+ path_str SPRITE_PATH.

Definition outdir_line : string := "✓ Dossier de sortie : " +:+ path_str OUTPUT_DIR.

Definition loaded_line (sprite : Sprite) : string :=
  "✓ Sprite chargé : " +:+ pretty (sprite_width sprite) +:+ "x"
    +:+ pretty (sprite_height sprite) +:+ " pixels".

Definition open_error_line (e : Exn) : string :=
  "❌ Erreur lors de l'ouverture du sprite : " +:+ exn_str e.

Definition cutting_line : string := nl +:+ "📐 Découpage en cours...".

Definition main : M unit :=
  print_all banner ;;
  found <- Path_exists SPRITE_PATH ;;
  (if negb found then
     print_all missing_sprite_lines ;;
     sys_exit 1
   else ret tt) ;;
  print found_line ;;
  Path_mkdir_parents_exist_ok OUTPUT_DIR ;;
  print outdir_line ;;
  sprite <- try_except
    (sprite <- Image_open SPRITE_PATH ;;
     print (loaded_line sprite) ;;
     ret sprite)
    (λ e,
      print (open_error_line e) ;;
      sys_exit 1) ;;
  print cutting_line ;;
  success_count <- cut_icons sprite ICONS 0 ;;
  print_all (summary success_count).

Definition missing_PIL_lines : list string :=
  [ "❌ Erreur : PIL/Pillow n'est pas installé";
    "📦 Installez-le avec : pip install Pillow" ].

(** The module body: the guarded import, then [main()]. *)
Definition script (pil_installed : bool) : M unit :=
  record EvImportPIL ;;
  if pil_installed then main
  else
    print_all missing_PIL_lines ;;
    sys_exit 1.

(** The exit status of the process: 0 when the module body returns, the
    argument of [sys.exit], and 1 for an exception nobody caught. *)
Definition exit_status {A} (r : Result A * World) : Z :=
  match r.1 with
  | Ok _ => 0
  | Raise _ => 1
  | SysExit code => code
  end.

Definition final {A} (r : Result A * World) : World := r.2.

Definition run (pil_installed : bool) (w : World) : Z * World :=
  let r := script pil_installed w in (exit_status r, final r).

(** *** The stages of a run *)

Definition add_lines (lines : list string) (w : World) : World :=
  mkWorld (fs w) (stdout w ++ lines) (trace w).

(** The world in which [main] creates the output directory. *)
Definition at_mkdir (w : World) : World :=
  add_line found_line (add_event (EvExists SPRITE_PATH) (add_lines banner w)).

(** The world in which [main] opens the sprite, from the one [mkdir] left. *)
Definition at_open (wm : World) : World :=
  add_event (EvOpen SPRITE_PATH) (add_line outdir_line wm).

(** The world in which the loop starts. *)
Definition at_loop (sprite : Sprite) (wm : World) : World :=
  add_lines [loaded_line sprite; cutting_line] (at_open wm).

(** *** One descriptor on its own *)

(** What the body of the loop comes to for the descriptor [d] when the
    file system is [m]: the exception raised by the crop or by the save,
    or the icon that is saved. *)
Definition icon_outcome (sprite : Sprite) (m : gmap Path Node) (d : Icon) : Exn + Image :=
  let '(name, x, y, w, h) := d in
  match PIL_crop sprite (x, y, x + w, y + h) with
  | inl e => inl e
  | inr icon =>
      match open_wb m (output_path name) with
      | Some e => inl e
      | None => inr icon
      end
  end.

Definition icon_succeeds (sprite : Sprite) (m : gmap Path Node) (d : Icon) : bool :=
  match icon_outcome sprite m d with inr _ => true | inl _ => false end.

(** The line the loop prints for [d]. *)
Definition icon_line (sprite : Sprite) (m : gmap Path Node) (d : Icon) : string :=
  let '(name, x, y, w, h) := d in
  match icon_outcome sprite m (name, x, y, w, h) with
  | inr _ => success_line name x y (output_path name)
  | inl e => error_line name e
  end.

(** The calls the loop makes for [d]: the save is not reached when the
    crop raises. *)
Definition icon_events (sprite : Sprite) (d : Icon) : list Event :=
  let '(name, x, y, w, h) := d in
  match PIL_crop sprite (x, y, x + w, y + h) with
  | inl _ => [EvCrop (x, y, x + w, y + h)]
  | inr _ => [EvCrop (x, y, x + w, y + h); EvSave (output_path name)]
  end.

(** The file the loop writes for [d], if it does. *)
Definition icon_write (sprite : Sprite) (m : gmap Path Node) (d : Icon)
    (acc : gmap Path Node) : gmap Path Node :=
  match icon_outcome sprite m d with
  | inr icon => <[output_path (icon_name d) := File (PNG_encode icon)]> acc
  | inl _ => acc
  end.

(** The files of the descriptors [icons], written into [acc], when each
    outcome is the one the descriptor has in [m]. *)
Definition write_icons (sprite : Sprite) (m : gmap Path Node) (icons : list Icon)
    (acc : gmap Path Node) : gmap Path Node :=
  foldl (λ acc d, icon_write sprite m d acc) acc icons.

Definition count_succeeded (sprite : Sprite) (m : gmap Path Node) (icons : list Icon) : Z :=
  Z.of_nat (length (filter (λ d, icon_succeeds sprite m d = true) icons)).

(** The world the loop leaves, from the one [mkdir] left. *)
Definition after_loop (sprite : Sprite) (wm : World) : World :=
  mkWorld (write_icons sprite (fs wm) ICONS (fs wm))
          (stdout (at_loop sprite wm) ++ (icon_line sprite (fs wm) <$> ICONS))
          (trace (at_loop sprite wm) ++ (ICONS ≫= icon_events sprite)).

(** The world at the end of a run that reached the loop. *)
Definition at_end (sprite : Sprite) (wm : World) : World :=
  add_lines (summary (count_succeeded sprite (fs wm) ICONS)) (after_loop sprite wm).

(** The world in which a run stops when the sprite is missing. *)
Definition at_missing (w : World) : World :=
  add_lines missing_sprite_lines (add_event (EvExists SPRITE_PATH) (add_lines banner w)).

(** The calls [main] can make, in order: the existence check; then the
    creation of the output directory, starting at the directory itself;
    then the opening of the sprite; then the crops and saves of the loop. *)
Definition main_events (evs : list Event) : Prop :=
  evs = [EvExists SPRITE_PATH]
  ∨ ∃ mk tl,
      only_mkdirs mk
      ∧ evs = EvExists SPRITE_PATH :: EvMkdir OUTPUT_DIR :: mk ++ tl
      ∧ (tl = []
         ∨ tl = [EvOpen SPRITE_PATH]
         ∨ ∃ sprite, tl = EvOpen SPRITE_PATH :: (ICONS ≫= icon_events sprite)).

(** The descriptor [d] processed on its own, in a world whose file system
    is [m] and where nothing has been printed or called yet. *)
Definition alone (sprite : Sprite) (m : gmap Path Node) (d : Icon) : Result Z * World :=
  cut_icon sprite d 0 (mkWorld m [] []).

(** The lines [main] prints before the loop once the sprite is open. *)
Definition preamble (sprite : Sprite) : list string :=
  banner ++ [found_line; outdir_line; loaded_line sprite; cutting_line].

End Script.

(** ** A concrete installation, to run the script on *)

Module Demo.

(** A run-length format standing for PNG: two bytes of width, one of
    height, then the pixels row by row as runs of two bytes of count and
    one byte of value. *)
Definition byte_of_Z (z : Z) : Byte.byte :=
  default Byte.x00 (Byte.of_N (Z.to_N (z `mod` 256))).

Definition Z_of_byte (b : Byte.byte) : Z := Z.of_N (Byte.to_N b).

Fixpoint runs (payload : list Byte.byte) : list (Z * Pixel) :=
  match payload with
  | hi :: lo :: v :: rest => (256 * Z_of_byte hi + Z_of_byte lo, Z_of_byte v) :: runs rest
  | _ => []
  end.

Definition run_total (rs : list (Z * Pixel)) : Z := foldr (λ r acc, r.1 + acc) 0 rs.

Definition expand (rs : list (Z * Pixel)) : list Pixel :=
  rs ≫= λ r, replicate (Z.to_nat r.1) r.2.

Fixpoint chunks (n : nat) (count : nat) (l : list Pixel) : list (list Pixel) :=
  match count with
  | O => []
  | S count' => take n l :: chunks n count' (drop n l)
  end.

Definition open_bytes (data : list Byte.byte) : Exn + Sprite :=
  match data with
  | hi :: lo :: h :: payload =>
      let width := 256 * Z_of_byte hi + Z_of_byte lo in
      let height := Z_of_byte h in
      inr (mkSprite width height
             (if bool_decide (run_total (runs payload) = width * height)
              then inr (chunks (Z.to_nat width) (Z.to_nat height) (expand (runs payload)))
              else inl (mkExn OSError "image file is truncated")))
  | _ => inl (mkExn OSError "cannot identify image file")
  end.

Definition encode (im : Image) : list Byte.byte :=
  [ byte_of_Z (im_width im `div` 256); byte_of_Z (im_width im); byte_of_Z (im_height im) ]
  ++ (concat (im_rows im) ≫= λ v, [Byte.x00; Byte.x01; byte_of_Z v]).

Definition install : Install := {|
  script_file := ["opt"; "theia"; "zones"; "scripts"; "cut-geocache-icons.py"];
  PIL_open_bytes := open_bytes;
  PNG_encode := encode
|}.

Definition assets : Path := ["opt"; "theia"; "zones"; "src"; "browser"; "assets"].

(** A 1550x50 sprite sheet: 65535 pixels of one colour, 11965 of another. *)
Definition sprite_bytes : list Byte.byte :=
  [ Byte.x06; Byte.x0e; Byte.x32;
    Byte.xff; Byte.xff; Byte.x2a;
    Byte.x2e; Byte.xbd; Byte.x10 ].

(** A sheet that is too narrow for the last icon: 1520x50. *)
Definition narrow_bytes : list Byte.byte :=
  [ Byte.x05; Byte.xf0; Byte.x32;
    Byte.xff; Byte.xff; Byte.x2a;
    Byte.x28; Byte.xe1; Byte.x10 ].

(** A sheet whose header announces 1550x50 and whose data stop early. *)
Definition truncated_bytes : list Byte.byte :=
  [ Byte.x06; Byte.x0e; Byte.x32;
    Byte.xff; Byte.xff; Byte.x2a ].

Definition install_dirs : gmap Path Node :=
  list_to_map ((λ p, (p, Dir)) <$>
    [ ["opt"]; ["opt"; "theia"]; ["opt"; "theia"; "zones"];
      ["opt"; "theia"; "zones"; "scripts"];
      ["opt"; "theia"; "zones"; "src"];
      ["opt"; "theia"; "zones"; "src"; "browser"];
      assets ]).

Definition world_of (m : gmap Path Node) : World := mkWorld m [] [].

(** What [open_bytes] makes of a file: the size, and the rows when the
    runs add up. *)
Definition sheet_of (width height : Z) (data : list Byte.byte) : Sprite :=
  mkSprite width height
    (inr (chunks (Z.to_nat width) (Z.to_nat height) (expand (runs (drop 3 data))))).

(** The sprite sheet is installed, the output directory is not there yet. *)
Definition fresh : World :=
  world_of (<[assets ++ ["geocaching-sprite.png"] := File sprite_bytes]> install_dirs).

(** No sprite sheet. *)
Definition no_sprite : World := world_of install_dirs.

(** The sprite sheet is not an image. *)
Definition bad_sprite : World :=
  world_of (<[assets ++ ["geocaching-sprite.png"] := File [Byte.x2a]]> install_dirs).

(** The sheet is too narrow. *)
Definition narrow : World :=
  world_of (<[assets ++ ["geocaching-sprite.png"] := File narrow_bytes]> install_dirs).

(** The data of the sheet stop early. *)
Definition truncated : World :=
  world_of (<[assets ++ ["geocaching-sprite.png"] := File truncated_bytes]> install_dirs).

(** A directory sits where the icon [mega.png] should be written. *)
Definition blocked : World :=
  world_of (<[assets ++ ["geocache-icons"; "mega.png"] := Dir]>
           (<[assets ++ ["geocache-icons"] := Dir]> (fs fresh))).

(** A regular file sits where the output directory should be. *)
Definition clash : World :=
  world_of (<[assets ++ ["geocache-icons"] := File []]> (fs fresh)).

(** A directory sits where the sprite sheet should be. *)
Definition sprite_is_dir : World :=
  world_of (<[assets ++ ["geocaching-sprite.png"] := Dir]> install_dirs).

(** A sheet of one pixel. *)
Definition tiny_bytes : list Byte.byte :=
  [ Byte.x00; Byte.x01; Byte.x01;
    Byte.x00; Byte.x01; Byte.x2a ].

Definition tiny : World :=
  world_of (<[assets ++ ["geocaching-sprite.png"] := File tiny_bytes]> install_dirs).

Definition run (pil_installed : bool) (w : World) : Z * World :=
  @run install pil_installed w.

End Demo.

(** * Properties *)

Section Correctness.

Context {I : Install}.

(** ** Printing *)

Lemma print_all_run (lines : list string) (w : World) :
  print_all lines w = (Ok tt, add_lines lines w).
Proof.
  revert w. induction lines as [|s lines IH]; intros [m out tr].
  - unfold add_lines; simpl. by rewrite app_nil_r.
  - simpl. unfold bind, print. simpl. rewrite IH. unfold add_lines, add_line; simpl.
    by rewrite <-app_assoc.
Qed.

(** ** The control flow of [main] *)

Lemma main_run (w : World) :
  main w =
    if bool_decide (is_Some (node_at (fs w) SPRITE_PATH)) then
      match Path_mkdir_parents_exist_ok OUTPUT_DIR (at_mkdir w) with
      | (Ok _, wm) =>
          match PIL_open (fs wm) SPRITE_PATH with
          | inl e => (SysExit 1, add_line (open_error_line e) (at_open wm))
          | inr sprite =>
              match cut_icons sprite ICONS 0 (at_loop sprite wm) with
              | (Ok n, wl) => (Ok tt, add_lines (summary n) wl)
              | (Raise e, wl) => (Raise e, wl)
              | (SysExit c, wl) => (SysExit c, wl)
              end
          end
      | (Raise e, wm) => (Raise e, wm)
      | (SysExit c, wm) => (SysExit c, wm)
      end
    else
      (SysExit 1,
       add_lines missing_sprite_lines
         (add_event (EvExists SPRITE_PATH) (add_lines banner w))).
Proof.
  unfold main.
  unfold bind at 1. rewrite print_all_run.
  unfold bind at 1. unfold Path_exists at 1. cbn [fs add_lines].
  destruct (bool_decide (is_Some (node_at (fs w) SPRITE_PATH))); cbn [negb].
  - unfold bind at 1. unfold ret at 1.
    unfold bind at 1. unfold print at 1.
    unfold bind at 1. fold (at_mkdir w).
    destruct (Path_mkdir_parents_exist_ok OUTPUT_DIR (at_mkdir w)) as [[[]|e|c] wm];
      [|reflexivity..].
    unfold bind at 1. unfold print at 1.
    unfold bind at 1. unfold try_except, bind at 1. unfold Image_open at 1.
    cbn [fs add_line]. fold (at_open wm).
    destruct (PIL_open (fs wm) SPRITE_PATH) as [e|sprite].
    + unfold bind, print, sys_exit. reflexivity.
    + unfold bind at 1. unfold print at 1. unfold ret at 1.
      unfold bind at 1. unfold print at 1.
      unfold bind at 1.
      replace (add_line _ (add_line _ (at_open wm))) with (at_loop sprite wm).
      2:{ unfold at_loop, add_lines, add_line; simpl. by rewrite <-!app_assoc. }
      destruct (cut_icons sprite ICONS 0 (at_loop sprite wm)) as [[n|e|c] wl];
        [|reflexivity..].
      apply print_all_run.
  - unfold bind at 1. unfold bind at 1. rewrite print_all_run. reflexivity.
Qed.

(** ** Paths of the outputs *)

Lemma list_ascii_of_string_app (a b : string) :
  list_ascii_of_string (a +:+ b) = list_ascii_of_string a ++ list_ascii_of_string b.
Proof. induction a as [|c a IH]; simpl; [done|by rewrite IH]. Qed.

Lemma string_app_inv_tail (a b s : string) : a +:+ s = b +:+ s → a = b.
Proof.
  intros H. apply (f_equal list_ascii_of_string) in H.
  rewrite !list_ascii_of_string_app in H. apply app_inv_tail in H.
  rewrite <-(string_of_list_ascii_of_string a), <-(string_of_list_ascii_of_string b).
  by rewrite H.
Qed.

Lemma output_path_inj (a b : string) : output_path a = output_path b → a = b.
Proof.
  unfold output_path. intros H. apply app_inv_head in H.
  injection H as H. by apply string_app_inv_tail in H.
Qed.

Lemma parent_output_path (name : string) : parent (output_path name) = OUTPUT_DIR.
Proof. unfold parent, output_path. apply removelast_last. Qed.

Lemma output_path_not_nil (name : string) : output_path name ≠ [].
Proof. unfold output_path. by destruct OUTPUT_DIR. Qed.

Lemma output_path_not_dir (name : string) : output_path name ≠ OUTPUT_DIR.
Proof.
  unfold output_path. intros H. apply (f_equal length) in H.
  rewrite length_app in H. simpl in H. lia.
Qed.

Lemma OUTPUT_DIR_not_nil : OUTPUT_DIR ≠ [].
Proof. unfold OUTPUT_DIR. by destruct PROJECT_ROOT. Qed.

Lemma node_at_insert_ne (m : gmap Path Node) (p q : Path) (n : Node) :
  p ≠ q → node_at (<[p := n]> m) q = node_at m q.
Proof. intros Hne. destruct q; [done|]. simpl. by rewrite lookup_insert_ne. Qed.

Lemma node_at_insert_eq (m : gmap Path Node) (p : Path) (n : Node) :
  p ≠ [] → node_at (<[p := n]> m) p = Some n.
Proof. intros Hne. destruct p; [done|]. simpl. by rewrite lookup_insert_eq. Qed.

Lemma node_at_lookup (m : gmap Path Node) (p : Path) : p ≠ [] → node_at m p = m !! p.
Proof. by destruct p. Qed.

(** Saving one icon does not change whether another one can be saved. *)
Lemma open_wb_insert_output (m : gmap Path Node) (a b : string) (n : Node) :
  a ≠ b →
  open_wb (<[output_path a := n]> m) (output_path b) = open_wb m (output_path b).
Proof.
  intros Hne. unfold open_wb. rewrite parent_output_path.
  rewrite !node_at_insert_ne; [done| |].
  - intros H. by apply output_path_inj in H.
  - apply output_path_not_dir.
Qed.

(** ** One iteration of the loop *)

Lemma icon_outcome_agree (sprite : Sprite) (m m' : gmap Path Node) d :
  open_wb m (output_path (icon_name d)) = open_wb m' (output_path (icon_name d)) →
  icon_outcome sprite m d = icon_outcome sprite m' d.
Proof.
  destruct d as [[[[name x] y] w] h]. simpl. intros H.
  unfold icon_outcome. by rewrite H.
Qed.

Lemma cut_icon_run (sprite : Sprite) (d : Icon) (c : Z) (w0 : World) :
  cut_icon sprite d c w0 =
    (Ok (if icon_succeeds sprite (fs w0) d then c + 1 else c),
     mkWorld (icon_write sprite (fs w0) d (fs w0))
             (stdout w0 ++ [icon_line sprite (fs w0) d])
             (trace w0 ++ icon_events sprite d)).
Proof.
  destruct d as [[[[name x] y] w] h].
  unfold cut_icon, icon_succeeds, icon_write, icon_line, icon_events, icon_outcome.
  unfold try_except, bind at 1. unfold Image_crop, bind at 1. unfold record at 1.
  destruct (PIL_crop sprite (x, y, x + w, y + h)) as [e|icon].
  - unfold raise at 1. unfold bind, print, ret. simpl. reflexivity.
  - unfold ret at 1. unfold bind at 1. unfold Image_save at 1. cbn [fs add_event].
    destruct (open_wb (fs w0) (output_path name)) as [e|].
    + unfold bind, print, ret, add_line, add_event. simpl. by rewrite <-?app_assoc.
    + unfold bind, print, ret, add_line, add_event, set_fs. simpl. by rewrite <-?app_assoc.
Qed.

(** ** The whole loop *)

Lemma count_succeeded_cons (sprite : Sprite) (m : gmap Path Node) (d : Icon)
    (icons : list Icon) (c : Z) :
  (if icon_succeeds sprite m d then c + 1 else c) + count_succeeded sprite m icons
  = c + count_succeeded sprite m (d :: icons).
Proof.
  unfold count_succeeded. rewrite filter_cons.
  destruct (icon_succeeds sprite m d); case_decide; try done; simpl length; lia.
Qed.

Lemma icon_succeeds_agree (sprite : Sprite) (m m' : gmap Path Node) (d : Icon) :
  icon_outcome sprite m d = icon_outcome sprite m' d →
  icon_succeeds sprite m d = icon_succeeds sprite m' d
  ∧ icon_line sprite m d = icon_line sprite m' d
  ∧ ∀ acc, icon_write sprite m d acc = icon_write sprite m' d acc.
Proof.
  intros H. unfold icon_succeeds, icon_write. rewrite H. split_and!; try done.
  destruct d as [[[[name x] y] w] h]. unfold icon_line. by rewrite H.
Qed.

Lemma cut_icons_run_gen (sprite : Sprite) (m : gmap Path Node) (icons : list Icon) :
  NoDup (icon_name <$> icons) →
  ∀ c w0,
    (∀ d, d ∈ icons →
       open_wb (fs w0) (output_path (icon_name d)) = open_wb m (output_path (icon_name d))) →
    cut_icons sprite icons c w0 =
      (Ok (c + count_succeeded sprite m icons),
       mkWorld (write_icons sprite m icons (fs w0))
               (stdout w0 ++ (icon_line sprite m <$> icons))
               (trace w0 ++ (icons ≫= icon_events sprite))).
Proof.
  induction icons as [|d icons IH]; intros Hnd c w0 Hagree.
  - destruct w0. unfold count_succeeded. simpl. unfold ret.
    by rewrite Z.add_0_r, !app_nil_r.
  - rewrite fmap_cons in Hnd. apply NoDup_cons in Hnd as [Hd Hnd].
    assert (Hout : icon_outcome sprite (fs w0) d = icon_outcome sprite m d).
    { apply icon_outcome_agree, Hagree. left. }
    apply icon_succeeds_agree in Hout as (Hs & Hl & Hw).
    cbn [cut_icons]. unfold bind at 1. rewrite cut_icon_run.
    rewrite IH; [|done|].
    + cbn [fs stdout trace]. rewrite Hs, Hl, Hw, count_succeeded_cons.
      unfold write_icons. cbn [foldl fmap list_fmap mbind list_bind].
      by rewrite <-!app_assoc.
    + intros d' Hd'. cbn [fs]. rewrite <-Hagree by (by right).
      unfold icon_write. destruct (icon_outcome sprite (fs w0) d); [done|].
      apply open_wb_insert_output. intros Heq. apply Hd.
      rewrite Heq. by apply list_elem_of_fmap_2.
Qed.

Lemma cut_icons_run (sprite : Sprite) (icons : list Icon) (c : Z) (w0 : World) :
  NoDup (icon_name <$> icons) →
  cut_icons sprite icons c w0 =
    (Ok (c + count_succeeded sprite (fs w0) icons),
     mkWorld (write_icons sprite (fs w0) icons (fs w0))
             (stdout w0 ++ (icon_line sprite (fs w0) <$> icons))
             (trace w0 ++ (icons ≫= icon_events sprite))).
Proof. intros Hnd. by apply cut_icons_run_gen. Qed.

Lemma write_icons_cons (sprite : Sprite) (m : gmap Path Node) (d : Icon)
    (icons : list Icon) (acc : gmap Path Node) :
  write_icons sprite m (d :: icons) acc
  = write_icons sprite m icons (icon_write sprite m d acc).
Proof. reflexivity. Qed.

Lemma write_icons_other (sprite : Sprite) (m : gmap Path Node) (icons : list Icon)
    (acc : gmap Path Node) (q : Path) :
  (∀ d, d ∈ icons → q ≠ output_path (icon_name d)) →
  write_icons sprite m icons acc !! q = acc !! q.
Proof.
  revert acc. induction icons as [|d icons IH]; intros acc Hq; [done|].
  rewrite write_icons_cons.
  rewrite IH by (intros d' Hd'; apply Hq; by right).
  unfold icon_write. destruct (icon_outcome sprite m d); [done|].
  rewrite lookup_insert_ne; [done|]. intros H. by apply (Hq d); [left|].
Qed.

Lemma write_icons_lookup (sprite : Sprite) (m : gmap Path Node) (icons : list Icon)
    (acc : gmap Path Node) (d : Icon) :
  NoDup (icon_name <$> icons) → d ∈ icons →
  write_icons sprite m icons acc !! output_path (icon_name d) =
    match icon_outcome sprite m d with
    | inr icon => Some (File (PNG_encode icon))
    | inl _ => acc !! output_path (icon_name d)
    end.
Proof.
  revert acc. induction icons as [|d0 icons IH]; intros acc Hnd Hin.
  - by apply elem_of_nil in Hin.
  - rewrite fmap_cons in Hnd. apply NoDup_cons in Hnd as [Hd0 Hnd].
    rewrite write_icons_cons.
    apply elem_of_cons in Hin as [->|Hin].
    + rewrite write_icons_other.
      * unfold icon_write. destruct (icon_outcome sprite m d0); [done|].
        by rewrite lookup_insert_eq.
      * intros d' Hd' Heq. apply output_path_inj in Heq. apply Hd0.
        rewrite Heq. by apply list_elem_of_fmap_2.
    + rewrite IH by done.
      destruct (icon_outcome sprite m d) eqn:Hd; [|done].
      unfold icon_write. destruct (icon_outcome sprite m d0); [done|].
      rewrite lookup_insert_ne; [done|]. intros Heq. apply output_path_inj in Heq.
      apply Hd0. rewrite Heq. by apply list_elem_of_fmap_2.
Qed.

(** ** Creating the output directory *)

Lemma parent_snoc (l : Path) (a : string) : parent (l ++ [a]) = l.
Proof. apply removelast_last. Qed.

Lemma path_prefixes_snoc (l : Path) (a : string) :
  path_prefixes (l ++ [a]) = path_prefixes l ++ [l ++ [a]].
Proof.
  unfold path_prefixes. rewrite length_app. simpl length.
  replace (length l + 1)%nat with (S (length l)) by lia.
  rewrite seq_S, fmap_app. simpl. f_equal.
  - apply list_fmap_ext. intros i n Hn. apply lookup_seq in Hn as [-> Hi].
    rewrite take_app_le; [done|lia].
  - f_equal. rewrite take_ge; [done|]. rewrite length_app. simpl. lia.
Qed.

Lemma path_prefixes_self (p : Path) : p ≠ [] → p ∈ path_prefixes p.
Proof.
  destruct p as [|a l _] using rev_ind; [done|]. intros _.
  rewrite path_prefixes_snoc. apply elem_of_app. right. by left.
Qed.

Lemma path_prefixes_inv (p q : Path) :
  q ∈ path_prefixes p → q ≠ [] ∧ q `prefix_of` p.
Proof.
  unfold path_prefixes. intros H. apply list_elem_of_fmap in H as (n & -> & Hn).
  apply elem_of_seq in Hn. split.
  - destruct p; simpl in *; [lia|]. destruct n; [lia|done].
  - apply prefix_take.
Qed.

Lemma path_prefixes_mono (p q : Path) (a : string) :
  q ∈ path_prefixes p → q ∈ path_prefixes (p ++ [a]).
Proof. intros H. rewrite path_prefixes_snoc. apply elem_of_app. by left. Qed.

Lemma mkdir_frame_refl (p : Path) (w : World) : mkdir_frame p w w.
Proof.
  split_and!; [done| |by intros q; left].
  exists []. split; [by rewrite app_nil_r|constructor].
Qed.

Lemma mkdir_frame_trans (p p' : Path) (w1 w2 w3 : World) :
  (∀ q, q ∈ path_prefixes p → q ∈ path_prefixes p') →
  mkdir_frame p w1 w2 → mkdir_frame p' w2 w3 → mkdir_frame p' w1 w3.
Proof.
  intros Hsub (Ho1 & (evs1 & Ht1 & He1) & Hf1) (Ho2 & (evs2 & Ht2 & He2) & Hf2).
  split_and!.
  - congruence.
  - exists (evs1 ++ evs2). split; [by rewrite Ht2, Ht1, app_assoc|by apply Forall_app].
  - intros q. destruct (Hf1 q) as [E1|(N1 & D1 & P1)], (Hf2 q) as [E2|(N2 & D2 & P2)].
    + left. congruence.
    + right. split_and!; [congruence|done|done].
    + right. split_and!; [done|congruence|by apply Hsub].
    + congruence.
Qed.

Lemma mkdir_frame_event (p q : Path) (w : World) :
  mkdir_frame p w (add_event (EvMkdir q) w).
Proof.
  split_and!; [done| |by intros q'; left].
  exists [EvMkdir q]. split; [done|]. repeat constructor. by exists q.
Qed.

Lemma path_prefixes_not_snoc (l q : Path) (a : string) :
  q ∈ path_prefixes l → q ≠ l ++ [a].
Proof.
  intros H ->. apply path_prefixes_inv in H as [_ H].
  apply prefix_length in H. rewrite length_app in H. simpl in H. lia.
Qed.

Lemma Path_mkdir_single_post (exist_ok : bool) (p : Path) (w : World) :
  mkdir_post p w (Path_mkdir_single exist_ok p w).
Proof.
  unfold Path_mkdir_single, try_except, os_mkdir, mkdir_post.
  destruct (node_at (fs w) p) as [n|] eqn:Hp.
  - cbn [is_FileNotFoundError exn_class]. unfold bind, Path_is_dir.
    cbn [fs add_event]. rewrite Hp.
    destruct n, exist_ok; cbn [negb orb]; unfold raise, ret; cbn [fst snd];
      (split_and!; [apply mkdir_frame_event|by exists []|done|try done]).
  - assert (Hne : p ≠ []) by (by intros ->).
    destruct (node_at (fs w) (parent p)) as [[|data]|] eqn:Hpar.
    + cbn [fst snd]. split_and!; [|by exists []|done|].
      * split_and!; [done|..].
        -- exists [EvMkdir p]. split; [done|]. repeat constructor. by exists p.
        -- intros q. cbn [fs set_fs]. destruct (decide (p = q)) as [<-|Hq].
           ++ right. rewrite lookup_insert_eq. rewrite <-node_at_lookup by done.
              split_and!; [done|done|by apply path_prefixes_self].
           ++ left. by rewrite lookup_insert_ne.
      * intros _. cbn [fs set_fs]. by apply node_at_insert_eq.
    + cbn [is_FileNotFoundError exn_class]. unfold bind, Path_is_dir.
      cbn [fs add_event]. rewrite Hp. rewrite orb_true_r. unfold raise. cbn [fst snd].
      split_and!; [apply mkdir_frame_event|by exists []|done|done].
    + cbn [is_FileNotFoundError exn_class]. unfold raise. cbn [fst snd].
      split_and!; [apply mkdir_frame_event|by exists []|done|done].
Qed.

Lemma Path_mkdir_rev_post (exist_ok : bool) (rp : list string) (w : World) :
  mkdir_post (rev rp) w (Path_mkdir_rev exist_ok rp w).
Proof.
  revert exist_ok w. induction rp as [|a rp IH]; intros exist_ok w.
  - (* the anchor always exists *)
    unfold Path_mkdir_rev, try_except, os_mkdir, mkdir_post. cbn [rev node_at].
    cbn [is_FileNotFoundError exn_class]. unfold bind, Path_is_dir. cbn [node_at].
    destruct exist_ok; cbn [negb orb]; unfold raise, ret; cbn [fst snd];
      (split_and!; [apply mkdir_frame_event|by exists []|done|done]).
  - pose proof (Path_mkdir_single_post exist_ok (rev (a :: rp)) w) as Hsingle.
    cbn [Path_mkdir_rev]. unfold Path_mkdir_single in Hsingle.
    unfold try_except in *.
    destruct (os_mkdir (rev (a :: rp)) w) as [[[]|e|c] w1] eqn:Hos; [done| |done].
    destruct (is_FileNotFoundError e) eqn:HFNF; [|done].
    (* the parent is missing: create it, then try again *)
    assert (Hw1 : w1 = add_event (EvMkdir (rev (a :: rp))) w).
    { revert Hos. unfold os_mkdir.
      repeat (case_match; try done); by intros [= <- <-]. }
    clear Hsingle. unfold bind at 1.
    specialize (IH true w1). destruct (Path_mkdir_rev true rp w1) as [[[]|e'|c'] w2].
    + pose proof (Path_mkdir_single_post exist_ok (rev (a :: rp)) w2) as Hs.
      destruct (Path_mkdir_single exist_ok (rev (a :: rp)) w2) as [r3 w3].
      destruct IH as (Hf2 & (evs2 & Ht2) & _ & _).
      destruct Hs as (Hf3 & (evs3 & Ht3) & Hx3 & Hd3). cbn [fst snd] in *.
      split_and!; [| |done|done].
      * apply (mkdir_frame_trans (rev (a :: rp)) _ w w1); [done|subst w1; apply mkdir_frame_event|].
        apply (mkdir_frame_trans (rev rp) _ w1 w2); [|done|done].
        intros q Hq. cbn [rev]. by apply path_prefixes_mono.
      * exists (EvMkdir (rev rp) :: evs2 ++ EvMkdir (rev (a :: rp)) :: evs3).
        cbn [snd]. rewrite Ht3, Ht2. subst w1. cbn [trace add_event].
        by rewrite <-!app_assoc.
    + destruct IH as (Hf2 & (evs2 & Ht2) & _ & _). cbn [fst snd] in *.
      split_and!; [| |done|done].
      * apply (mkdir_frame_trans (rev (a :: rp)) _ w w1); [done|subst w1; apply mkdir_frame_event|].
        apply (mkdir_frame_trans (rev rp) _ w1 w2 w2); [|done|apply mkdir_frame_refl].
        intros q Hq. cbn [rev]. by apply path_prefixes_mono.
      * exists (EvMkdir (rev rp) :: evs2). cbn [snd]. rewrite Ht2. subst w1.
        cbn [trace add_event]. by rewrite <-!app_assoc.
    + destruct IH as (_ & _ & Hx & _). by destruct (Hx c').
Qed.

Lemma Path_mkdir_single_ok (exist_ok : bool) (p : Path) (w : World) :
  node_at (fs w) p = None → node_at (fs w) (parent p) = Some Dir →
  Path_mkdir_single exist_ok p w
  = (Ok tt, set_fs (<[p := Dir]> (fs w)) (add_event (EvMkdir p) w)).
Proof.
  intros Hp Hpar. unfold Path_mkdir_single, try_except, os_mkdir.
  by rewrite Hp, Hpar.
Qed.

Lemma closed_chain (m : gmap Path Node) (p : Path) :
  fs_closed m → is_Some (node_at m p) →
  Forall (λ q, is_Some (m !! q)) (path_prefixes p).
Proof.
  intros Hc. induction p as [|a l IH] using rev_ind; intros Hp.
  - constructor.
  - rewrite path_prefixes_snoc. apply Forall_app. split.
    + apply IH. destruct Hp as [n Hn].
      rewrite node_at_lookup in Hn by (by destruct l).
      apply Hc in Hn. by rewrite parent_snoc in Hn.
    + repeat constructor. rewrite node_at_lookup in Hp; [done|by destruct l].
Qed.

Lemma dirs_on_of_closed (m : gmap Path Node) (p : Path) :
  fs_closed m → no_file_on m p → is_Some (node_at m p) → dirs_on m p.
Proof.
  intros Hc Hnf Hp. pose proof (closed_chain m p Hc Hp) as Hall.
  unfold dirs_on, no_file_on in *. rewrite Forall_forall in *.
  intros q Hq. specialize (Hnf q Hq). destruct (Hall q Hq) as [[|data] Hn];
    rewrite Hn in *; done.
Qed.

Lemma no_file_on_snoc (m : gmap Path Node) (l : Path) (a : string) :
  no_file_on m (l ++ [a]) → no_file_on m l ∧ is_file (m !! (l ++ [a])) = false.
Proof.
  unfold no_file_on. rewrite path_prefixes_snoc, Forall_app, Forall_singleton. done.
Qed.

Lemma no_file_node_at (m : gmap Path Node) (p : Path) :
  no_file_on m p → is_file (node_at m p) = false.
Proof.
  destruct p as [|a l _] using rev_ind; [done|]. intros [_ H]%no_file_on_snoc.
  rewrite node_at_lookup; [done|by destruct l].
Qed.

(** When no file is in the way, [mkdir(parents=True, exist_ok=True)]
    succeeds; in a closed file system it leaves the whole chain of
    directories in place. *)
Lemma Path_mkdir_rev_ok (rp : list string) (w : World) :
  no_file_on (fs w) (rev rp) →
  ∃ w', Path_mkdir_rev true rp w = (Ok tt, w')
        ∧ (fs_closed (fs w) → dirs_on (fs w') (rev rp)).
Proof.
  revert w. induction rp as [|a rp IH]; intros w Hnf.
  - eexists. split; [reflexivity|]. intros _. constructor.
  - pose proof (Path_mkdir_rev_post true rp (add_event (EvMkdir (rev (a :: rp))) w)) as Hpost.
    specialize (IH (add_event (EvMkdir (rev (a :: rp))) w)).
    cbn [Path_mkdir_rev]. unfold try_except, os_mkdir.
    assert (Hne : rev (a :: rp) ≠ []) by (cbn [rev]; by destruct (rev rp)).
    pose proof (no_file_node_at _ _ Hnf) as Hnfp.
    cbn [rev] in Hnf. apply no_file_on_snoc in Hnf as [Hnfl Hnfa].
    pose proof (no_file_node_at _ _ Hnfl) as Hnfpar.
    assert (Hpar : parent (rev (a :: rp)) = rev rp) by (cbn [rev]; apply parent_snoc).
    rewrite Hpar.
    destruct (node_at (fs w) (rev (a :: rp))) as [n|] eqn:Hp.
    + (* already there *)
      destruct n as [|data]; [|done].
      cbn [is_FileNotFoundError exn_class]. unfold bind, Path_is_dir.
      cbn [fs add_event]. rewrite ?Hp. cbn [negb orb]. unfold ret.
      eexists. split; [reflexivity|]. intros Hc. cbn [fs add_event].
      apply dirs_on_of_closed; [done| |by rewrite Hp].
      cbn [rev]. unfold no_file_on. rewrite path_prefixes_snoc, Forall_app, Forall_singleton.
      done.
    + destruct (node_at (fs w) (rev rp)) as [[|data]|] eqn:Hpr; [| done |].
      * (* the parent is there *)
        eexists. split; [reflexivity|]. cbn [fs set_fs add_event]. intros Hc.
        unfold dirs_on. cbn [rev]. rewrite path_prefixes_snoc, Forall_app, Forall_singleton.
        split; [|by rewrite lookup_insert_eq].
        assert (Hd : dirs_on (fs w) (rev rp)).
        { apply dirs_on_of_closed; [done|done|by rewrite Hpr]. }
        unfold dirs_on in Hd. rewrite Forall_forall in *. intros q Hq.
        rewrite lookup_insert_ne; [by apply Hd|].
        intros Heq. by apply (path_prefixes_not_snoc (rev rp) q a).
      * (* the parent is missing *)
        cbn [is_FileNotFoundError exn_class]. unfold bind at 1.
        destruct (IH Hnfl) as (w2 & Hrun & Hdirs). rewrite Hrun in *.
        destruct Hpost as ((_ & _ & Hfr) & _ & _ & Hdir). cbn [fst snd] in *.
        rewrite Path_mkdir_single_ok.
        -- eexists. split; [reflexivity|]. cbn [fs set_fs add_event]. intros Hc.
           unfold dirs_on. cbn [rev].
           rewrite path_prefixes_snoc, Forall_app, Forall_singleton.
           split; [|by rewrite lookup_insert_eq].
           specialize (Hdirs Hc). unfold dirs_on in Hdirs.
           rewrite Forall_forall in *. intros q Hq.
           rewrite lookup_insert_ne; [by apply Hdirs|].
           intros Heq. by apply (path_prefixes_not_snoc (rev rp) q a).
        -- rewrite node_at_lookup by done.
           destruct (Hfr (rev (a :: rp))) as [->|(_ & _ & Hin)].
           ++ cbn [fs add_event]. by rewrite <-node_at_lookup.
           ++ cbn [rev] in Hin. by apply (path_prefixes_not_snoc _ _ a) in Hin.
        -- rewrite Hpar. by apply Hdir.
Qed.

Lemma Path_mkdir_parents_post (p : Path) (w : World) :
  mkdir_post p w (Path_mkdir_parents_exist_ok p w).
Proof.
  unfold Path_mkdir_parents_exist_ok.
  pose proof (Path_mkdir_rev_post true (rev p) w) as H. by rewrite rev_involutive in H.
Qed.

Lemma Path_mkdir_parents_ok (p : Path) (w : World) :
  no_file_on (fs w) p →
  ∃ w', Path_mkdir_parents_exist_ok p w = (Ok tt, w')
        ∧ (fs_closed (fs w) → dirs_on (fs w') p).
Proof.
  intros Hnf. unfold Path_mkdir_parents_exist_ok.
  pose proof (Path_mkdir_rev_ok (rev p) w) as H. rewrite rev_involutive in H. auto.
Qed.

(** ** Every run of [main] *)

Lemma ICONS_names_NoDup : NoDup (icon_name <$> ICONS).
Proof. apply (bool_decide_unpack _). by vm_compute. Qed.

(** The four ways [main] can go. *)
Lemma main_cases (w : World) :
  (node_at (fs w) SPRITE_PATH = None ∧ main w = (SysExit 1, at_missing w))
  ∨ (is_Some (node_at (fs w) SPRITE_PATH)
     ∧ ∃ r wm,
         Path_mkdir_parents_exist_ok OUTPUT_DIR (at_mkdir w) = (r, wm)
         ∧ mkdir_post OUTPUT_DIR (at_mkdir w) (r, wm)
         ∧ ((∃ e, r = Raise e ∧ main w = (Raise e, wm))
            ∨ (r = Ok tt
               ∧ ∃ e, PIL_open (fs wm) SPRITE_PATH = inl e
                      ∧ main w = (SysExit 1, add_line (open_error_line e) (at_open wm)))
            ∨ (r = Ok tt
               ∧ ∃ sprite, PIL_open (fs wm) SPRITE_PATH = inr sprite
                           ∧ main w = (Ok tt, at_end sprite wm)))).
Proof.
  rewrite main_run. case_bool_decide as Hex.
  - right. split; [done|].
    pose proof (Path_mkdir_parents_post OUTPUT_DIR (at_mkdir w)) as Hpost.
    destruct (Path_mkdir_parents_exist_ok OUTPUT_DIR (at_mkdir w)) as [r wm].
    exists r, wm. split_and!; [done|done|].
    destruct r as [[]|e|c].
    + right. destruct (PIL_open (fs wm) SPRITE_PATH) as [e|sprite].
      * left. split; [done|]. by exists e.
      * right. split; [done|]. exists sprite. split; [done|].
        rewrite cut_icons_run by apply ICONS_names_NoDup.
        by rewrite Z.add_0_l.
    + left. by exists e.
    + destruct Hpost as (_ & _ & Hx & _). by destruct (Hx c).
  - left. split; [|done].
    destruct (node_at (fs w) SPRITE_PATH) eqn:E; [|done].
    exfalso. apply Hex. by eexists.
Qed.

Lemma mkdir_post_events (p : Path) (w : World) (r : Result unit * World) :
  mkdir_post p w r →
  ∃ mk, trace r.2 = trace w ++ EvMkdir p :: mk ∧ only_mkdirs mk.
Proof.
  intros ((_ & (evs & Ht & Hev) & _) & (mk & Hmk) & _).
  exists mk. split; [done|]. rewrite Ht in Hmk. apply app_inv_head in Hmk. subst evs.
  by apply Forall_cons in Hev as [_ ?].
Qed.

Lemma main_trace (w : World) :
  ∃ evs, trace (main w).2 = trace w ++ evs ∧ main_events evs.
Proof.
  destruct (main_cases w) as [[_ ->]|(_ & r & wm & _ & Hpost & Hcases)].
  - exists [EvExists SPRITE_PATH]. split; [done|by left].
  - pose proof (mkdir_post_events _ _ _ Hpost) as (mk & Ht & Hmk). cbn [snd] in Ht.
    assert (Htr : trace wm = trace w ++ EvExists SPRITE_PATH :: EvMkdir OUTPUT_DIR :: mk).
    { rewrite Ht. cbn. by rewrite <-app_assoc. }
    destruct Hcases as [(e & _ & ->)|[(_ & e & _ & ->)|(_ & sprite & _ & ->)]]; cbn [snd].
    + exists (EvExists SPRITE_PATH :: EvMkdir OUTPUT_DIR :: mk ++ []).
      rewrite app_nil_r. split; [done|]. right. exists mk, []. rewrite app_nil_r. auto.
    + exists (EvExists SPRITE_PATH :: EvMkdir OUTPUT_DIR :: mk ++ [EvOpen SPRITE_PATH]).
      split.
      * cbn. rewrite Htr. by rewrite <-app_assoc.
      * right. exists mk, [EvOpen SPRITE_PATH]. auto.
    + exists (EvExists SPRITE_PATH :: EvMkdir OUTPUT_DIR :: mk
                ++ EvOpen SPRITE_PATH :: (ICONS ≫= icon_events sprite)).
      split.
      * cbn [trace at_end add_lines after_loop at_loop at_open add_event add_line].
        rewrite Htr. by rewrite <-!app_assoc.
      * right. exists mk, (EvOpen SPRITE_PATH :: (ICONS ≫= icon_events sprite)).
        split_and!; [done|done|]. right. right. by exists sprite.
Qed.

(** ** The module body *)

Lemma script_run_installed (w : World) :
  script true w = main (add_event EvImportPIL w).
Proof.
  unfold script, bind, record. by destruct (main (add_event EvImportPIL w)) as [[] ?].
Qed.

Lemma script_run_missing (w : World) :
  script false w = (SysExit 1, add_lines missing_PIL_lines (add_event EvImportPIL w)).
Proof.
  unfold script, bind at 1. unfold record. unfold bind. by rewrite print_all_run.
Qed.

Lemma main_events_no_import (evs : list Event) :
  main_events evs → EvImportPIL ∉ evs.
Proof.
  intros [->|(mk & tl & Hmk & -> & Htl)].
  - by intros ?%list_elem_of_singleton.
  - rewrite !not_elem_of_cons, not_elem_of_app. split_and!; [done|done| |].
    + intros Hin. unfold only_mkdirs in Hmk. rewrite Forall_forall in Hmk.
      by destruct (Hmk _ Hin).
    + destruct Htl as [->|[->|(sprite & ->)]].
      * apply not_elem_of_nil.
      * by intros ?%list_elem_of_singleton.
      * rewrite not_elem_of_cons. split; [done|].
        intros (d & Hev & _)%list_elem_of_bind.
        destruct d as [[[[name x] y] wd] h]. unfold icon_events in Hev.
        destruct (PIL_crop sprite (x, y, x + wd, y + h));
          repeat (apply elem_of_cons in Hev as [Hev|Hev]; [done|]);
          by apply elem_of_nil in Hev.
Qed.

(** ** Runs that reach the loop *)

Lemma fs_frame_existing (p q : Path) (m m' : gmap Path Node) (n : Node) :
  fs_frame p m m' → m !! q = Some n → m' !! q = Some n.
Proof. intros Hf Hq. destruct (Hf q) as [->|(? & _)]; congruence. Qed.

Lemma fs_frame_node_at (p q : Path) (m m' : gmap Path Node) :
  fs_frame p m m' → is_Some (node_at m q) → node_at m' q = node_at m q.
Proof.
  intros Hf [n Hn]. destruct q as [|a q]; [done|]. cbn [node_at] in *.
  rewrite Hn. by eapply fs_frame_existing.
Qed.

Lemma fs_frame_output (name : string) (m m' : gmap Path Node) :
  fs_frame OUTPUT_DIR m m' → m' !! output_path name = m !! output_path name.
Proof.
  intros Hf. destruct (Hf (output_path name)) as [->|(_ & _ & Hin)]; [done|].
  by apply (path_prefixes_not_snoc _ _ (name +:+ ".png")) in Hin.
Qed.

Lemma SPRITE_PATH_not_output (name : string) : SPRITE_PATH ≠ output_path name.
Proof.
  unfold SPRITE_PATH, output_path, OUTPUT_DIR. intros H. apply (f_equal length) in H.
  rewrite !length_app in H. simpl in H. lia.
Qed.

Lemma PIL_open_node_at (m m' : gmap Path Node) (p : Path) :
  node_at m' p = node_at m p → PIL_open m' p = PIL_open m p.
Proof. unfold PIL_open. by intros ->. Qed.

(** Once the output directory is there, whether an icon can be saved only
    depends on what is at its own path. *)
Lemma open_wb_output (m : gmap Path Node) (name : string) :
  node_at m OUTPUT_DIR = Some Dir →
  open_wb m (output_path name)
  = open_wb (<[OUTPUT_DIR := Dir]> m) (output_path name).
Proof.
  intros Hd. unfold open_wb. rewrite parent_output_path, Hd.
  rewrite node_at_insert_eq by apply OUTPUT_DIR_not_nil.
  rewrite node_at_insert_ne; [done|]. intros H. by apply (output_path_not_dir name).
Qed.

Lemma icon_outcome_at_loop (sprite : Sprite) (m m' : gmap Path Node) (d : Icon) :
  fs_frame OUTPUT_DIR m m' → node_at m' OUTPUT_DIR = Some Dir →
  icon_outcome sprite m' d = icon_outcome sprite (<[OUTPUT_DIR := Dir]> m) d.
Proof.
  intros Hf Hd. apply icon_outcome_agree.
  rewrite (open_wb_output m') by done.
  unfold open_wb. rewrite parent_output_path.
  rewrite !node_at_insert_eq by apply OUTPUT_DIR_not_nil.
  rewrite !node_at_insert_ne by (intros H; by apply (output_path_not_dir (icon_name d))).
  rewrite !node_at_lookup by apply output_path_not_nil.
  by rewrite (fs_frame_output _ m m').
Qed.

(** A run in which the sprite opens and nothing blocks the output
    directory reaches the loop and returns. *)
Lemma main_reaches_loop (w : World) (data : list Byte.byte) (sprite : Sprite) :
  fs w !! SPRITE_PATH = Some (File data) →
  PIL_open_bytes data = inr sprite →
  no_file_on (fs w) OUTPUT_DIR →
  ∃ wm, main w = (Ok tt, at_end sprite wm)
        ∧ mkdir_post OUTPUT_DIR (at_mkdir w) (Ok tt, wm)
        ∧ (fs_closed (fs w) → dirs_on (fs wm) OUTPUT_DIR).
Proof.
  intros Hfile Hopen Hnf.
  assert (Hnode : node_at (fs w) SPRITE_PATH = Some (File data)).
  { rewrite node_at_lookup; [done|]. unfold SPRITE_PATH. by destruct PROJECT_ROOT. }
  destruct (Path_mkdir_parents_ok OUTPUT_DIR (at_mkdir w) Hnf) as (wm & Hmk & Hdirs).
  exists wm.
  destruct (main_cases w) as [[Hnone _]|(_ & r & wm' & Hmk' & Hpost & Hcases)];
    [congruence|].
  rewrite Hmk in Hmk'. injection Hmk' as <- <-.
  split_and!; [|done|done].
  assert (Hsame : PIL_open (fs wm) SPRITE_PATH = inr sprite).
  { rewrite (PIL_open_node_at (fs w) (fs wm)).
    - unfold PIL_open. by rewrite Hnode.
    - destruct Hpost as ((_ & _ & Hf) & _). rewrite (fs_frame_node_at _ _ _ _ Hf); [done|].
      cbn [fs at_mkdir add_line add_event add_lines]. by rewrite Hnode. }
  destruct Hcases as [(e & [=] & _)|[(_ & e & He & _)|(_ & sprite' & Hs & ->)]];
    [congruence|].
  rewrite Hsame in Hs. by injection Hs as <-.
Qed.

Lemma count_succeeded_unfold (sprite : Sprite) (m : gmap Path Node) (d : Icon)
    (icons : list Icon) :
  count_succeeded sprite m (d :: icons)
  = (if icon_succeeds sprite m d then 1 else 0) + count_succeeded sprite m icons.
Proof.
  pose proof (count_succeeded_cons sprite m d icons 0) as H.
  destruct (icon_succeeds sprite m d); lia.
Qed.

Lemma loop_agree_in (sprite : Sprite) (m m' : gmap Path Node) (icons : list Icon) :
  (∀ d, d ∈ icons → icon_outcome sprite m d = icon_outcome sprite m' d) →
  (icon_line sprite m <$> icons) = (icon_line sprite m' <$> icons)
  ∧ count_succeeded sprite m icons = count_succeeded sprite m' icons
  ∧ ∀ acc, write_icons sprite m icons acc = write_icons sprite m' icons acc.
Proof.
  induction icons as [|d icons IH]; intros H; [done|].
  destruct IH as (IHl & IHc & IHw); [intros d' Hd'; apply H; by right|].
  destruct (icon_succeeds_agree sprite m m' d) as (Hs & Hl & Hw); [apply H; by left|].
  split_and!.
  - rewrite !fmap_cons. by rewrite Hl, IHl.
  - rewrite !count_succeeded_unfold. by rewrite Hs, IHc.
  - intros acc. rewrite !write_icons_cons. by rewrite Hw, IHw.
Qed.

Lemma loop_agree (sprite : Sprite) (m m' : gmap Path Node) (icons : list Icon) :
  (∀ d, icon_outcome sprite m d = icon_outcome sprite m' d) →
  (icon_line sprite m <$> icons) = (icon_line sprite m' <$> icons)
  ∧ count_succeeded sprite m icons = count_succeeded sprite m' icons
  ∧ ∀ acc, write_icons sprite m icons acc = write_icons sprite m' icons acc.
Proof. intros H. apply loop_agree_in. intros d _. apply H. Qed.

(** The end of a run that reaches the loop, in terms of the world it
    started in: [m1] is the initial file system with the output directory
    in place. *)
Lemma script_reaches_loop (w : World) (data : list Byte.byte) (sprite : Sprite) :
  fs w !! SPRITE_PATH = Some (File data) →
  PIL_open_bytes data = inr sprite →
  no_file_on (fs w) OUTPUT_DIR →
  let m1 := <[OUTPUT_DIR := Dir]> (fs w) in
  ∃ wm mk,
    script true w = (Ok tt, at_end sprite wm)
    ∧ fs_frame OUTPUT_DIR (fs w) (fs wm)
    ∧ node_at (fs wm) OUTPUT_DIR = Some Dir
    ∧ only_mkdirs mk
    ∧ stdout (at_end sprite wm) =
        stdout w ++ preamble sprite ++ (icon_line sprite m1 <$> ICONS)
          ++ summary (count_succeeded sprite m1 ICONS)
    ∧ trace (at_end sprite wm) =
        trace w ++ [EvImportPIL; EvExists SPRITE_PATH; EvMkdir OUTPUT_DIR] ++ mk
          ++ EvOpen SPRITE_PATH :: (ICONS ≫= icon_events sprite)
    ∧ fs (at_end sprite wm) = write_icons sprite m1 ICONS (fs wm)
    ∧ (fs_closed (fs w) → dirs_on (fs wm) OUTPUT_DIR).
Proof.
  intros Hfile Hopen Hnf m1.
  destruct (main_reaches_loop (add_event EvImportPIL w) data sprite Hfile Hopen Hnf)
    as (wm & Hmain & Hpost & Hdirs).
  pose proof (mkdir_post_events _ _ _ Hpost) as (mk & Ht & Hmk).
  destruct Hpost as (Hf & _ & _ & Hd). cbn [fst snd] in *. specialize (Hd eq_refl).
  destruct Hf as (Ho & _ & Hf).
  assert (Hagree : ∀ d, icon_outcome sprite (fs wm) d = icon_outcome sprite m1 d).
  { intros d. by apply icon_outcome_at_loop. }
  destruct (loop_agree sprite (fs wm) m1 ICONS Hagree) as (Hl & Hc & Hw).
  exists wm, mk. rewrite script_run_installed.
  split_and!; [exact Hmain|exact Hf|exact Hd|exact Hmk| | | |exact Hdirs].
  - unfold at_end, after_loop, at_loop, at_open, preamble.
    cbn [stdout add_lines add_line add_event]. rewrite Ho, Hl, Hc.
    cbn [stdout at_mkdir add_lines add_line add_event]. by rewrite <-!app_assoc.
  - unfold at_end, after_loop, at_loop, at_open.
    cbn [trace add_lines add_line add_event]. rewrite Ht.
    cbn [trace at_mkdir add_lines add_line add_event]. by rewrite <-!app_assoc.
  - unfold at_end, after_loop. cbn [fs add_lines]. apply Hw.
Qed.

(** A run in which the sprite exists and nothing blocks the output
    directory gets to [Image.open], which sees the sprite as it was. *)
Lemma main_reaches_open (w : World) :
  is_Some (node_at (fs w) SPRITE_PATH) →
  no_file_on (fs w) OUTPUT_DIR →
  ∃ wm, Path_mkdir_parents_exist_ok OUTPUT_DIR (at_mkdir w) = (Ok tt, wm)
        ∧ mkdir_post OUTPUT_DIR (at_mkdir w) (Ok tt, wm)
        ∧ PIL_open (fs wm) SPRITE_PATH = PIL_open (fs w) SPRITE_PATH.
Proof.
  intros Hex Hnf.
  destruct (Path_mkdir_parents_ok OUTPUT_DIR (at_mkdir w) Hnf) as (wm & Hmk & _).
  pose proof (Path_mkdir_parents_post OUTPUT_DIR (at_mkdir w)) as Hpost.
  rewrite Hmk in Hpost. exists wm. split_and!; [done|done|].
  apply PIL_open_node_at. destruct Hpost as ((_ & _ & Hf) & _).
  by rewrite (fs_frame_node_at _ _ _ _ Hf).
Qed.

Lemma main_open_fails (w : World) (e : Exn) :
  is_Some (node_at (fs w) SPRITE_PATH) →
  PIL_open (fs w) SPRITE_PATH = inl e →
  no_file_on (fs w) OUTPUT_DIR →
  ∃ wm, main w = (SysExit 1, add_line (open_error_line e) (at_open wm))
        ∧ mkdir_post OUTPUT_DIR (at_mkdir w) (Ok tt, wm).
Proof.
  intros Hex Hopen Hnf.
  destruct (main_reaches_open w Hex Hnf) as (wm & Hmk & Hpost & Hsame).
  exists wm. split; [|done].
  rewrite main_run, bool_decide_eq_true_2 by done.
  by rewrite Hmk, Hsame, Hopen.
Qed.

(** ** One descriptor on its own *)

Lemma alone_run (sprite : Sprite) (m : gmap Path Node) (d : Icon) :
  alone sprite m d =
    (Ok (if icon_succeeds sprite m d then 1 else 0),
     mkWorld (icon_write sprite m d m) [icon_line sprite m d] (icon_events sprite d)).
Proof. unfold alone. rewrite cut_icon_run. cbn. by destruct (icon_succeeds sprite m d). Qed.

Lemma alone_lines (sprite : Sprite) (m : gmap Path Node) (icons : list Icon) :
  (icons ≫= λ d, stdout (alone sprite m d).2) = (icon_line sprite m <$> icons).
Proof.
  induction icons as [|d icons IH]; [done|].
  rewrite bind_cons, fmap_cons, IH, alone_run. done.
Qed.

Lemma alone_count (sprite : Sprite) (m : gmap Path Node) (icons : list Icon) :
  foldr (λ d n, counted (alone sprite m d) + n) 0 icons = count_succeeded sprite m icons.
Proof.
  induction icons as [|d icons IH]; [done|].
  cbn [foldr]. rewrite IH, count_succeeded_unfold, alone_run. unfold counted. cbn [fst].
  done.
Qed.

Lemma final_output_lookup (sprite : Sprite) (m wm_fs : gmap Path Node) (d : Icon) :
  d ∈ ICONS →
  fs_frame OUTPUT_DIR m wm_fs →
  write_icons sprite (<[OUTPUT_DIR := Dir]> m) ICONS wm_fs !! output_path (icon_name d)
  = match icon_outcome sprite (<[OUTPUT_DIR := Dir]> m) d with
    | inr icon => Some (File (PNG_encode icon))
    | inl _ => m !! output_path (icon_name d)
    end.
Proof.
  intros Hd Hf. rewrite write_icons_lookup by (apply ICONS_names_NoDup || done).
  destruct (icon_outcome _ _ d); [|done]. by apply fs_frame_output.
Qed.

(** ** The summary *)

Lemma count_succeeded_bounds (sprite : Sprite) (m : gmap Path Node) (icons : list Icon) :
  0 ≤ count_succeeded sprite m icons ≤ Z.of_nat (length icons).
Proof.
  unfold count_succeeded. split; [lia|].
  apply Nat2Z.inj_le, length_filter.
Qed.

Lemma all_succeeded_line_in_summary (n : Z) :
  all_succeeded_line ∈ summary n ↔ n = len_ICONS.
Proof.
  unfold summary. case_bool_decide as Hn.
  - split; [done|]. intros _. cbn. right. right. left.
  - split; [|done]. cbn. intros Hin.
    repeat (apply elem_of_cons in Hin as [Hin|Hin];
            [exfalso; revert Hin;
             unfold all_succeeded_line, some_failed_line, count_line, nl; simpl;
             discriminate|]).
    by apply elem_of_nil in Hin.
Qed.

Lemma some_failed_line_in_summary (n : Z) :
  n ≠ len_ICONS → some_failed_line (len_ICONS - n) ∈ summary n.
Proof.
  intros Hn. unfold summary. rewrite bool_decide_eq_false_2 by done.
  cbn. right. right. left.
Qed.

Lemma some_failed_line_iff (n : Z) :
  some_failed_line (len_ICONS - n) ∈ summary n ↔ n ≠ len_ICONS.
Proof.
  split; [|apply some_failed_line_in_summary].
  intros Hin Hn. revert Hin. unfold summary. rewrite bool_decide_eq_true_2 by done.
  cbn. intros Hin.
  repeat (apply elem_of_cons in Hin as [Hin|Hin];
          [exfalso; revert Hin;
           unfold all_succeeded_line, some_failed_line, count_line, nl; simpl;
           discriminate|]).
  by apply elem_of_nil in Hin.
Qed.

(** The summary, line by line. *)
Lemma summary_lines (n : Z) :
  summary n =
    [ nl +:+ str_repeat "=" 50;
      "🎉 Terminé ! " +:+ pretty n +:+ "/16 icônes créées" ]
    ++ (if bool_decide (n = 16)
        then [ nl +:+ "✨ Toutes les icônes ont été découpées avec succès !";
               "🚀 Vous pouvez maintenant compiler et tester la carte" ]
        else [ nl +:+ "⚠️  " +:+ pretty (16 - n) +:+ " icône(s) n'ont pas pu être créées" ])
    ++ [ nl +:+ "📁 Icônes sauvegardées dans :"; "   " +:+ path_str OUTPUT_DIR ].
Proof. reflexivity. Qed.

(** ** Cropping *)

Lemma crop_region_pixel (width height : Z) (rows : list (list Z))
    (x0 y0 x1 y1 i j : Z) :
  0 ≤ i < x1 - x0 → 0 ≤ j < y1 - y0 →
  pixel_at (im_rows (crop_region width height rows (x0, y0, x1, y1))) i j
  = Some (crop_pixel width height rows (x0 + i) (y0 + j)).
Proof.
  intros Hi Hj. unfold pixel_at, crop_region. cbn [im_rows].
  replace (i <? 0) with false by lia. replace (j <? 0) with false by lia.
  cbn [orb]. rewrite list_lookup_fmap, lookup_seqZ_lt by lia. cbn [fmap option_fmap option_map mbind option_bind].
  rewrite list_lookup_fmap, lookup_seqZ_lt by lia. cbn [fmap option_fmap option_map].
  by rewrite !Z2Nat.id, !Z.add_0_l by lia.
Qed.

Lemma crop_region_raster (width height : Z) (rows : list (list Z)) (x0 y0 x1 y1 : Z) :
  raster_ok (x1 - x0) (y1 - y0) (im_rows (crop_region width height rows (x0, y0, x1, y1))).
Proof.
  unfold raster_ok, crop_region. cbn [im_rows]. split.
  - by rewrite length_fmap, length_seqZ.
  - apply Forall_fmap, Forall_forall. intros j _. cbn.
    by rewrite length_fmap, length_seqZ.
Qed.

Lemma raster_pixel (width height : Z) (rows : list (list Z)) (x y : Z) :
  raster_ok width height rows → 0 ≤ x < width → 0 ≤ y < height →
  is_Some (pixel_at rows x y).
Proof.
  intros [Hlen Hrows] Hx Hy. unfold pixel_at.
  replace (x <? 0) with false by lia. replace (y <? 0) with false by lia. cbn [orb].
  destruct (lookup_lt_is_Some_2 rows (Z.to_nat y)) as [row Hrow]; [lia|].
  rewrite Hrow. cbn. apply lookup_lt_is_Some_2.
  rewrite Forall_forall in Hrows. rewrite (Hrows row); [lia|].
  by eapply list_elem_of_lookup_2.
Qed.

Lemma crop_pixel_inside (width height : Z) (rows : list (list Z)) (x y : Z) :
  raster_ok width height rows → 0 ≤ x < width → 0 ≤ y < height →
  Some (crop_pixel width height rows x y) = pixel_at rows x y.
Proof.
  intros Hok Hx Hy. destruct (raster_pixel _ _ _ _ _ Hok Hx Hy) as [v Hv].
  unfold crop_pixel. rewrite Hv.
  replace (0 <=? x) with true by lia. replace (x <? width) with true by lia.
  replace (0 <=? y) with true by lia. replace (y <? height) with true by lia.
  done.
Qed.

Lemma crop_pixel_outside (width height : Z) (rows : list (list Z)) (x y : Z) :
  width ≤ x ∨ height ≤ y → crop_pixel width height rows x y = 0.
Proof.
  intros H. unfold crop_pixel.
  destruct (0 <=? x), (x <? width) eqn:Hx, (0 <=? y), (y <? height) eqn:Hy; try done; lia.
Qed.

Lemma ICONS_in_sheet :
  Forall (λ d : string * Z * Z * Z * Z,
            let '(_, x, y, wd, h) := d in
            0 ≤ x ∧ 0 ≤ y ∧ 0 < wd ∧ 0 < h ∧ x + wd ≤ 1550 ∧ y + h ≤ 50) ICONS.
Proof. unfold ICONS. repeat (constructor; [cbn; lia|]). constructor. Qed.

Lemma PIL_crop_loaded (sprite : Sprite) (rows : list (list Z)) (x y wd h : Z) :
  sprite_load sprite = inr rows → 0 ≤ wd → 0 ≤ h →
  PIL_crop sprite (x, y, x + wd, y + h)
  = inr (crop_region (sprite_width sprite) (sprite_height sprite) rows (x, y, x + wd, y + h)).
Proof.
  intros Hload Hw Hh. unfold PIL_crop. rewrite Hload.
  replace (x + wd <? x) with false by lia. by replace (y + h <? y) with false by lia.
Qed.

(** With the output directory in place, an icon can be saved unless a
    directory sits at its path. *)
Lemma open_wb_free (m : gmap Path Node) (name : string) :
  m !! output_path name ≠ Some Dir →
  open_wb (<[OUTPUT_DIR := Dir]> m) (output_path name) = None.
Proof.
  intros Hfree. unfold open_wb. rewrite parent_output_path.
  rewrite node_at_insert_eq by apply OUTPUT_DIR_not_nil.
  rewrite node_at_insert_ne by (intros H; by apply (output_path_not_dir name)).
  rewrite node_at_lookup by apply output_path_not_nil.
  by destruct (m !! output_path name) as [[]|].
Qed.

Lemma icon_outcome_loaded (sprite : Sprite) (rows : list (list Z)) (m : gmap Path Node)
    (name : string) (x y wd h : Z) :
  sprite_load sprite = inr rows → 0 ≤ wd → 0 ≤ h →
  m !! output_path name ≠ Some Dir →
  icon_outcome sprite (<[OUTPUT_DIR := Dir]> m) (name, x, y, wd, h)
  = inr (crop_region (sprite_width sprite) (sprite_height sprite) rows (x, y, x + wd, y + h)).
Proof.
  intros Hload Hw Hh Hfree. unfold icon_outcome.
  by rewrite (PIL_crop_loaded _ rows), open_wb_free.
Qed.

(** ** The saves of a run *)

Lemma saved_paths_app (evs1 evs2 : list Event) :
  saved_paths (evs1 ++ evs2) = saved_paths evs1 ++ saved_paths evs2.
Proof. apply bind_app. Qed.

Lemma saved_paths_mkdirs (mk : list Event) : only_mkdirs mk → saved_paths mk = [].
Proof.
  induction 1 as [|ev mk [q ->] _ IH]; [done|].
  unfold saved_paths in *. by rewrite bind_cons, IH.
Qed.

Lemma saved_paths_icons (sprite : Sprite) (icons : list Icon) :
  saved_paths (icons ≫= icon_events sprite)
  = icons ≫= λ d, let '(name, x, y, wd, h) := d in
                  match PIL_crop sprite (x, y, x + wd, y + h) with
                  | inl _ => []
                  | inr _ => [output_path name]
                  end.
Proof.
  induction icons as [|d icons IH]; [done|].
  rewrite !bind_cons, saved_paths_app, IH. f_equal.
  destruct d as [[[[name x] y] wd] h]. unfold icon_events.
  by destruct (PIL_crop sprite (x, y, x + wd, y + h)).
Qed.

Lemma saved_paths_icons_all (sprite : Sprite) (icons : list Icon) :
  Forall (λ d : string * Z * Z * Z * Z,
            let '(_, x, y, wd, h) := d in
            ∃ icon, PIL_crop sprite (x, y, x + wd, y + h) = inr icon) icons →
  saved_paths (icons ≫= icon_events sprite) = (λ d, output_path (icon_name d)) <$> icons.
Proof.
  rewrite saved_paths_icons.
  induction 1 as [|d icons Hd _ IH]; [done|].
  rewrite bind_cons, fmap_cons, IH. destruct d as [[[[name x] y] wd] h].
  by destruct Hd as [icon ->].
Qed.

(** A run on a sprite whose pixel data load, when no directory sits at the
    path of an icon: every descriptor gets the file of its crop. *)
Lemma script_cuts_all (w : World) (data : list Byte.byte) (sprite : Sprite)
    (rows : list (list Z)) :
  fs w !! SPRITE_PATH = Some (File data) →
  PIL_open_bytes data = inr sprite →
  sprite_load sprite = inr rows →
  no_file_on (fs w) OUTPUT_DIR →
  (∀ d, d ∈ ICONS → fs w !! output_path (icon_name d) ≠ Some Dir) →
  let r := script true w in
  exit_status r = 0
  ∧ (∃ evs, trace (final r) = trace w ++ evs
            ∧ saved_paths evs = (λ d, output_path (icon_name d)) <$> ICONS)
  ∧ ∀ name x y wd h,
      (name, x, y, wd, h) ∈ ICONS →
      0 ≤ x ∧ 0 ≤ y ∧ 0 < wd ∧ 0 < h ∧ x + wd ≤ 1550 ∧ y + h ≤ 50
      ∧ fs (final r) !! output_path name
        = Some (File (PNG_encode
            (crop_region (sprite_width sprite) (sprite_height sprite) rows
               (x, y, x + wd, y + h)))).
Proof.
  intros Hfile Hopen Hload Hnf Hfree r. subst r.
  destruct (script_reaches_loop w data sprite Hfile Hopen Hnf)
    as (wm & mk & -> & Hf & Hd & Hmk & Hout & Htr & Hfs & _).
  unfold exit_status, final. cbn [fst snd].
  pose proof ICONS_in_sheet as Hsheet. rewrite Forall_forall in Hsheet.
  split_and!; [done| |].
  - eexists. split; [exact Htr|].
    rewrite !saved_paths_app, (saved_paths_mkdirs mk) by done.
    cbn [app]. change (EvOpen SPRITE_PATH :: ?l) with ([EvOpen SPRITE_PATH] ++ l).
    rewrite saved_paths_app. cbn [app]. apply saved_paths_icons_all.
    apply Forall_forall. intros [[[[name x] y] wd] h] Hin.
    specialize (Hsheet _ Hin). cbn in Hsheet.
    eexists. apply (PIL_crop_loaded _ rows); [done|lia|lia].
  - intros name x y wd h Hin. pose proof (Hsheet _ Hin) as Hb. cbn in Hb.
    split_and!; [lia..|].
    pose proof (final_output_lookup sprite (fs w) (fs wm) _ Hin Hf) as Hl.
    cbn [icon_name] in Hl. rewrite Hfs, Hl.
    rewrite (icon_outcome_loaded _ rows); [done|done|lia|lia|].
    by apply (Hfree _ Hin).
Qed.

Lemma free_paths (m : gmap Path Node) :
  Forall (λ d, is_dir (m !! output_path (icon_name d)) = false) ICONS →
  ∀ d, d ∈ ICONS → m !! output_path (icon_name d) ≠ Some Dir.
Proof.
  rewrite Forall_forall. intros H d Hd Heq. specialize (H d Hd). by rewrite Heq in H.
Qed.

(** ** Running again *)

Lemma Path_mkdir_existing (p : Path) (w : World) :
  node_at (fs w) p = Some Dir →
  Path_mkdir_parents_exist_ok p w = (Ok tt, add_event (EvMkdir p) w).
Proof.
  intros Hp. unfold Path_mkdir_parents_exist_ok.
  assert (Hrev : node_at (fs w) (rev (rev p)) = Some Dir) by (by rewrite rev_involutive).
  rewrite <-(rev_involutive p) at 2.
  destruct (rev p) as [|a rp]; cbn [Path_mkdir_rev]; unfold try_except, os_mkdir;
    rewrite Hrev; cbn [is_FileNotFoundError exn_class]; unfold bind, Path_is_dir;
    cbn [fs add_event]; by rewrite Hrev.
Qed.

Lemma write_icons_idem (sprite : Sprite) (m acc : gmap Path Node) :
  write_icons sprite m ICONS (write_icons sprite m ICONS acc)
  = write_icons sprite m ICONS acc.
Proof.
  apply map_eq. intros q.
  destruct (decide (q ∈ (λ d, output_path (icon_name d)) <$> ICONS)) as [Hin|Hout].
  - apply list_elem_of_fmap in Hin as (d & -> & Hd).
    rewrite !(write_icons_lookup _ _ _ _ d) by (apply ICONS_names_NoDup || done).
    by destruct (icon_outcome sprite m d).
  - rewrite !write_icons_other; [done|..];
      intros d Hd ->; apply Hout;
      by apply (list_elem_of_fmap_2 (λ d, output_path (icon_name d))).
Qed.

(** What the loop wrote does not change whether an icon can be saved. *)
Lemma open_wb_after_loop (sprite : Sprite) (m : gmap Path Node) (d : Icon) :
  d ∈ ICONS →
  open_wb (write_icons sprite m ICONS m) (output_path (icon_name d))
  = open_wb m (output_path (icon_name d))
  ∨ ∃ icon, icon_outcome sprite m d = inr icon.
Proof.
  intros Hd. destruct (icon_outcome sprite m d) as [e|icon] eqn:Hout; [left|right; by eexists].
  unfold open_wb. rewrite parent_output_path.
  assert (Hdir : node_at (write_icons sprite m ICONS m) OUTPUT_DIR = node_at m OUTPUT_DIR).
  { rewrite !node_at_lookup by apply OUTPUT_DIR_not_nil. apply write_icons_other.
    intros d' _ H. by apply (output_path_not_dir (icon_name d')). }
  rewrite Hdir. rewrite !(node_at_lookup _ (output_path _)) by apply output_path_not_nil.
  rewrite write_icons_lookup by (apply ICONS_names_NoDup || done). by rewrite Hout.
Qed.

Lemma icon_outcome_after_loop (sprite : Sprite) (m : gmap Path Node) (d : Icon) :
  d ∈ ICONS →
  icon_outcome sprite (write_icons sprite m ICONS m) d = icon_outcome sprite m d.
Proof.
  intros Hd. destruct (open_wb_after_loop sprite m d Hd) as [Heq|[icon Hout]].
  - by apply icon_outcome_agree.
  - rewrite Hout. destruct d as [[[[name x] y] wd] h]. unfold icon_outcome in *.
    destruct (PIL_crop sprite (x, y, x + wd, y + h)) as [e|icon'] eqn:Hcrop; [done|].
    destruct (open_wb m (output_path name)) as [e|] eqn:Hm; [done|].
    injection Hout as ->.
    assert (Hnone : open_wb (write_icons sprite m ICONS m) (output_path name) = None);
      [|by rewrite Hnone].
    pose proof Hm as Hm'.
    revert Hm. unfold open_wb. rewrite parent_output_path.
    assert (Hdir : node_at (write_icons sprite m ICONS m) OUTPUT_DIR = node_at m OUTPUT_DIR).
    { rewrite !node_at_lookup by apply OUTPUT_DIR_not_nil. apply write_icons_other.
      intros d' _ H. by apply (output_path_not_dir (icon_name d')). }
    rewrite Hdir. destruct (node_at m OUTPUT_DIR) as [[|data]|]; [|done..].
    intros _. rewrite (node_at_lookup _ (output_path _)) by apply output_path_not_nil.
    pose proof (write_icons_lookup sprite m ICONS m _ ICONS_names_NoDup Hd) as Hl.
    cbn [icon_name] in Hl. rewrite Hl. unfold icon_outcome.
    by rewrite Hcrop, Hm'.
Qed.

Lemma PIL_open_exists (m : gmap Path Node) (p : Path) (sprite : Sprite) :
  PIL_open m p = inr sprite → is_Some (node_at m p).
Proof. unfold PIL_open. by destruct (node_at m p). Qed.

(** A run in a world where the output directory is already there. *)
Lemma main_in_place (w : World) (sprite : Sprite) :
  node_at (fs w) OUTPUT_DIR = Some Dir →
  PIL_open (fs w) SPRITE_PATH = inr sprite →
  main w = (Ok tt, at_end sprite (add_event (EvMkdir OUTPUT_DIR) (at_mkdir w))).
Proof.
  intros Hdir Hopen. rewrite main_run.
  rewrite bool_decide_eq_true_2 by (by eapply PIL_open_exists).
  rewrite Path_mkdir_existing by done.
  cbn [fs add_event at_mkdir add_line add_lines]. rewrite Hopen.
  rewrite cut_icons_run by apply ICONS_names_NoDup. by rewrite Z.add_0_l.
Qed.

Lemma after_loop_nodes (sprite : Sprite) (m : gmap Path Node) :
  node_at (write_icons sprite m ICONS m) OUTPUT_DIR = node_at m OUTPUT_DIR
  ∧ node_at (write_icons sprite m ICONS m) SPRITE_PATH = node_at m SPRITE_PATH.
Proof.
  split.
  - rewrite !node_at_lookup by apply OUTPUT_DIR_not_nil. apply write_icons_other.
    intros d _ H. by apply (output_path_not_dir (icon_name d)).
  - assert (Hne : SPRITE_PATH ≠ []) by (unfold SPRITE_PATH; by destruct PROJECT_ROOT).
    rewrite !node_at_lookup by done. apply write_icons_other.
    intros d _. apply SPRITE_PATH_not_output.
Qed.

(** ** What any run leaves of the file system *)

Lemma dirs_on_after_loop (sprite : Sprite) (m acc : gmap Path Node) :
  dirs_on acc OUTPUT_DIR → dirs_on (write_icons sprite m ICONS acc) OUTPUT_DIR.
Proof.
  unfold dirs_on. rewrite !Forall_forall. intros H q Hq.
  rewrite write_icons_other; [by apply H|].
  intros d _ ->. by apply (path_prefixes_not_snoc _ _ (icon_name d +:+ ".png")) in Hq.
Qed.

Lemma main_frame (w : World) (q : Path) :
  q ∉ (λ d, output_path (icon_name d)) <$> ICONS →
  fs (main w).2 !! q = fs w !! q
  ∨ (fs w !! q = None ∧ fs (main w).2 !! q = Some Dir ∧ q ∈ path_prefixes OUTPUT_DIR).
Proof.
  intros Hq.
  destruct (main_cases w) as [[_ ->]|(_ & r & wm & _ & Hpost & Hcases)]; [by left|].
  destruct Hpost as ((_ & _ & Hf) & _). cbn [fst snd] in Hf.
  destruct Hcases as [(e & _ & ->)|[(_ & e & _ & ->)|(_ & sprite & _ & ->)]]; cbn [snd].
  - apply Hf.
  - apply Hf.
  - unfold at_end, after_loop. cbn [fs add_lines].
    rewrite write_icons_other; [apply Hf|].
    intros d Hd ->. apply Hq.
    by apply (list_elem_of_fmap_2 (λ d, output_path (icon_name d))).
Qed.

Lemma main_keeps (w : World) (q : Path) (n : Node) :
  fs w !! q = Some n → is_Some (fs (main w).2 !! q).
Proof.
  intros Hn.
  destruct (decide (q ∈ (λ d, output_path (icon_name d)) <$> ICONS)) as [Hin|Hout].
  - destruct (main_cases w) as [[_ ->]|(_ & r & wm & _ & Hpost & Hcases)]; [by eexists|].
    destruct Hpost as ((_ & _ & Hf) & _). cbn [fst snd] in Hf.
    pose proof (fs_frame_existing _ _ _ _ _ Hf Hn) as Hwm.
    cbn [fs at_mkdir add_line add_event add_lines] in Hwm.
    destruct Hcases as [(e & _ & ->)|[(_ & e & _ & ->)|(_ & sprite & _ & ->)]]; cbn [snd];
      [by eexists..|].
    unfold at_end, after_loop. cbn [fs add_lines].
    apply list_elem_of_fmap in Hin as (d & -> & Hd).
    rewrite write_icons_lookup by (apply ICONS_names_NoDup || done).
    destruct (icon_outcome sprite (fs wm) d); by eexists.
  - destruct (main_frame w q Hout) as [->|(? & _)]; [by eexists|congruence].
Qed.

Lemma main_creates (w : World) :
  is_Some (node_at (fs w) SPRITE_PATH) →
  no_file_on (fs w) OUTPUT_DIR →
  node_at (fs (main w).2) OUTPUT_DIR = Some Dir
  ∧ (fs_closed (fs w) → dirs_on (fs (main w).2) OUTPUT_DIR).
Proof.
  intros Hex Hnf.
  destruct (Path_mkdir_parents_ok OUTPUT_DIR (at_mkdir w) Hnf) as (wm & Hmk & Hdirs).
  pose proof (Path_mkdir_parents_post OUTPUT_DIR (at_mkdir w)) as Hpost.
  rewrite Hmk in Hpost. destruct Hpost as (_ & _ & _ & Hd). specialize (Hd eq_refl).
  cbn [fst snd] in Hd.
  rewrite main_run, bool_decide_eq_true_2, Hmk by done.
  destruct (PIL_open (fs wm) SPRITE_PATH) as [e|sprite].
  - cbn [snd fs add_line at_open add_event]. done.
  - rewrite cut_icons_run by apply ICONS_names_NoDup. cbn [snd fs add_lines at_loop].
    cbn [fs at_open add_lines add_line add_event].
    split.
    + by rewrite (proj1 (after_loop_nodes sprite (fs wm))).
    + intros Hc. by apply dirs_on_after_loop, Hdirs.
Qed.

(** ** The order and the targets of the saves *)

Lemma main_events_mkdir_first (evs pre post : list Event) (p : Path) :
  main_events evs → evs = pre ++ EvSave p :: post → EvMkdir OUTPUT_DIR ∈ pre.
Proof.
  intros [->|(mk & tl & _ & -> & _)] Heq.
  - destruct pre as [|a [|b pre]]; done.
  - destruct pre as [|a [|b pre]]; [done|done|].
    injection Heq as _ <- _. right. left.
Qed.

Lemma saved_paths_icons_sublist (sprite : Sprite) (icons : list Icon) :
  saved_paths (icons ≫= icon_events sprite)
  `sublist_of` ((λ d, output_path (icon_name d)) <$> icons).
Proof.
  rewrite saved_paths_icons. induction icons as [|d icons IH]; [done|].
  rewrite bind_cons, fmap_cons. destruct d as [[[[name x] y] wd] h].
  destruct (PIL_crop sprite (x, y, x + wd, y + h)); cbn [app icon_name].
  - by apply sublist_cons.
  - by apply sublist_skip.
Qed.

Lemma output_paths_NoDup : NoDup ((λ d, output_path (icon_name d)) <$> ICONS).
Proof.
  assert (Heq : (λ d, output_path (icon_name d)) <$> ICONS
                = output_path <$> (icon_name <$> ICONS)) by (by rewrite <-list_fmap_compose).
  rewrite Heq.
  apply NoDup_fmap_2; [|apply ICONS_names_NoDup].
  intros a b. apply output_path_inj.
Qed.

Lemma main_events_saved (evs : list Event) :
  main_events evs →
  saved_paths evs `sublist_of` ((λ d, output_path (icon_name d)) <$> ICONS).
Proof.
  intros [->|(mk & tl & Hmk & -> & Htl)]; [apply sublist_nil_l|].
  change (EvExists SPRITE_PATH :: EvMkdir OUTPUT_DIR :: mk ++ tl)
    with ([EvExists SPRITE_PATH; EvMkdir OUTPUT_DIR] ++ mk ++ tl).
  rewrite !saved_paths_app, (saved_paths_mkdirs mk) by done. cbn [app].
  destruct Htl as [->|[->|(sprite & ->)]]; [apply sublist_nil_l..|].
  change (EvOpen SPRITE_PATH :: ?l) with ([EvOpen SPRITE_PATH] ++ l).
  rewrite saved_paths_app. apply saved_paths_icons_sublist.
Qed.

Lemma script_trace (pil_installed : bool) (w : World) :
  ∃ evs, trace (script pil_installed w).2 = trace w ++ EvImportPIL :: evs
         ∧ (evs = [] ∨ main_events evs).
Proof.
  destruct pil_installed.
  - rewrite script_run_installed.
    destruct (main_trace (add_event EvImportPIL w)) as (evs & Ht & Hev).
    exists evs. rewrite Ht. cbn. rewrite <-app_assoc. auto.
  - rewrite script_run_missing. exists []. auto.
Qed.

(** * The specified behaviour *)

(** C1. On a sprite sheet of at least 1550x50 pixels that opens and loads,
    with nothing in the way of the output directory or of the icon files,
    a run exits with status 0 and saves exactly the 16 files
    [OUTPUT_DIR/<name>.png], one per descriptor in the order of [ICONS];
    it leaves no other new file.
    The file of the descriptor (name, x, y, width, height) is the PNG
    encoding of an image of width x height pixels whose pixel (i, j) is the
    pixel (x + i, y + j) of the sheet, for 0 ≤ i < width and 0 ≤ j < height:
    the right and bottom edges x + width and y + height are excluded. *)
Theorem icons_are_cut_out (w : World) (data : list Byte.byte) (sprite : Sprite)
    (rows : list (list Z)) :
  fs w !! SPRITE_PATH = Some (File data) →
  PIL_open_bytes data = inr sprite →
  sprite_load sprite = inr rows →
  raster_ok (sprite_width sprite) (sprite_height sprite) rows →
  1550 ≤ sprite_width sprite →
  50 ≤ sprite_height sprite →
  no_file_on (fs w) OUTPUT_DIR →
  (∀ d, d ∈ ICONS → fs w !! output_path (icon_name d) ≠ Some Dir) →
  let r := script true w in
  exit_status r = 0
  ∧ length ICONS = 16%nat
  ∧ (∃ evs, trace (final r) = trace w ++ evs
            ∧ saved_paths evs = (λ d, OUTPUT_DIR ++ [icon_name d +:+ ".png"]) <$> ICONS)
  ∧ (∀ q data',
       q ∉ (λ d, OUTPUT_DIR ++ [icon_name d +:+ ".png"]) <$> ICONS →
       fs (final r) !! q = Some (File data') → fs w !! q = Some (File data'))
  ∧ ∀ name x y wd h,
      (name, x, y, wd, h) ∈ ICONS →
      ∃ icon,
        fs (final r) !! (OUTPUT_DIR ++ [name +:+ ".png"]) = Some (File (PNG_encode icon))
        ∧ im_width icon = wd ∧ im_height icon = h
        ∧ raster_ok wd h (im_rows icon)
        ∧ ∀ i j, 0 ≤ i < wd → 0 ≤ j < h →
            is_Some (pixel_at rows (x + i) (y + j))
            ∧ pixel_at (im_rows icon) i j = pixel_at rows (x + i) (y + j).
Proof.
  intros Hfile Hopen Hload Hraster Hwidth Hheight Hnf Hfree r.
  destruct (script_cuts_all w data sprite rows Hfile Hopen Hload Hnf Hfree)
    as (Hexit & Hsaves & Hfiles).
  split_and!; [done|done|done| |].
  { intros q data' Hq Hfinal. subst r. unfold final in Hfinal.
    rewrite script_run_installed in Hfinal.
    destruct (main_frame (add_event EvImportPIL w) q Hq) as [Heq|(_ & Hd & _)];
      [|congruence].
    rewrite Heq in Hfinal. exact Hfinal. }
  intros name x y wd h Hin. destruct (Hfiles _ _ _ _ _ Hin) as (Hx & Hy & Hw & Hh & Hr & Hb & Hf).
  eexists. split; [exact Hf|]. split_and!.
  - cbn. lia.
  - cbn. lia.
  - pose proof (crop_region_raster (sprite_width sprite) (sprite_height sprite) rows
                  x y (x + wd) (y + h)) as Hok.
    by replace (x + wd - x) with wd in Hok by lia; replace (y + h - y) with h in Hok by lia.
  - intros i j Hi Hj. split.
    + apply (raster_pixel (sprite_width sprite) (sprite_height sprite)); [done|lia|lia].
    + rewrite crop_region_pixel by lia. apply crop_pixel_inside; [done|lia|lia].
Qed.

(** C2. In a run that reaches the loop, what happens to a descriptor is what
    happens when it is processed on its own in the initial file system
    with the output directory in place ([alone]): the lines of the loop
    are the lines of the descriptors taken one by one, the count of the
    summary is the sum of their counts, and the file of each is the one it
    writes on its own.  A descriptor whose crop or save raises [e] gives
    the line "Erreur avec <name>: <e>", counts for nothing and leaves its
    path as it was; the run still prints the summary and exits with
    status 0. *)
Theorem icon_failures_are_isolated (w : World) (data : list Byte.byte) (sprite : Sprite) :
  fs w !! SPRITE_PATH = Some (File data) →
  PIL_open_bytes data = inr sprite →
  no_file_on (fs w) OUTPUT_DIR →
  let r := script true w in
  let m1 := <[OUTPUT_DIR := Dir]> (fs w) in
  exit_status r = 0
  ∧ stdout (final r) =
      stdout w ++ preamble sprite
        ++ (ICONS ≫= λ d, stdout (alone sprite m1 d).2)
        ++ summary (foldr (λ d n, counted (alone sprite m1 d) + n) 0 ICONS)
  ∧ (∀ d, d ∈ ICONS →
       fs (final r) !! output_path (icon_name d)
       = fs (alone sprite m1 d).2 !! output_path (icon_name d))
  ∧ ∀ name x y wd h e,
      (name, x, y, wd, h) ∈ ICONS →
      PIL_crop sprite (x, y, x + wd, y + h) = inl e
      ∨ ((∃ icon, PIL_crop sprite (x, y, x + wd, y + h) = inr icon)
         ∧ open_wb m1 (output_path name) = Some e) →
      stdout (alone sprite m1 (name, x, y, wd, h)).2
        = [ "   ❌ Erreur avec " +:+ name +:+ ": " +:+ exn_str e ]
      ∧ counted (alone sprite m1 (name, x, y, wd, h)) = 0
      ∧ fs (final r) !! output_path name = fs w !! output_path name.
Proof.
  intros Hfile Hopen Hnf r m1. subst r.
  destruct (script_reaches_loop w data sprite Hfile Hopen Hnf)
    as (wm & mk & -> & Hf & Hd & Hmk & Hout & Htr & Hfs & _).
  fold m1 in Hout, Hfs.
  unfold exit_status, final. cbn [fst snd].
  assert (Hlook : ∀ d, d ∈ ICONS →
            fs (at_end sprite wm) !! output_path (icon_name d)
            = match icon_outcome sprite m1 d with
              | inr icon => Some (File (PNG_encode icon))
              | inl _ => fs w !! output_path (icon_name d)
              end).
  { intros d Hin. rewrite Hfs. by apply final_output_lookup. }
  split_and!.
  - done.
  - by rewrite Hout, alone_lines, alone_count.
  - intros d Hin. rewrite Hlook, alone_run by done. cbn [snd fs]. unfold icon_write.
    destruct (icon_outcome sprite m1 d).
    + unfold m1. rewrite lookup_insert_ne; [done|].
      intros H. by apply (output_path_not_dir (icon_name d)).
    + by rewrite lookup_insert_eq.
  - intros name x y wd h e Hin Hfail.
    assert (Hout' : icon_outcome sprite m1 (name, x, y, wd, h) = inl e).
    { unfold icon_outcome. destruct Hfail as [->|[[icon ->] ->]]; done. }
    rewrite alone_run. unfold counted, icon_succeeds, icon_line. cbn [fst snd stdout].
    rewrite Hout'. split_and!; [done|done|].
    specialize (Hlook _ Hin). rewrite Hout' in Hlook. exact Hlook.
Qed.

(** C3. On a sprite sheet of any size that opens and loads, every
    descriptor still gets its file and the run exits with status 0.  The
    file of a descriptor whose rectangle lies within the sheet holds exactly
    that region.  The file of a descriptor whose rectangle exceeds the sheet
    is degraded: it has the size of the rectangle, its pixels that fall
    within the sheet are those of the sheet, and the others, of which there
    is at least one, are zero. *)
Theorem out_of_bounds_icon_is_degraded (w : World) (data : list Byte.byte)
    (sprite : Sprite) (rows : list (list Z)) :
  fs w !! SPRITE_PATH = Some (File data) →
  PIL_open_bytes data = inr sprite →
  sprite_load sprite = inr rows →
  raster_ok (sprite_width sprite) (sprite_height sprite) rows →
  no_file_on (fs w) OUTPUT_DIR →
  (∀ d, d ∈ ICONS → fs w !! output_path (icon_name d) ≠ Some Dir) →
  let r := script true w in
  let W := sprite_width sprite in
  let H := sprite_height sprite in
  exit_status r = 0
  ∧ ∀ name x y wd h,
      (name, x, y, wd, h) ∈ ICONS →
      ∃ icon,
        fs (final r) !! output_path name = Some (File (PNG_encode icon))
        ∧ im_width icon = wd ∧ im_height icon = h
        ∧ (∀ i j, 0 ≤ i < wd → 0 ≤ j < h →
             (x + i < W → y + j < H →
              pixel_at (im_rows icon) i j = pixel_at rows (x + i) (y + j))
             ∧ (W ≤ x + i ∨ H ≤ y + j → pixel_at (im_rows icon) i j = Some 0))
        ∧ (x + wd ≤ W → y + h ≤ H →
           ∀ i j, 0 ≤ i < wd → 0 ≤ j < h →
             pixel_at (im_rows icon) i j = pixel_at rows (x + i) (y + j))
        ∧ (W < x + wd ∨ H < y + h →
           ∃ i j, 0 ≤ i < wd ∧ 0 ≤ j < h
                  ∧ (W ≤ x + i ∨ H ≤ y + j)
                  ∧ pixel_at (im_rows icon) i j = Some 0).
Proof.
  intros Hfile Hopen Hload Hraster Hnf Hfree r W H.
  destruct (script_cuts_all w data sprite rows Hfile Hopen Hload Hnf Hfree)
    as (Hexit & _ & Hfiles).
  split; [done|].
  intros name x y wd h Hin. destruct (Hfiles _ _ _ _ _ Hin) as (Hx & Hy & Hw & Hh & _ & _ & Hf).
  assert (Hpix : ∀ i j, 0 ≤ i < wd → 0 ≤ j < h →
            (x + i < W → y + j < H →
             pixel_at (im_rows (crop_region W H rows (x, y, x + wd, y + h))) i j
             = pixel_at rows (x + i) (y + j))
            ∧ (W ≤ x + i ∨ H ≤ y + j →
               pixel_at (im_rows (crop_region W H rows (x, y, x + wd, y + h))) i j = Some 0)).
  { intros i j Hi Hj. rewrite crop_region_pixel by lia. split.
    - intros HiW HjH. apply crop_pixel_inside; [done|lia|lia].
    - intros Hout. by rewrite crop_pixel_outside. }
  eexists. split; [exact Hf|]. split_and!.
  - cbn. lia.
  - cbn. lia.
  - exact Hpix.
  - intros HW HH i j Hi Hj. apply Hpix; [done|done|lia|lia].
  - intros [HW|HH].
    + exists (wd - 1), 0. split_and!; [lia..| |].
      * left. lia.
      * apply Hpix; [lia|lia|]. left. lia.
    + exists 0, (h - 1). split_and!; [lia..| |].
      * right. lia.
      * apply Hpix; [lia|lia|]. right. lia.
Qed.

(** C4. When the sprite sheet is not at [SPRITE_PATH], the run prints a
    diagnostic that names that path and exits with status 1; the file
    system is left as it was, so no output file is written and the output
    directory is not created: the only call made after the import is the
    existence check. *)
Theorem missing_sprite_is_fatal (w : World) :
  node_at (fs w) SPRITE_PATH = None →
  let r := script true w in
  exit_status r = 1
  ∧ stdout (final r) =
      stdout w ++ banner
        ++ [ "❌ Erreur : Sprite sheet introuvable";
             "   Cherché dans : " +:+ path_str SPRITE_PATH;
             nl +:+ "💡 Vérifiez que le fichier geocaching-sprite.png existe" ]
  ∧ fs (final r) = fs w
  ∧ trace (final r) = trace w ++ [EvImportPIL; EvExists SPRITE_PATH].
Proof.
  intros Hmiss r. subst r. rewrite script_run_installed.
  destruct (main_cases (add_event EvImportPIL w)) as [[_ ->]|([n Hn] & _)].
  - unfold exit_status, final, at_missing. cbn. split_and!; [done| |done|].
    + by rewrite <-app_assoc.
    + by rewrite <-app_assoc.
  - cbn [fs add_event] in Hn. congruence.
Qed.

(** C5. Without Pillow the program stops at the import: it prints how to
    install it and exits with status 1, having touched nothing.  In every
    run the import is the first call and is never made again. *)
Theorem missing_PIL_is_fatal (pil_installed : bool) (w : World) :
  (let r := script false w in
   exit_status r = 1
   ∧ stdout (final r) =
       stdout w ++ [ "❌ Erreur : PIL/Pillow n'est pas installé";
                     "📦 Installez-le avec : pip install Pillow" ]
   ∧ fs (final r) = fs w
   ∧ trace (final r) = trace w ++ [EvImportPIL])
  ∧ ∃ evs, trace (final (script pil_installed w)) = trace w ++ EvImportPIL :: evs
           ∧ EvImportPIL ∉ evs.
Proof.
  split.
  - rewrite script_run_missing. by cbn.
  - destruct pil_installed.
    + rewrite script_run_installed.
      destruct (main_trace (add_event EvImportPIL w)) as (evs & Ht & Hev).
      exists evs. unfold final. rewrite Ht. cbn. rewrite <-app_assoc.
      split; [done|by apply main_events_no_import].
    + rewrite script_run_missing. exists []. split; [done|apply not_elem_of_nil].
Qed.

(** C6. When the sprite sheet is there and [Image.open] raises on it, the
    run prints a diagnostic that ends with the text of the exception and
    exits with status 1.  After the import it has only checked that the
    sprite exists, created the output directory and tried to open the
    sprite: no crop, no save, and every file of the final file system was
    there before with the same content.  ([Image.open] raising is the
    failure to decode that [main] guards; pixel data that fail to load
    after the sheet has opened make the crops fail, one by one.) *)
Theorem undecodable_sprite_is_fatal (w : World) (data : list Byte.byte) (e : Exn) :
  fs w !! SPRITE_PATH = Some (File data) →
  PIL_open_bytes data = inl e →
  no_file_on (fs w) OUTPUT_DIR →
  let r := script true w in
  exit_status r = 1
  ∧ stdout (final r) =
      stdout w ++ banner
        ++ [ found_line; outdir_line;
             "❌ Erreur lors de l'ouverture du sprite : " +:+ exn_str e ]
  ∧ (∃ mk, only_mkdirs mk
           ∧ trace (final r) =
               trace w ++ [EvImportPIL; EvExists SPRITE_PATH; EvMkdir OUTPUT_DIR]
                 ++ mk ++ [EvOpen SPRITE_PATH])
  ∧ ∀ q data', fs (final r) !! q = Some (File data') → fs w !! q = Some (File data').
Proof.
  intros Hfile Hbytes Hnf r. subst r. rewrite script_run_installed.
  assert (Hnode : node_at (fs w) SPRITE_PATH = Some (File data)).
  { rewrite node_at_lookup; [done|]. unfold SPRITE_PATH. by destruct PROJECT_ROOT. }
  destruct (main_open_fails (add_event EvImportPIL w) e) as (wm & -> & Hpost).
  { cbn [fs add_event]. by rewrite Hnode. }
  { unfold PIL_open. cbn [fs add_event]. by rewrite Hnode. }
  { done. }
  pose proof (mkdir_post_events _ _ _ Hpost) as (mk & Ht & Hmk).
  destruct Hpost as ((Ho & _ & Hf) & _). cbn [fst snd] in *.
  unfold exit_status, final. cbn [fst snd]. split_and!.
  - done.
  - cbn [stdout add_line at_open add_event]. rewrite Ho.
    cbn [stdout at_mkdir add_line add_event add_lines]. by rewrite <-!app_assoc.
  - exists mk. split; [done|].
    cbn [trace add_line at_open add_event]. rewrite Ht.
    cbn [trace at_mkdir add_line add_event add_lines]. by rewrite <-!app_assoc.
  - intros q data' Hq. cbn [fs add_line at_open add_event] in Hq.
    destruct (Hf q) as [Heq|(_ & Hd & _)]; [|congruence].
    rewrite Heq in Hq. exact Hq.
Qed.

(** C7. A run that returns from [main] ends its output with the summary for
    some count [n] with [0 ≤ n ≤ len(ICONS) = 16]: [n] is the number of
    descriptors that succeed on their own.  The summary contains the line
    "Toutes les icônes ont été découpées avec succès !" exactly when [n]
    is 16, and the line "<16 - n> icône(s) n'ont pas pu être créées" exactly
    when it is not.  In both cases the summary starts with the rule and the
    count line "Terminé ! <n>/16 icônes créées", and ends with the path of
    the output directory. *)
Theorem summary_is_consistent (pil_installed : bool) (w : World) :
  exit_status (script pil_installed w) = 0 →
  ∃ pre n sprite,
    stdout (final (script pil_installed w)) = pre ++ summary n
    ∧ PIL_open (fs w) SPRITE_PATH = inr sprite
    ∧ n = count_succeeded sprite (<[OUTPUT_DIR := Dir]> (fs w)) ICONS
    ∧ 0 ≤ n ≤ len_ICONS ∧ len_ICONS = 16
    ∧ (nl +:+ "✨ Toutes les icônes ont été découpées avec succès !" ∈ summary n
       ↔ n = 16)
    ∧ (nl +:+ "⚠️  " +:+ pretty (16 - n) +:+ " icône(s) n'ont pas pu être créées"
         ∈ summary n
       ↔ n ≠ 16)
    ∧ summary n =
        [ nl +:+ str_repeat "=" 50;
          "🎉 Terminé ! " +:+ pretty n +:+ "/16 icônes créées" ]
        ++ (if bool_decide (n = 16)
            then [ nl +:+ "✨ Toutes les icônes ont été découpées avec succès !";
                   "🚀 Vous pouvez maintenant compiler et tester la carte" ]
            else [ nl +:+ "⚠️  " +:+ pretty (16 - n)
                     +:+ " icône(s) n'ont pas pu être créées" ])
        ++ [ nl +:+ "📁 Icônes sauvegardées dans :"; "   " +:+ path_str OUTPUT_DIR ].
Proof.
  destruct pil_installed; [|by rewrite script_run_missing].
  rewrite script_run_installed. intros Hexit.
  destruct (main_cases (add_event EvImportPIL w))
    as [[_ Hm]|(Hex & r & wm & _ & Hpost & Hcases)].
  { by rewrite Hm in Hexit. }
  destruct Hcases as [(e & _ & Hm)|[(_ & e & _ & Hm)|(-> & sprite & Hopen & Hm)]];
    [by rewrite Hm in Hexit..|].
  rewrite Hm. clear Hexit Hm.
  destruct Hpost as ((_ & _ & Hf) & _ & _ & Hd). cbn [fst snd fs add_event at_mkdir add_line
    add_lines] in *. specialize (Hd eq_refl).
  assert (Hagree : ∀ d, icon_outcome sprite (fs wm) d
                        = icon_outcome sprite (<[OUTPUT_DIR := Dir]> (fs w)) d).
  { intros d. by apply icon_outcome_at_loop. }
  destruct (loop_agree sprite (fs wm) _ ICONS Hagree) as (_ & Hc & _).
  exists (stdout (after_loop sprite wm)),
         (count_succeeded sprite (<[OUTPUT_DIR := Dir]> (fs w)) ICONS), sprite.
  split_and!.
  - unfold final, at_end. cbn [snd stdout add_lines]. by rewrite Hc.
  - rewrite <-Hopen. symmetry. apply PIL_open_node_at. by apply (fs_frame_node_at OUTPUT_DIR).
  - done.
  - apply count_succeeded_bounds.
  - apply count_succeeded_bounds.
  - done.
  - apply all_succeeded_line_in_summary.
  - apply some_failed_line_iff.
  - apply summary_lines.
Qed.

(** C8. After a run that returned from [main], a second run on the world it
    left returns as well and leaves the file system exactly as the first
    run left it: every output file has the same bytes.  The second run
    prints the same lines as the first, so it reports no new error, and it
    saves to the same paths again: the files are overwritten. *)
Theorem rerun_is_idempotent (w : World) :
  exit_status (script true w) = 0 →
  let r1 := script true w in
  let r2 := script true (final r1) in
  exit_status r2 = 0
  ∧ fs (final r2) = fs (final r1)
  ∧ (∃ lines, stdout (final r1) = stdout w ++ lines
              ∧ stdout (final r2) = stdout (final r1) ++ lines)
  ∧ ∃ evs1 evs2, trace (final r1) = trace w ++ evs1
                 ∧ trace (final r2) = trace (final r1) ++ evs2
                 ∧ saved_paths evs2 = saved_paths evs1.
Proof.
  rewrite script_run_installed. intros Hexit r1 r2. subst r1 r2.
  rewrite !script_run_installed.
  destruct (main_cases (add_event EvImportPIL w))
    as [[_ Hm]|(Hex & r & wm & _ & Hpost & Hcases)].
  { by rewrite Hm in Hexit. }
  destruct Hcases as [(e & _ & Hm)|[(_ & e & _ & Hm)|(-> & sprite & Hopen & Hm)]];
    [by rewrite Hm in Hexit..|].
  rewrite Hm. clear Hexit Hm. unfold final. cbn [snd].
  pose proof (mkdir_post_events _ _ _ Hpost) as (mk & Ht & Hmk).
  destruct Hpost as ((Ho & _ & Hf) & _ & _ & Hd). cbn [fst snd] in *. specialize (Hd eq_refl).
  destruct (after_loop_nodes sprite (fs wm)) as [Hdir Hspr].
  set (w1 := add_event EvImportPIL (at_end sprite wm)).
  assert (Hfs1 : fs w1 = write_icons sprite (fs wm) ICONS (fs wm)) by done.
  rewrite (main_in_place w1 sprite).
  2:{ rewrite Hfs1, Hdir. exact Hd. }
  2:{ rewrite Hfs1. rewrite (PIL_open_node_at (fs wm)); [exact Hopen|exact Hspr]. }
  set (wm2 := add_event (EvMkdir OUTPUT_DIR) (at_mkdir w1)).
  assert (Hfs2 : fs wm2 = write_icons sprite (fs wm) ICONS (fs wm)) by done.
  destruct (loop_agree_in sprite (fs wm2) (fs wm) ICONS) as (Hl & Hc & Hw).
  { intros d Hin. rewrite Hfs2. by apply icon_outcome_after_loop. }
  unfold exit_status. cbn [fst snd]. split_and!.
  - done.
  - unfold at_end, after_loop. cbn [fs add_lines]. rewrite Hw, Hfs2. apply write_icons_idem.
  - exists (preamble sprite ++ (icon_line sprite (fs wm) <$> ICONS)
            ++ summary (count_succeeded sprite (fs wm) ICONS)).
    assert (H1 : stdout (at_end sprite wm)
                 = stdout w ++ preamble sprite ++ (icon_line sprite (fs wm) <$> ICONS)
                     ++ summary (count_succeeded sprite (fs wm) ICONS)).
    { unfold at_end, after_loop, at_loop, at_open, preamble.
      cbn [stdout add_lines add_line add_event]. rewrite Ho.
      cbn [stdout at_mkdir add_lines add_line add_event]. by rewrite <-!app_assoc. }
    split; [exact H1|].
    unfold at_end at 1. unfold after_loop at 1. unfold at_loop, at_open, preamble.
    cbn [stdout add_lines add_line add_event]. rewrite Hl, Hc.
    unfold wm2, at_mkdir, w1. cbn [stdout add_lines add_line add_event].
    by rewrite <-!app_assoc.
  - exists ([EvImportPIL; EvExists SPRITE_PATH; EvMkdir OUTPUT_DIR] ++ mk
            ++ EvOpen SPRITE_PATH :: (ICONS ≫= icon_events sprite)),
           ([EvImportPIL; EvExists SPRITE_PATH; EvMkdir OUTPUT_DIR]
            ++ EvOpen SPRITE_PATH :: (ICONS ≫= icon_events sprite)).
    split_and!.
    + unfold at_end, after_loop, at_loop, at_open.
      cbn [trace add_lines add_line add_event]. rewrite Ht.
      cbn [trace at_mkdir add_lines add_line add_event]. by rewrite <-!app_assoc.
    + unfold at_end at 1. unfold after_loop at 1. unfold at_loop, at_open.
      cbn [trace add_lines add_line add_event].
      unfold wm2, at_mkdir, w1. cbn [trace add_lines add_line add_event].
      by rewrite <-!app_assoc.
    + rewrite !saved_paths_app, (saved_paths_mkdirs mk) by done. done.
Qed.

(** C9. When the sprite is there and no file stands in the way, a run
    leaves the output directory in place; in a file system where every node
    has a parent, all its ancestors are directories as well.  In every run,
    a save comes after the call that creates the output directory.  A run
    only changes the file system at the paths of the 16 descriptors: at any
    other path the node is unchanged, or was missing and is now one of the
    directories of the chain of the output directory.  No node disappears. *)
Theorem output_directory_and_frame (pil_installed : bool) (w : World) :
  let r := script pil_installed w in
  (pil_installed = true →
   is_Some (node_at (fs w) SPRITE_PATH) →
   no_file_on (fs w) OUTPUT_DIR →
   node_at (fs (final r)) OUTPUT_DIR = Some Dir
   ∧ (fs_closed (fs w) → dirs_on (fs (final r)) OUTPUT_DIR))
  ∧ (∀ evs pre p post,
       trace (final r) = trace w ++ evs →
       evs = pre ++ EvSave p :: post →
       EvMkdir OUTPUT_DIR ∈ pre)
  ∧ (∀ q,
       q ∉ (λ d, OUTPUT_DIR ++ [icon_name d +:+ ".png"]) <$> ICONS →
       fs (final r) !! q = fs w !! q
       ∨ (fs w !! q = None ∧ fs (final r) !! q = Some Dir
          ∧ q ∈ path_prefixes OUTPUT_DIR))
  ∧ ∀ q n, fs w !! q = Some n → is_Some (fs (final r) !! q).
Proof.
  intros r. subst r. unfold final. split_and!.
  - intros -> Hex Hnf. rewrite script_run_installed.
    by apply (main_creates (add_event EvImportPIL w)).
  - intros evs pre p post Ht ->.
    destruct (script_trace pil_installed w) as (evs' & Ht' & Hev).
    rewrite Ht' in Ht. apply app_inv_head in Ht.
    destruct pre as [|a pre]; [done|]. injection Ht as <- Ht.
    destruct Hev as [->|Hev]; [by destruct pre|].
    right. by eapply main_events_mkdir_first.
  - intros q Hq. destruct pil_installed.
    + rewrite script_run_installed. by apply (main_frame (add_event EvImportPIL w)).
    + rewrite script_run_missing. by left.
  - intros q n Hn. destruct pil_installed.
    + rewrite script_run_installed. by apply (main_keeps (add_event EvImportPIL w) q n).
    + rewrite script_run_missing. by eexists.
Qed.

(** C10. The names of the 16 descriptors are pairwise distinct, and so are
    the paths [OUTPUT_DIR/<name>.png].  In every run the paths that are
    saved to are paths of descriptors, each at most once and in the order
    of [ICONS]: no icon is written over the icon of another descriptor. *)
Theorem output_paths_are_distinct (pil_installed : bool) (w : World) :
  length ICONS = 16%nat
  ∧ NoDup (icon_name <$> ICONS)
  ∧ NoDup ((λ d, OUTPUT_DIR ++ [icon_name d +:+ ".png"]) <$> ICONS)
  ∧ ∀ evs, trace (final (script pil_installed w)) = trace w ++ evs →
           saved_paths evs `sublist_of` ((λ d, output_path (icon_name d)) <$> ICONS)
           ∧ NoDup (saved_paths evs).
Proof.
  split_and!.
  - done.
  - apply ICONS_names_NoDup.
  - apply output_paths_NoDup.
  - intros evs Ht. unfold final in Ht.
    destruct (script_trace pil_installed w) as (evs' & Ht' & Hev).
    rewrite Ht' in Ht. apply app_inv_head in Ht. subst evs.
    assert (Hsub : saved_paths (EvImportPIL :: evs')
                   `sublist_of` ((λ d, output_path (icon_name d)) <$> ICONS)).
    { change (EvImportPIL :: evs') with ([EvImportPIL] ++ evs').
      rewrite saved_paths_app. cbn [app saved_paths mbind list_bind].
      destruct Hev as [->|Hev]; [apply sublist_nil_l|by apply main_events_saved]. }
    split; [done|]. eapply sublist_NoDup; [apply output_paths_NoDup|exact Hsub].
Qed.

(** * Further properties of the script *)

(** ** More on the creation of the output directory *)

Lemma Path_mkdir_on_file (p : Path) (w : World) (data : list Byte.byte) :
  node_at (fs w) p = Some (File data) →
  Path_mkdir_parents_exist_ok p w
  = (Raise (mkExn FileExistsError ("[Errno 17] File exists: '" +:+ path_str p +:+ "'")),
     add_event (EvMkdir p) w).
Proof.
  intros Hp. unfold Path_mkdir_parents_exist_ok.
  assert (Hrev : node_at (fs w) (rev (rev p)) = Some (File data)) by (by rewrite rev_involutive).
  rewrite <-(rev_involutive p) at 2 3.
  destruct (rev p) as [|a rp]; cbn [Path_mkdir_rev]; unfold try_except, os_mkdir;
    rewrite Hrev; cbn [is_FileNotFoundError exn_class]; unfold bind, Path_is_dir;
    cbn [fs add_event]; by rewrite Hrev.
Qed.

(** When [mkdir] raises, it has created nothing, and what it raises says
    that a file stands where a directory should be. *)
Lemma Path_mkdir_rev_raises (exist_ok : bool) (rp : list string) (w w' : World) (e : Exn) :
  Path_mkdir_rev exist_ok rp w = (Raise e, w') →
  fs w' = fs w
  ∧ (exn_class e = FileExistsError ∨ exn_class e = NotADirectoryError).
Proof.
  revert exist_ok w w' e. induction rp as [|a rp IH]; intros exist_ok w w' e.
  - cbn [Path_mkdir_rev]. unfold try_except, os_mkdir. cbn [rev node_at].
    cbn [is_FileNotFoundError exn_class]. unfold bind, Path_is_dir. cbn [node_at].
    destruct exist_ok; cbn [negb orb]; unfold raise, ret; [done|].
    intros [= <- <-]. split; [done|by left].
  - cbn [Path_mkdir_rev]. unfold try_except, os_mkdir.
    assert (Hpar : parent (rev (a :: rp)) = rev rp) by (cbn [rev]; apply parent_snoc).
    rewrite Hpar.
    destruct (node_at (fs w) (rev (a :: rp))) as [n|] eqn:Hp.
    + cbn [is_FileNotFoundError exn_class]. unfold bind, Path_is_dir.
      cbn [fs add_event]. rewrite Hp.
      destruct n, exist_ok; cbn [negb orb]; unfold raise, ret; try done;
        intros [= <- <-]; (split; [done|by left]).
    + destruct (node_at (fs w) (rev rp)) as [[|data]|] eqn:Hpr.
      * done.
      * cbn [is_FileNotFoundError exn_class]. unfold bind, Path_is_dir.
        cbn [fs add_event]. rewrite Hp, orb_true_r. unfold raise.
        intros [= <- <-]. split; [done|by right].
      * cbn [is_FileNotFoundError exn_class]. unfold bind at 1.
        pose proof (Path_mkdir_rev_post true rp (add_event (EvMkdir (rev (a :: rp))) w))
          as Hpost.
        specialize (IH true (add_event (EvMkdir (rev (a :: rp))) w)).
        destruct (Path_mkdir_rev true rp (add_event (EvMkdir (rev (a :: rp))) w))
          as [[[]|e'|c'] w2]; [| |done].
        -- destruct Hpost as ((_ & _ & Hfr) & _ & _ & Hdir). cbn [fst snd] in *.
           rewrite Path_mkdir_single_ok; [done| |].
           ++ assert (Hne : rev (a :: rp) ≠ []) by (cbn [rev]; by destruct (rev rp)).
              rewrite node_at_lookup by done.
              destruct (Hfr (rev (a :: rp))) as [->|(_ & _ & Hin)].
              ** cbn [fs add_event]. by rewrite <-node_at_lookup.
              ** cbn [rev] in Hin. by apply (path_prefixes_not_snoc _ _ a) in Hin.
           ++ rewrite Hpar. by apply Hdir.
        -- intros [= <- <-]. by apply (IH w2 e').
Qed.

Lemma Path_mkdir_parents_raises (p : Path) (w w' : World) (e : Exn) :
  Path_mkdir_parents_exist_ok p w = (Raise e, w') →
  fs w' = fs w
  ∧ (exn_class e = FileExistsError ∨ exn_class e = NotADirectoryError)
  ∧ ¬ no_file_on (fs w) p.
Proof.
  intros Hr. split_and!.
  - by apply (Path_mkdir_rev_raises true (rev p) w w' e).
  - by apply (Path_mkdir_rev_raises true (rev p) w w' e).
  - intros Hnf. destruct (Path_mkdir_parents_ok p w Hnf) as (w2 & Hok & _). congruence.
Qed.

(** ** A file in the place of the output directory *)

(** X1. When the sprite sheet is there and a regular file sits where the
    output directory should be, [mkdir] raises [FileExistsError], which
    nothing catches: the run ends with that exception (status 1) after the
    line that reports the sprite, without a diagnostic of its own; it has
    not opened the sprite and has changed nothing in the file system. *)
Theorem file_at_output_dir_is_uncaught (w : World) (data : list Byte.byte) :
  is_Some (node_at (fs w) SPRITE_PATH) →
  fs w !! OUTPUT_DIR = Some (File data) →
  script true w =
    (Raise (mkExn FileExistsError
              ("[Errno 17] File exists: '" +:+ path_str OUTPUT_DIR +:+ "'")),
     mkWorld (fs w)
             (stdout w ++ banner ++ [ "✓ Sprite trouvé : " +:+ path_str SPRITE_PATH ])
             (trace w ++ [EvImportPIL; EvExists SPRITE_PATH; EvMkdir OUTPUT_DIR]))
  ∧ exit_status (script true w) = 1.
Proof.
  intros Hex Hfile.
  assert (Hrun : script true w =
    (Raise (mkExn FileExistsError
              ("[Errno 17] File exists: '" +:+ path_str OUTPUT_DIR +:+ "'")),
     mkWorld (fs w) (stdout w ++ banner ++ [found_line])
             (trace w ++ [EvImportPIL; EvExists SPRITE_PATH; EvMkdir OUTPUT_DIR]))).
  { rewrite script_run_installed, main_run, bool_decide_eq_true_2 by done.
    rewrite (Path_mkdir_on_file _ _ data).
    - unfold at_mkdir, add_line, add_lines, add_event. cbn. by rewrite <-!app_assoc.
    - rewrite node_at_lookup by apply OUTPUT_DIR_not_nil. exact Hfile. }
  split; [exact Hrun|]. by rewrite Hrun.
Qed.

(** ** More on the loop *)

Lemma crop_boxes_app (evs1 evs2 : list Event) :
  crop_boxes (evs1 ++ evs2) = crop_boxes evs1 ++ crop_boxes evs2.
Proof. apply bind_app. Qed.

Lemma crop_boxes_mkdirs (mk : list Event) : only_mkdirs mk → crop_boxes mk = [].
Proof.
  induction 1 as [|ev mk [q ->] _ IH]; [done|].
  unfold crop_boxes in *. by rewrite bind_cons, IH.
Qed.

(** Every descriptor is cropped, whatever becomes of it. *)
Lemma crop_boxes_icons (sprite : Sprite) (icons : list Icon) :
  crop_boxes (icons ≫= icon_events sprite) = icon_box <$> icons.
Proof.
  induction icons as [|d icons IH]; [done|].
  rewrite bind_cons, fmap_cons, crop_boxes_app, IH. f_equal.
  destruct d as [[[[name x] y] wd] h]. unfold icon_events, icon_box.
  by destruct (PIL_crop sprite (x, y, x + wd, y + h)).
Qed.

Lemma ICONS_sizes (name : string) (x y wd h : Z) :
  (name, x, y, wd, h) ∈ ICONS → 0 ≤ x ∧ 0 ≤ y ∧ 0 < wd ∧ 0 < h.
Proof.
  intros Hin. pose proof ICONS_in_sheet as Hs. rewrite Forall_forall in Hs.
  specialize (Hs _ Hin). cbn in Hs. lia.
Qed.

Lemma PIL_crop_unloadable (sprite : Sprite) (e : Exn) (x y wd h : Z) :
  sprite_load sprite = inl e → 0 ≤ wd → 0 ≤ h →
  PIL_crop sprite (x, y, x + wd, y + h) = inl e.
Proof.
  intros Hload Hw Hh. unfold PIL_crop. rewrite Hload.
  replace (x + wd <? x) with false by lia. by replace (y + h <? y) with false by lia.
Qed.

(** The loop when every descriptor of [icons] fails with [e]. *)
Lemma loop_all_fail (sprite : Sprite) (m : gmap Path Node) (icons : list Icon) (e : Exn) :
  (∀ d, d ∈ icons → icon_outcome sprite m d = inl e) →
  (icon_line sprite m <$> icons) = ((λ d, error_line (icon_name d) e) <$> icons)
  ∧ count_succeeded sprite m icons = 0
  ∧ ∀ acc, write_icons sprite m icons acc = acc.
Proof.
  induction icons as [|d icons IH]; intros H; [done|].
  destruct IH as (IHl & IHc & IHw); [intros d' Hd'; apply H; by right|].
  assert (Hd : icon_outcome sprite m d = inl e) by (apply H; by left).
  split_and!.
  - rewrite !fmap_cons, IHl. f_equal.
    destruct d as [[[[name x] y] wd] h]. unfold icon_line. by rewrite Hd.
  - rewrite count_succeeded_unfold, IHc. unfold icon_succeeds. by rewrite Hd.
  - intros acc. rewrite write_icons_cons, IHw. unfold icon_write. by rewrite Hd.
Qed.

(** The loop when every descriptor of [icons] succeeds. *)
Lemma loop_all_succeed (sprite : Sprite) (m : gmap Path Node) (icons : list Icon) :
  (∀ d, d ∈ icons → ∃ icon, icon_outcome sprite m d = inr icon) →
  (icon_line sprite m <$> icons)
  = ((λ d : string * Z * Z * Z * Z,
        let '(name, x, y, _, _) := d in success_line name x y (output_path name)) <$> icons)
  ∧ count_succeeded sprite m icons = Z.of_nat (length icons).
Proof.
  induction icons as [|d icons IH]; intros H; [done|].
  destruct IH as (IHl & IHc); [intros d' Hd'; apply H; by right|].
  destruct (H d) as [icon Hd]; [by left|].
  split.
  - rewrite !fmap_cons, IHl. f_equal.
    destruct d as [[[[name x] y] wd] h]. unfold icon_line. by rewrite Hd.
  - rewrite count_succeeded_unfold, IHc. unfold icon_succeeds. rewrite Hd.
    cbn [length]. lia.
Qed.

Lemma path_name_output_path (name : string) :
  path_name (output_path name) = name +:+ ".png".
Proof. unfold path_name, output_path. apply last_last. Qed.

Lemma summary_all : summary 16 =
  [ nl +:+ str_repeat "=" 50;
    "🎉 Terminé ! 16/16 icônes créées";
    nl +:+ "✨ Toutes les icônes ont été découpées avec succès !";
    "🚀 Vous pouvez maintenant compiler et tester la carte";
    nl +:+ "📁 Icônes sauvegardées dans :";
    "   " +:+ path_str OUTPUT_DIR ].
Proof. reflexivity. Qed.

Lemma summary_none : summary 0 =
  [ nl +:+ str_repeat "=" 50;
    "🎉 Terminé ! 0/16 icônes créées";
    nl +:+ "⚠️  16 icône(s) n'ont pas pu être créées";
    nl +:+ "📁 Icônes sauvegardées dans :";
    "   " +:+ path_str OUTPUT_DIR ].
Proof. reflexivity. Qed.

(** X4. When the sprite sheet opens and its pixel data then fail to load
    with [e], every one of the 16 crops is attempted and fails with [e]:
    the loop prints 16 error lines that end with the text of [e], nothing
    is saved and no file is created or changed.  The run still returns with
    status 0, after a summary that counts 0 icons out of 16. *)
Theorem unloadable_sheet_fails_every_icon (w : World) (data : list Byte.byte)
    (sprite : Sprite) (e : Exn) :
  fs w !! SPRITE_PATH = Some (File data) →
  PIL_open_bytes data = inr sprite →
  sprite_load sprite = inl e →
  no_file_on (fs w) OUTPUT_DIR →
  let r := script true w in
  exit_status r = 0
  ∧ stdout (final r) =
      stdout w ++ preamble sprite
        ++ ((λ d, "   ❌ Erreur avec " +:+ icon_name d +:+ ": " +:+ exn_str e) <$> ICONS)
        ++ [ nl +:+ str_repeat "=" 50;
             "🎉 Terminé ! 0/16 icônes créées";
             nl +:+ "⚠️  16 icône(s) n'ont pas pu être créées";
             nl +:+ "📁 Icônes sauvegardées dans :";
             "   " +:+ path_str OUTPUT_DIR ]
  ∧ (∃ evs, trace (final r) = trace w ++ evs
            ∧ crop_boxes evs = icon_box <$> ICONS
            ∧ saved_paths evs = [])
  ∧ ∀ q data', fs (final r) !! q = Some (File data') → fs w !! q = Some (File data').
Proof.
  intros Hfile Hopen Hload Hnf r. subst r.
  destruct (script_reaches_loop w data sprite Hfile Hopen Hnf)
    as (wm & mk & -> & Hf & Hd & Hmk & Hout & Htr & Hfs & _).
  unfold exit_status, final. cbn [fst snd].
  assert (Hcrop : ∀ name x y wd h, (name, x, y, wd, h) ∈ ICONS →
            PIL_crop sprite (x, y, x + wd, y + h) = inl e).
  { intros name x y wd h Hin. apply ICONS_sizes in Hin.
    apply PIL_crop_unloadable; [done|lia|lia]. }
  destruct (loop_all_fail sprite (<[OUTPUT_DIR := Dir]> (fs w)) ICONS e) as (Hl & Hc & Hw).
  { intros [[[[name x] y] wd] h] Hin. unfold icon_outcome. by rewrite (Hcrop _ _ _ _ _ Hin). }
  split_and!.
  - done.
  - rewrite Hout, Hl, Hc, summary_none. done.
  - eexists. split; [exact Htr|]. split.
    + rewrite !crop_boxes_app, (crop_boxes_mkdirs mk) by done.
      change (EvOpen SPRITE_PATH :: ?l) with ([EvOpen SPRITE_PATH] ++ l).
      rewrite crop_boxes_app, crop_boxes_icons. done.
    + rewrite !saved_paths_app, (saved_paths_mkdirs mk) by done.
      change (EvOpen SPRITE_PATH :: ?l) with ([EvOpen SPRITE_PATH] ++ l).
      rewrite saved_paths_app, saved_paths_icons. cbn [app saved_paths mbind list_bind].
      assert (Hall : ∀ icons : list (string * Z * Z * Z * Z),
                (∀ d, d ∈ icons → d ∈ ICONS) →
                (icons ≫= λ d, let '(name, x, y, wd, h) := d in
                               match PIL_crop sprite (x, y, x + wd, y + h) with
                               | inl _ => []
                               | inr _ => [output_path name]
                               end) = []).
      { induction icons as [|d icons IH]; intros Hsub; [done|].
        rewrite bind_cons, IH by (intros d' Hd'; apply Hsub; by right).
        destruct d as [[[[name x] y] wd] h].
        by rewrite (Hcrop name x y wd h) by (apply Hsub; by left). }
      by apply Hall.
  - intros q data' Hq. rewrite Hfs, Hw in Hq.
    destruct (Hf q) as [Heq|(_ & Hdir & _)]; [|congruence].
    by rewrite <-Heq.
Qed.

(** X5. The size of the sheet is never checked.  On any sheet that opens
    and whose pixel data load, whatever its size, with nothing in the way
    of the output directory or of the icon files, the run prints the same
    report: one line per descriptor, in the order of [ICONS], that gives the
    file name, the origin of the rectangle and the file name again, then the
    summary for 16 icons out of 16. *)
Theorem any_sheet_is_reported_as_cut (w : World) (data : list Byte.byte)
    (sprite : Sprite) (rows : list (list Z)) :
  fs w !! SPRITE_PATH = Some (File data) →
  PIL_open_bytes data = inr sprite →
  sprite_load sprite = inr rows →
  no_file_on (fs w) OUTPUT_DIR →
  (∀ d, d ∈ ICONS → fs w !! output_path (icon_name d) ≠ Some Dir) →
  let r := script true w in
  exit_status r = 0
  ∧ stdout (final r) =
      stdout w
        ++ [ "🗺️  Découpage des icônes de géocaches";
             str_repeat "=" 50;
             "✓ Sprite trouvé : " +:+ path_str SPRITE_PATH;
             "✓ Dossier de sortie : " +:+ path_str OUTPUT_DIR;
             "✓ Sprite chargé : " +:+ pretty (sprite_width sprite) +:+ "x"
               +:+ pretty (sprite_height sprite) +:+ " pixels";
             nl +:+ "📐 Découpage en cours..." ]
        ++ ((λ d : string * Z * Z * Z * Z,
               let '(name, x, y, _, _) := d in
               "   ✓ " +:+ name +:+ ".png (" +:+ pretty x +:+ ", " +:+ pretty y
                 +:+ ") -> " +:+ name +:+ ".png") <$> ICONS)
        ++ [ nl +:+ str_repeat "=" 50;
             "🎉 Terminé ! 16/16 icônes créées";
             nl +:+ "✨ Toutes les icônes ont été découpées avec succès !";
             "🚀 Vous pouvez maintenant compiler et tester la carte";
             nl +:+ "📁 Icônes sauvegardées dans :";
             "   " +:+ path_str OUTPUT_DIR ].
Proof.
  intros Hfile Hopen Hload Hnf Hfree r. subst r.
  destruct (script_reaches_loop w data sprite Hfile Hopen Hnf)
    as (wm & mk & -> & Hf & Hd & Hmk & Hout & Htr & Hfs & _).
  unfold exit_status, final. cbn [fst snd]. split; [done|].
  destruct (loop_all_succeed sprite (<[OUTPUT_DIR := Dir]> (fs w)) ICONS) as (Hl & Hc).
  { intros [[[[name x] y] wd] h] Hin. pose proof (ICONS_sizes _ _ _ _ _ Hin) as Hs.
    eexists. apply (icon_outcome_loaded _ rows); [done|lia|lia|].
    by apply (Hfree _ Hin). }
  rewrite Hout, Hl, Hc. change (Z.of_nat (length ICONS)) with 16. rewrite summary_all.
  f_equal. f_equal. f_equal.
  apply list_fmap_ext. intros i [[[[name x] y] wd] h] _.
  unfold success_line. by rewrite path_name_output_path.
Qed.

Lemma fmap_seqZ_const {A} (f : Z → A) (c : A) (n : Z) :
  (∀ i, 0 ≤ i < n → f i = c) → f <$> seqZ 0 n = replicate (Z.to_nat n) c.
Proof.
  intros H. apply list_eq. intros k. rewrite list_lookup_fmap.
  destruct (decide (Z.of_nat k < n)) as [Hk|Hk].
  - rewrite lookup_seqZ_lt by lia. cbn. rewrite lookup_replicate_2 by lia.
    f_equal. apply H. lia.
  - rewrite lookup_seqZ_ge by lia. cbn. symmetry. apply lookup_replicate_None. lia.
Qed.

(** A box that lies beyond the image gives an image of zeros. *)
Lemma crop_region_beyond (width height : Z) (rows : list (list Z)) (x y wd h : Z) :
  0 ≤ x → 0 ≤ y → width ≤ x ∨ height ≤ y →
  crop_region width height rows (x, y, x + wd, y + h) = mkImage wd h (blank_rows wd h).
Proof.
  intros Hx Hy Hout. unfold crop_region, blank_rows.
  replace (x + wd - x) with wd by lia. replace (y + h - y) with h by lia.
  f_equal. apply fmap_seqZ_const. intros j Hj.
  apply fmap_seqZ_const. intros i Hi. apply crop_pixel_outside. lia.
Qed.

(** X6. An icon whose rectangle lies entirely beyond the sheet, because the
    sheet is not as wide as the rectangle is far to the right, is saved all
    the same: its file is the PNG encoding of an image of the size of the
    rectangle in which every pixel is zero, and the loop reports it as cut
    out. *)
Theorem icon_beyond_the_sheet_is_blank (w : World) (data : list Byte.byte)
    (sprite : Sprite) (rows : list (list Z)) (name : string) (x y wd h : Z) :
  fs w !! SPRITE_PATH = Some (File data) →
  PIL_open_bytes data = inr sprite →
  sprite_load sprite = inr rows →
  no_file_on (fs w) OUTPUT_DIR →
  (name, x, y, wd, h) ∈ ICONS →
  fs w !! output_path name ≠ Some Dir →
  sprite_width sprite ≤ x ∨ sprite_height sprite ≤ y →
  let r := script true w in
  exit_status r = 0
  ∧ fs (final r) !! output_path name
    = Some (File (PNG_encode (mkImage wd h (blank_rows wd h))))
  ∧ "   ✓ " +:+ name +:+ ".png (" +:+ pretty x +:+ ", " +:+ pretty y +:+ ") -> "
      +:+ name +:+ ".png" ∈ stdout (final r).
Proof.
  intros Hfile Hopen Hload Hnf Hin Hfree Hbeyond r. subst r.
  destruct (script_reaches_loop w data sprite Hfile Hopen Hnf)
    as (wm & mk & -> & Hf & Hd & Hmk & Hout & Htr & Hfs & _).
  unfold exit_status, final. cbn [fst snd].
  pose proof (ICONS_sizes _ _ _ _ _ Hin) as Hs.
  assert (Hicon : icon_outcome sprite (<[OUTPUT_DIR := Dir]> (fs w)) (name, x, y, wd, h)
                  = inr (mkImage wd h (blank_rows wd h))).
  { rewrite (icon_outcome_loaded _ rows); [|done|lia|lia|done].
    f_equal. apply crop_region_beyond; [lia|lia|done]. }
  split_and!.
  - done.
  - pose proof (final_output_lookup sprite (fs w) (fs wm) _ Hin Hf) as Hl.
    cbn [icon_name] in Hl. by rewrite Hfs, Hl, Hicon.
  - rewrite Hout. rewrite !elem_of_app. right. right. left.
    apply list_elem_of_fmap. exists (name, x, y, wd, h). split; [|done].
    unfold icon_line. rewrite Hicon. unfold success_line.
    by rewrite path_name_output_path.
Qed.

(** ** The lines of the loop and the count of the summary *)

Lemma prefix_append (a b : string) : String.prefix a (a +:+ b) = true.
Proof.
  induction a as [|c a IH]; [by destruct b|].
  change (String c a +:+ b) with (String c (a +:+ b)). cbn [String.prefix].
  by destruct (Ascii.ascii_dec c c).
Qed.

Lemma icon_line_marks (sprite : Sprite) (m : gmap Path Node) (d : Icon) :
  starts_with check_mark (icon_line sprite m d) = icon_succeeds sprite m d
  ∧ starts_with cross_mark (icon_line sprite m d) = negb (icon_succeeds sprite m d).
Proof.
  destruct d as [[[[name x] y] wd] h]. unfold icon_line, icon_succeeds.
  destruct (icon_outcome sprite m (name, x, y, wd, h)) as [e|icon]; cbn [negb].
  - unfold error_line. split; [reflexivity|]. apply (prefix_append cross_mark).
  - unfold success_line. split; [|reflexivity]. apply (prefix_append check_mark).
Qed.

Lemma marks_count (sprite : Sprite) (m : gmap Path Node) (icons : list Icon) :
  Z.of_nat (length (filter (λ s, starts_with check_mark s = true)
                      (icon_line sprite m <$> icons)))
  = count_succeeded sprite m icons
  ∧ Z.of_nat (length (filter (λ s, starts_with cross_mark s = true)
                        (icon_line sprite m <$> icons)))
    = Z.of_nat (length icons) - count_succeeded sprite m icons.
Proof.
  induction icons as [|d icons [IH1 IH2]].
  - unfold count_succeeded. done.
  - rewrite fmap_cons, !filter_cons, count_succeeded_unfold.
    destruct (icon_line_marks sprite m d) as [-> ->].
    destruct (icon_succeeds sprite m d); cbn [negb];
      repeat case_decide; try done; cbn [length]; lia.
Qed.

Lemma icon_line_names (sprite : Sprite) (m : gmap Path Node) (icons : list Icon) :
  Forall2 (λ d s, ∃ rest,
             s = "   ✓ " +:+ icon_name d +:+ ".png (" +:+ rest
             ∨ s = "   ❌ Erreur avec " +:+ icon_name d +:+ ": " +:+ rest)
          icons (icon_line sprite m <$> icons).
Proof.
  induction icons as [|d icons IH]; [constructor|].
  rewrite fmap_cons. constructor; [|done].
  destruct d as [[[[name x] y] wd] h]. unfold icon_line. cbn [icon_name].
  destruct (icon_outcome sprite m (name, x, y, wd, h)) as [e|icon].
  - exists (exn_str e). by right.
  - eexists. left. unfold success_line. reflexivity.
Qed.

(** X7. In a run that returns, the loop prints exactly one line per
    descriptor, in the order of [ICONS]: a line that starts with the check
    mark and the file name of the icon, or a line that starts with the cross
    and names the icon.  The count of the summary is the number of lines
    with a check mark, and the lines with a cross make up the rest of
    the 16. *)
Theorem count_is_the_number_of_check_marks (pil_installed : bool) (w : World) :
  exit_status (script pil_installed w) = 0 →
  ∃ sprite lines n,
    stdout (final (script pil_installed w))
    = stdout w ++ preamble sprite ++ lines ++ summary n
    ∧ Forall2 (λ d s, ∃ rest,
                 s = "   ✓ " +:+ icon_name d +:+ ".png (" +:+ rest
                 ∨ s = "   ❌ Erreur avec " +:+ icon_name d +:+ ": " +:+ rest)
              ICONS lines
    ∧ n = Z.of_nat (length (filter (λ s, starts_with check_mark s = true) lines))
    ∧ 16 - n = Z.of_nat (length (filter (λ s, starts_with cross_mark s = true) lines)).
Proof.
  destruct pil_installed; [|by rewrite script_run_missing].
  rewrite script_run_installed. intros Hexit.
  destruct (main_cases (add_event EvImportPIL w))
    as [[_ Hm]|(Hex & r & wm & _ & Hpost & Hcases)].
  { by rewrite Hm in Hexit. }
  destruct Hcases as [(e & _ & Hm)|[(_ & e & _ & Hm)|(-> & sprite & Hopen & Hm)]];
    [by rewrite Hm in Hexit..|].
  rewrite Hm. clear Hexit Hm. unfold final. cbn [snd].
  destruct Hpost as ((Ho & _ & _) & _). cbn [fst snd] in Ho.
  destruct (marks_count sprite (fs wm) ICONS) as [Hc Hx].
  exists sprite, (icon_line sprite (fs wm) <$> ICONS), (count_succeeded sprite (fs wm) ICONS).
  split_and!.
  - unfold at_end, after_loop, at_loop, at_open, preamble.
    cbn [stdout add_lines add_line add_event]. rewrite Ho.
    cbn [stdout at_mkdir add_lines add_line add_event]. by rewrite <-!app_assoc.
  - apply icon_line_names.
  - by rewrite Hc.
  - by rewrite Hx.
Qed.

(** ** What a run never does to the file system *)

(** Where a directory sits, nothing can be saved. *)
Lemma open_wb_dir (m : gmap Path Node) (p : Path) :
  node_at m p = Some Dir → is_Some (open_wb m p).
Proof.
  intros Hp. unfold open_wb. rewrite Hp.
  destruct (node_at m (parent p)) as [[|data]|]; by eexists.
Qed.

Lemma main_kinds (w : World) (q : Path) :
  (fs w !! q = Some Dir → fs (main w).2 !! q = Some Dir)
  ∧ (∀ data, fs w !! q = Some (File data) → ∃ data', fs (main w).2 !! q = Some (File data')).
Proof.
  destruct (decide (q ∈ (λ d, output_path (icon_name d)) <$> ICONS)) as [Hin|Hout].
  - destruct (main_cases w) as [[_ ->]|(_ & r & wm & _ & Hpost & Hcases)];
      [split; [done|by eexists]|].
    destruct Hpost as ((_ & _ & Hf) & _). cbn [fst snd] in Hf.
    cbn [fs at_mkdir add_line add_event add_lines] in Hf.
    destruct Hcases as [(e & _ & ->)|[(_ & e & _ & ->)|(_ & sprite & _ & ->)]]; cbn [snd].
    + split; [by apply (fs_frame_existing _ _ _ _ _ Hf)|].
      intros data Hq. exists data. by apply (fs_frame_existing _ _ _ _ _ Hf).
    + cbn [fs add_line at_open add_event]. split; [by apply (fs_frame_existing _ _ _ _ _ Hf)|].
      intros data Hq. exists data. by apply (fs_frame_existing _ _ _ _ _ Hf).
    + unfold at_end, after_loop. cbn [fs add_lines].
      apply list_elem_of_fmap in Hin as (d & -> & Hd).
      rewrite write_icons_lookup by (apply ICONS_names_NoDup || done).
      split.
      * intros Hq. apply (fs_frame_existing _ _ _ _ _ Hf) in Hq.
        destruct d as [[[[name x] y] wd] h]. cbn [icon_name] in *. unfold icon_outcome.
        destruct (PIL_crop sprite (x, y, x + wd, y + h)); [done|].
        destruct (open_wb_dir (fs wm) (output_path name)) as [e ->]; [|done].
        by rewrite node_at_lookup by apply output_path_not_nil.
      * intros data Hq. apply (fs_frame_existing _ _ _ _ _ Hf) in Hq.
        destruct (icon_outcome sprite (fs wm) d); by eexists.
  - destruct (main_frame w q Hout) as [->|(? & _)].
    + split; [done|]. intros data Hq. by exists data.
    + split; [congruence|]. intros data Hq. congruence.
Qed.

Lemma SPRITE_PATH_not_prefix : SPRITE_PATH ∉ path_prefixes OUTPUT_DIR.
Proof.
  intros [_ Hp]%path_prefixes_inv. apply prefix_length_eq in Hp.
  - revert Hp. unfold SPRITE_PATH, OUTPUT_DIR. intros H. by apply app_inv_head in H.
  - unfold SPRITE_PATH, OUTPUT_DIR. by rewrite !length_app.
Qed.

(** X8. A run never changes the kind of a node: a directory remains a
    directory, also where an icon should be written, and a regular file
    remains a regular file.  The sprite sheet itself is never written to:
    whatever the run does, what is at [SPRITE_PATH] afterwards is what was
    there before. *)
Theorem node_kinds_are_preserved (pil_installed : bool) (w : World) :
  let r := script pil_installed w in
  (∀ q, fs w !! q = Some Dir → fs (final r) !! q = Some Dir)
  ∧ (∀ q data, fs w !! q = Some (File data) →
       ∃ data', fs (final r) !! q = Some (File data'))
  ∧ fs (final r) !! SPRITE_PATH = fs w !! SPRITE_PATH.
Proof.
  intros r. subst r. unfold final. destruct pil_installed.
  - rewrite script_run_installed. split_and!.
    + intros q. apply (main_kinds (add_event EvImportPIL w) q).
    + intros q. apply (main_kinds (add_event EvImportPIL w) q).
    + destruct (main_frame (add_event EvImportPIL w) SPRITE_PATH) as [->|(_ & _ & Hin)].
      * intros (d & Heq & _)%list_elem_of_fmap. by apply SPRITE_PATH_not_output in Heq.
      * done.
      * by apply SPRITE_PATH_not_prefix in Hin.
  - rewrite script_run_missing. split_and!; [done| |done].
    intros q data Hq. by exists data.
Qed.

Lemma count_succeeded_lt (sprite : Sprite) (m : gmap Path Node) (icons : list Icon)
    (d : Icon) :
  d ∈ icons → icon_succeeds sprite m d = false →
  count_succeeded sprite m icons < Z.of_nat (length icons).
Proof.
  induction icons as [|d0 icons IH]; intros Hin Hfail.
  - by apply elem_of_nil in Hin.
  - rewrite count_succeeded_unfold. cbn [length].
    pose proof (count_succeeded_bounds sprite m icons) as Hb.
    apply elem_of_cons in Hin as [<-|Hin].
    + rewrite Hfail. lia.
    + specialize (IH Hin Hfail). destruct (icon_succeeds sprite m d0); lia.
Qed.

(** X9. When a directory sits at the path of an icon, the save of that icon
    raises [IsADirectoryError]: the loop prints the error line of the icon
    with the text "[Errno 21] Is a directory" and the path, the directory
    and everything below it are left as they were, and the summary counts
    fewer than 16 icons and says how many could not be created. *)
Theorem directory_at_icon_path_fails_the_icon (w : World) (data : list Byte.byte)
    (sprite : Sprite) (rows : list (list Z)) (name : string) (x y wd h : Z) :
  fs w !! SPRITE_PATH = Some (File data) →
  PIL_open_bytes data = inr sprite →
  sprite_load sprite = inr rows →
  no_file_on (fs w) OUTPUT_DIR →
  (name, x, y, wd, h) ∈ ICONS →
  fs w !! output_path name = Some Dir →
  let r := script true w in
  exit_status r = 0
  ∧ "   ❌ Erreur avec " +:+ name +:+ ": [Errno 21] Is a directory: '"
      +:+ path_str (output_path name) +:+ "'" ∈ stdout (final r)
  ∧ (∀ q, output_path name `prefix_of` q → fs (final r) !! q = fs w !! q)
  ∧ ∃ pre n, stdout (final r) = pre ++ summary n
             ∧ 0 ≤ n < 16
             ∧ some_failed_line (16 - n) ∈ summary n.
Proof.
  intros Hfile Hopen Hload Hnf Hin Hdir r. subst r.
  destruct (script_reaches_loop w data sprite Hfile Hopen Hnf)
    as (wm & mk & -> & Hf & Hd & Hmk & Hout & Htr & Hfs & _).
  unfold exit_status, final. cbn [fst snd].
  pose proof (ICONS_sizes _ _ _ _ _ Hin) as Hs.
  set (m1 := <[OUTPUT_DIR := Dir]> (fs w)) in *.
  assert (Hicon : icon_outcome sprite m1 (name, x, y, wd, h)
                  = inl (mkExn IsADirectoryError
                           ("[Errno 21] Is a directory: '"
                              +:+ path_str (output_path name) +:+ "'"))).
  { unfold icon_outcome. rewrite (PIL_crop_loaded _ rows) by (done || lia).
    unfold open_wb, m1. rewrite parent_output_path.
    rewrite node_at_insert_eq by apply OUTPUT_DIR_not_nil.
    rewrite node_at_insert_ne by (intros H; by apply (output_path_not_dir name)).
    rewrite node_at_lookup by apply output_path_not_nil. by rewrite Hdir. }
  split_and!.
  - done.
  - rewrite Hout. rewrite !elem_of_app. right. right. left.
    apply list_elem_of_fmap. exists (name, x, y, wd, h). split; [|done].
    unfold icon_line. by rewrite Hicon.
  - intros q Hq. rewrite Hfs.
    destruct (decide (q = output_path name)) as [->|Hne].
    + pose proof (final_output_lookup sprite (fs w) (fs wm) _ Hin Hf) as Hl.
      cbn [icon_name] in Hl. fold m1 in Hl. by rewrite Hl, Hicon.
    + assert (Hlen : (length (output_path name) < length q)%nat).
      { pose proof (prefix_length _ _ Hq) as Hle.
        destruct (decide (length q ≤ length (output_path name))%nat) as [Hge|]; [|lia].
        by apply prefix_length_eq in Hq. }
      unfold output_path in Hlen. rewrite length_app in Hlen. cbn [length] in Hlen.
      rewrite write_icons_other.
      * destruct (Hf q) as [Heq|(_ & _ & Hp)]; [done|].
        apply path_prefixes_inv in Hp as [_ Hp]. apply prefix_length in Hp. lia.
      * intros d _ ->. unfold output_path in Hlen. rewrite length_app in Hlen.
        cbn [length] in Hlen. lia.
  - exists (stdout w ++ preamble sprite ++ (icon_line sprite m1 <$> ICONS)),
           (count_succeeded sprite m1 ICONS).
    assert (Hlt : count_succeeded sprite m1 ICONS < 16).
    { apply (count_succeeded_lt sprite m1 ICONS (name, x, y, wd, h)); [done|].
      unfold icon_succeeds. by rewrite Hicon. }
    pose proof (count_succeeded_bounds sprite m1 ICONS) as Hb.
    split_and!.
    + rewrite Hout. by rewrite <-!app_assoc.
    + lia.
    + done.
    + apply (some_failed_line_in_summary (count_succeeded sprite m1 ICONS)).
      change len_ICONS with 16. lia.
Qed.

(** ** The calls of a run *)

Lemma opened_paths_app (evs1 evs2 : list Event) :
  opened_paths (evs1 ++ evs2) = opened_paths evs1 ++ opened_paths evs2.
Proof. apply bind_app. Qed.

Lemma opened_paths_mkdirs (mk : list Event) : only_mkdirs mk → opened_paths mk = [].
Proof.
  induction 1 as [|ev mk [q ->] _ IH]; [done|].
  unfold opened_paths in *. by rewrite bind_cons, IH.
Qed.

Lemma opened_paths_icons (sprite : Sprite) (icons : list Icon) :
  opened_paths (icons ≫= icon_events sprite) = [].
Proof.
  induction icons as [|d icons IH]; [done|].
  rewrite bind_cons, opened_paths_app, IH.
  destruct d as [[[[name x] y] wd] h]. unfold icon_events.
  by destruct (PIL_crop sprite (x, y, x + wd, y + h)).
Qed.

(** X10. The sprite is opened at most once in a run, and exactly once in a
    run that returns.  A run that returns has cropped every descriptor once,
    in the order of [ICONS] and whatever failed on the way, with the box
    (x, y, x + w, y + h): these are the boxes (100 i, 0, 100 i + 50, 50)
    for i from 0 to 15.  A run that does not return has cropped nothing. *)
Theorem every_descriptor_is_cropped_in_turn (pil_installed : bool) (w : World) :
  ∃ evs,
    trace (final (script pil_installed w)) = trace w ++ evs
    ∧ opened_paths evs `sublist_of` [SPRITE_PATH]
    ∧ (if bool_decide (exit_status (script pil_installed w) = 0)
       then opened_paths evs = [SPRITE_PATH]
            ∧ crop_boxes evs
              = (λ d : string * Z * Z * Z * Z,
                   let '(_, x, y, wd, h) := d in (x, y, x + wd, y + h)) <$> ICONS
       else crop_boxes evs = [])
    ∧ (λ d : string * Z * Z * Z * Z,
         let '(_, x, y, wd, h) := d in (x, y, x + wd, y + h)) <$> ICONS
      = (λ i, (100 * i, 0, 100 * i + 50, 50)) <$> seqZ 0 16.
Proof.
  destruct pil_installed.
  2:{ rewrite script_run_missing. exists [EvImportPIL]. unfold final, exit_status.
      cbn. split_and!; [done|apply sublist_nil_l|done|done]. }
  rewrite script_run_installed. unfold final, exit_status.
  destruct (main_cases (add_event EvImportPIL w))
    as [[_ ->]|(_ & r & wm & _ & Hpost & Hcases)].
  { exists [EvImportPIL; EvExists SPRITE_PATH]. cbn.
    split_and!; [by rewrite <-app_assoc|apply sublist_nil_l|done|done]. }
  pose proof (mkdir_post_events _ _ _ Hpost) as (mk & Ht & Hmk). cbn [snd] in Ht.
  assert (Htr : trace wm
                = trace w ++ [EvImportPIL; EvExists SPRITE_PATH; EvMkdir OUTPUT_DIR] ++ mk).
  { rewrite Ht. cbn. by rewrite <-!app_assoc. }
  destruct Hcases as [(e & _ & ->)|[(_ & e & _ & ->)|(_ & sprite & _ & ->)]]; cbn [fst snd].
  - exists ([EvImportPIL; EvExists SPRITE_PATH; EvMkdir OUTPUT_DIR] ++ mk).
    rewrite crop_boxes_app, opened_paths_app.
    rewrite (crop_boxes_mkdirs mk), (opened_paths_mkdirs mk) by done.
    cbn. split_and!; [done|apply sublist_nil_l|done|done].
  - exists ([EvImportPIL; EvExists SPRITE_PATH; EvMkdir OUTPUT_DIR] ++ mk
            ++ [EvOpen SPRITE_PATH]).
    rewrite !crop_boxes_app, !opened_paths_app.
    rewrite (crop_boxes_mkdirs mk), (opened_paths_mkdirs mk) by done.
    cbn. split_and!; [|done|done|done].
    rewrite Htr. by rewrite <-!app_assoc.
  - exists ([EvImportPIL; EvExists SPRITE_PATH; EvMkdir OUTPUT_DIR] ++ mk
            ++ [EvOpen SPRITE_PATH] ++ (ICONS ≫= icon_events sprite)).
    rewrite !crop_boxes_app, !opened_paths_app.
    rewrite (crop_boxes_mkdirs mk), (opened_paths_mkdirs mk) by done.
    rewrite crop_boxes_icons, opened_paths_icons.
    split_and!; [|done|by split|done].
    cbn [trace at_end add_lines after_loop at_loop at_open add_event add_line].
    rewrite Htr. by rewrite <-!app_assoc.
Qed.

(** ** Running again, whatever the first run came to *)

(** What [mkdir] returns and what it makes of the file system only depend
    on the file system. *)
Lemma Path_mkdir_single_fs (exist_ok : bool) (p : Path) (w1 w2 : World) :
  fs w1 = fs w2 →
  (Path_mkdir_single exist_ok p w1).1 = (Path_mkdir_single exist_ok p w2).1
  ∧ fs (Path_mkdir_single exist_ok p w1).2 = fs (Path_mkdir_single exist_ok p w2).2.
Proof.
  destruct w1 as [m o1 t1], w2 as [m2 o2 t2]. cbn [fs]. intros <-.
  unfold Path_mkdir_single, try_except, os_mkdir. cbn [fs].
  destruct (node_at m p) as [n|] eqn:Hp.
  - cbn [is_FileNotFoundError exn_class]. unfold bind, Path_is_dir, add_event.
    cbn [fs]. rewrite Hp. by destruct n, exist_ok.
  - destruct (node_at m (parent p)) as [[|data]|]; [done| |done].
    cbn [is_FileNotFoundError exn_class]. unfold bind, Path_is_dir, add_event.
    cbn [fs]. rewrite Hp. by destruct exist_ok.
Qed.

Lemma Path_mkdir_rev_fs (exist_ok : bool) (rp : list string) (w1 w2 : World) :
  fs w1 = fs w2 →
  (Path_mkdir_rev exist_ok rp w1).1 = (Path_mkdir_rev exist_ok rp w2).1
  ∧ fs (Path_mkdir_rev exist_ok rp w1).2 = fs (Path_mkdir_rev exist_ok rp w2).2.
Proof.
  revert exist_ok w1 w2. induction rp as [|a rp IH]; intros exist_ok w1 w2 Hfs.
  - cbn [Path_mkdir_rev]. unfold try_except, os_mkdir. cbn [rev node_at].
    cbn [is_FileNotFoundError exn_class]. unfold bind, Path_is_dir. cbn [node_at].
    by destruct exist_ok.
  - cbn [Path_mkdir_rev]. unfold try_except, os_mkdir. rewrite Hfs.
    destruct (node_at (fs w2) (rev (a :: rp))) as [n|] eqn:Hp.
    + cbn [is_FileNotFoundError exn_class]. unfold bind, Path_is_dir, add_event.
      cbn [fs]. rewrite Hfs, Hp. by destruct n, exist_ok.
    + destruct (node_at (fs w2) (parent (rev (a :: rp)))) as [[|data]|].
      * cbn [fst snd fs set_fs add_event]. done.
      * cbn [is_FileNotFoundError exn_class]. unfold bind, Path_is_dir, add_event.
        cbn [fs]. rewrite Hfs, Hp. by destruct exist_ok.
      * cbn [is_FileNotFoundError exn_class]. unfold bind.
        destruct (IH true (add_event (EvMkdir (rev (a :: rp))) w1)
                    (add_event (EvMkdir (rev (a :: rp))) w2) Hfs) as [Hr Hf].
        destruct (Path_mkdir_rev true rp (add_event (EvMkdir (rev (a :: rp))) w1))
          as [r1 w1'].
        destruct (Path_mkdir_rev true rp (add_event (EvMkdir (rev (a :: rp))) w2))
          as [r2 w2'].
        cbn [fst snd] in Hr, Hf. subst r2.
        destruct r1 as [[]|e|c]; [|done..].
        by apply Path_mkdir_single_fs.
Qed.

(** X11. Running the script twice comes to the same as running it once,
    whatever the first run came to: the second run ends with the same exit
    status as the first, and leaves the file system exactly as the first run
    left it. *)
Theorem rerun_keeps_status_and_files (pil_installed : bool) (w : World) :
  let r1 := script pil_installed w in
  let r2 := script pil_installed (final r1) in
  exit_status r2 = exit_status r1
  ∧ fs (final r2) = fs (final r1).
Proof.
  intros r1 r2. subst r1 r2. unfold final.
  destruct pil_installed; [|by rewrite !script_run_missing].
  rewrite !script_run_installed.
  destruct (main_cases (add_event EvImportPIL w))
    as [[Hnone Hm]|(Hex & r & wm & Hmkdir & Hpost & Hcases)].
  { rewrite Hm. cbn [snd].
    destruct (main_cases (add_event EvImportPIL (at_missing (add_event EvImportPIL w))))
      as [[_ ->]|([n Hn] & _)]; [done|].
    cbn [fs add_event at_missing add_lines] in Hn. cbn [fs add_event] in Hnone. congruence. }
  pose proof Hpost as ((_ & _ & Hf) & _ & _ & Hd). cbn [fst snd] in Hf, Hd.
  cbn [fs at_mkdir add_line add_event add_lines] in Hf.
  assert (Hsprite : node_at (fs wm) SPRITE_PATH = node_at (fs w) SPRITE_PATH).
  { by apply (fs_frame_node_at OUTPUT_DIR). }
  destruct Hcases as [(e & -> & Hm)|[(-> & e & Hopen & Hm)|(-> & sprite & Hopen & Hm)]];
    rewrite Hm; cbn [snd].
  - (* [mkdir] raised: it raises again *)
    apply Path_mkdir_parents_raises in Hmkdir as Hr. destruct Hr as (Hfs & _ & _).
    cbn [fs at_mkdir add_line add_event add_lines] in Hfs.
    rewrite main_run. cbn [fs add_event]. rewrite Hfs.
    rewrite bool_decide_eq_true_2 by done.
    destruct (Path_mkdir_rev_fs true (rev OUTPUT_DIR)
                (at_mkdir (add_event EvImportPIL wm))
                (at_mkdir (add_event EvImportPIL w))) as [Hr1 Hr2].
    { cbn [fs at_mkdir add_line add_event add_lines]. exact Hfs. }
    fold (Path_mkdir_parents_exist_ok OUTPUT_DIR (at_mkdir (add_event EvImportPIL wm)))
      in Hr1, Hr2.
    fold (Path_mkdir_parents_exist_ok OUTPUT_DIR (at_mkdir (add_event EvImportPIL w)))
      in Hr1, Hr2.
    rewrite Hmkdir in Hr1, Hr2. cbn [fst snd] in Hr1, Hr2.
    destruct (Path_mkdir_parents_exist_ok OUTPUT_DIR (at_mkdir (add_event EvImportPIL wm)))
      as [r' wm'].
    cbn [fst snd] in Hr1, Hr2. subst r'. split; [done|]. cbn [snd]. congruence.
  - (* [Image.open] raised: it raises again *)
    specialize (Hd eq_refl).
    rewrite main_run. cbn [fs add_event add_line at_open].
    rewrite bool_decide_eq_true_2 by (by rewrite Hsprite).
    rewrite Path_mkdir_existing by done.
    cbn [fs add_event at_mkdir add_line add_lines].
    change (fs (at_open wm)) with (fs wm). by rewrite Hopen.
  - (* the run returned *)
    specialize (Hd eq_refl).
    destruct (after_loop_nodes sprite (fs wm)) as [Hdir Hspr].
    set (w1 := add_event EvImportPIL (at_end sprite wm)).
    assert (Hfs1 : fs w1 = write_icons sprite (fs wm) ICONS (fs wm)) by done.
    rewrite (main_in_place w1 sprite).
    2:{ rewrite Hfs1, Hdir. exact Hd. }
    2:{ rewrite Hfs1. rewrite (PIL_open_node_at (fs wm)); [exact Hopen|exact Hspr]. }
    set (wm2 := add_event (EvMkdir OUTPUT_DIR) (at_mkdir w1)).
    assert (Hfs2 : fs wm2 = write_icons sprite (fs wm) ICONS (fs wm)) by done.
    destruct (loop_agree_in sprite (fs wm2) (fs wm) ICONS) as (_ & _ & Hw).
    { intros d Hin. rewrite Hfs2. by apply icon_outcome_after_loop. }
    unfold exit_status. cbn [fst snd]. split; [done|].
    unfold at_end, after_loop. cbn [fs add_lines]. rewrite Hw, Hfs2.
    apply write_icons_idem.
Qed.

(** ** The output directory when it is already there *)

Lemma mkdir_paths_app (evs1 evs2 : list Event) :
  mkdir_paths (evs1 ++ evs2) = mkdir_paths evs1 ++ mkdir_paths evs2.
Proof. apply bind_app. Qed.

Lemma mkdir_paths_icons (sprite : Sprite) (icons : list Icon) :
  mkdir_paths (icons ≫= icon_events sprite) = [].
Proof.
  induction icons as [|d icons IH]; [done|].
  rewrite bind_cons, mkdir_paths_app, IH.
  destruct d as [[[[name x] y] wd] h]. unfold icon_events.
  by destruct (PIL_crop sprite (x, y, x + wd, y + h)).
Qed.

(** X12. When the output directory is already there, the run accepts it:
    [os.mkdir] is called once, on the output directory, and the error it
    raises is dropped.  No directory is created, and the file system only
    changes at the paths of the 16 descriptors. *)
Theorem existing_output_dir_is_reused (w : World) :
  is_Some (node_at (fs w) SPRITE_PATH) →
  node_at (fs w) OUTPUT_DIR = Some Dir →
  let r := script true w in
  (∃ evs, trace (final r) = trace w ++ evs
          ∧ mkdir_paths evs = [OUTPUT_DIR])
  ∧ ∀ q, q ∉ (λ d, OUTPUT_DIR ++ [icon_name d +:+ ".png"]) <$> ICONS →
         fs (final r) !! q = fs w !! q.
Proof.
  intros Hex Hdir r. subst r. unfold final.
  rewrite script_run_installed, main_run. cbn [fs add_event].
  rewrite bool_decide_eq_true_2 by done.
  rewrite Path_mkdir_existing by done.
  cbn [fs add_event at_mkdir add_line add_lines].
  destruct (PIL_open (fs w) SPRITE_PATH) as [e|sprite].
  - cbn [snd]. split; [|done].
    exists [EvImportPIL; EvExists SPRITE_PATH; EvMkdir OUTPUT_DIR; EvOpen SPRITE_PATH].
    split; [|done]. cbn. by rewrite <-!app_assoc.
  - rewrite cut_icons_run by apply ICONS_names_NoDup. cbn [snd]. split.
    + exists ([EvImportPIL; EvExists SPRITE_PATH; EvMkdir OUTPUT_DIR; EvOpen SPRITE_PATH]
              ++ (ICONS ≫= icon_events sprite)).
      split.
      * cbn. by rewrite <-!app_assoc.
      * by rewrite mkdir_paths_app, mkdir_paths_icons.
    + intros q Hq. cbn [fs add_lines]. apply write_icons_other.
      intros d Hd ->. apply Hq.
      by apply (list_elem_of_fmap_2 (λ d, output_path (icon_name d))).
Qed.

(** ** Rectangles of negative size *)

(** X13. The body of the loop on a descriptor whose width or height is
    negative: [crop] rejects the box before it looks at the image, so the
    body prints the error line of the icon with the text of the
    [ValueError], leaves the count and the file system as they were, and
    returns: the loop goes on with the next descriptor. *)
Theorem negative_size_is_reported (sprite : Sprite) (name : string) (x y wd h c : Z)
    (w0 : World) :
  wd < 0 ∨ h < 0 →
  ∃ msg,
    (msg = "Coordinate 'right' is less than 'left'"
     ∨ msg = "Coordinate 'lower' is less than 'upper'")
    ∧ cut_icon sprite (name, x, y, wd, h) c w0
      = (Ok c,
         mkWorld (fs w0)
                 (stdout w0 ++ [ "   ❌ Erreur avec " +:+ name +:+ ": " +:+ msg ])
                 (trace w0 ++ [EvCrop (x, y, x + wd, y + h)])).
Proof.
  intros Hneg. rewrite cut_icon_run.
  unfold icon_succeeds, icon_write, icon_line, icon_events, icon_outcome, PIL_crop.
  destruct (x + wd <? x) eqn:Hw.
  - eexists. split; [by left|]. done.
  - destruct (y + h <? y) eqn:Hh.
    + eexists. split; [by right|]. done.
    + lia.
Qed.

(** ** A directory in the place of the sprite sheet *)

(** X14. When a directory sits at [SPRITE_PATH], the existence check
    passes, so the run goes on: it creates the output directory, and only
    then [Image.open] raises [IsADirectoryError].  The run prints the
    diagnostic of the open with "[Errno 21] Is a directory" and the path,
    and exits with status 1 without a crop or a save; unlike a run without
    a sprite, it leaves the output directory behind. *)
Theorem directory_at_sprite_path_is_an_open_error (w : World) :
  fs w !! SPRITE_PATH = Some Dir →
  no_file_on (fs w) OUTPUT_DIR →
  let r := script true w in
  exit_status r = 1
  ∧ stdout (final r) =
      stdout w ++ banner
        ++ [ found_line; outdir_line;
             "❌ Erreur lors de l'ouverture du sprite : [Errno 21] Is a directory: '"
               +:+ path_str SPRITE_PATH +:+ "'" ]
  ∧ node_at (fs (final r)) OUTPUT_DIR = Some Dir
  ∧ ∃ evs, trace (final r) = trace w ++ evs
           ∧ crop_boxes evs = [] ∧ saved_paths evs = [].
Proof.
  intros Hdir Hnf r. subst r. rewrite script_run_installed.
  assert (Hnode : node_at (fs w) SPRITE_PATH = Some Dir).
  { rewrite node_at_lookup; [done|]. unfold SPRITE_PATH. by destruct PROJECT_ROOT. }
  destruct (main_open_fails (add_event EvImportPIL w)
              (mkExn IsADirectoryError
                 ("[Errno 21] Is a directory: '" +:+ path_str SPRITE_PATH +:+ "'")))
    as (wm & -> & Hpost).
  { cbn [fs add_event]. by rewrite Hnode. }
  { unfold PIL_open. cbn [fs add_event]. by rewrite Hnode. }
  { done. }
  pose proof (mkdir_post_events _ _ _ Hpost) as (mk & Ht & Hmk).
  destruct Hpost as ((Ho & _ & _) & _ & _ & Hd). cbn [fst snd] in *.
  specialize (Hd eq_refl).
  unfold exit_status, final. cbn [fst snd]. split_and!.
  - done.
  - cbn [stdout add_line at_open add_event]. rewrite Ho.
    cbn [stdout at_mkdir add_line add_event add_lines]. by rewrite <-!app_assoc.
  - exact Hd.
  - exists ([EvImportPIL; EvExists SPRITE_PATH; EvMkdir OUTPUT_DIR] ++ mk
            ++ [EvOpen SPRITE_PATH]).
    split_and!.
    + cbn [trace add_line at_open add_event]. rewrite Ht.
      cbn [trace at_mkdir add_line add_event add_lines]. by rewrite <-!app_assoc.
    + rewrite !crop_boxes_app, (crop_boxes_mkdirs mk) by done. done.
    + rewrite !saved_paths_app, (saved_paths_mkdirs mk) by done. done.
Qed.

End Correctness.

(** * Runs of a concrete installation *)

(** A fresh installation: 16 icons, 16 saves. *)
Example demo_fresh :
  let r := Demo.run true Demo.fresh in
  r.1 = 0
  ∧ stdout r.2 !! 23%nat = Some "🎉 Terminé ! 16/16 icônes créées"
  ∧ length (saved_paths (trace r.2)) = 16%nat.
Proof. by vm_compute. Qed.

(** A directory sits at the path of one icon: that icon fails, the others
    are cut out. *)
Example demo_blocked :
  let r := Demo.run true Demo.blocked in
  r.1 = 0
  ∧ stdout r.2 !! 12%nat
    = Some "   ❌ Erreur avec mega: [Errno 21] Is a directory: 'opt/theia/zones/src/browser/assets/geocache-icons/mega.png'"
  ∧ stdout r.2 !! 13%nat = Some "   ✓ giga.png (700, 0) -> giga.png"
  ∧ stdout r.2 !! 23%nat = Some "🎉 Terminé ! 15/16 icônes créées".
Proof. by vm_compute. Qed.

(** The sheet opens and its pixel data do not load: every crop fails, and
    the run still ends normally. *)
Example demo_truncated :
  let r := Demo.run true Demo.truncated in
  r.1 = 0
  ∧ stdout r.2 !! 6%nat = Some "   ❌ Erreur avec traditional: image file is truncated"
  ∧ stdout r.2 !! 23%nat = Some "🎉 Terminé ! 0/16 icônes créées"
  ∧ saved_paths (trace r.2) = [].
Proof. by vm_compute. Qed.

(** The sheet is 30 pixels too narrow for the last icon: the icon is saved
    and counted, with zeros beyond column 20. *)
Example demo_narrow :
  let r := Demo.run true Demo.narrow in
  r.1 = 0
  ∧ stdout r.2 !! 23%nat = Some "🎉 Terminé ! 16/16 icônes créées"
  ∧ ∃ rows,
      PIL_crop (Demo.sheet_of 1520 50 Demo.narrow_bytes) (1500, 0, 1550, 50)
      = inr (mkImage 50 50 rows)
      ∧ pixel_at rows 19 0 = Some 42 ∧ pixel_at rows 20 0 = Some 0.
Proof. split_and!; [by vm_compute..|]. eexists. by vm_compute. Qed.

(** No sprite sheet, no Pillow: status 1 and nothing done. *)
Example demo_fatal :
  (Demo.run true Demo.no_sprite).1 = 1
  ∧ saved_paths (trace (Demo.run true Demo.no_sprite).2) = []
  ∧ (Demo.run false Demo.fresh).1 = 1
  ∧ trace (Demo.run false Demo.fresh).2 = [EvImportPIL].
Proof. by vm_compute. Qed.

(** * The specified behaviour on a concrete installation *)

Lemma icons_are_cut_out_witness :
  raster_ok 1550 50
    (Demo.chunks 1550 50 (Demo.expand (Demo.runs (drop 3 Demo.sprite_bytes))))
  ∧ exit_status (@script Demo.install true Demo.fresh) = 0.
Proof.
  assert (Hr : raster_ok 1550 50
    (Demo.chunks 1550 50 (Demo.expand (Demo.runs (drop 3 Demo.sprite_bytes))))).
  { apply (bool_decide_unpack _). by vm_compute. }
  split; [exact Hr|].
  apply (icons_are_cut_out (I := Demo.install) Demo.fresh Demo.sprite_bytes
           (Demo.sheet_of 1550 50 Demo.sprite_bytes)
           (Demo.chunks 1550 50 (Demo.expand (Demo.runs (drop 3 Demo.sprite_bytes))))).
  - reflexivity.
  - reflexivity.
  - reflexivity.
  - exact Hr.
  - done.
  - done.
  - apply (bool_decide_unpack _). by vm_compute.
  - apply free_paths. apply (bool_decide_unpack _). by vm_compute.
Defined.

Lemma icon_failures_are_isolated_witness :
  no_file_on (fs Demo.blocked) (@OUTPUT_DIR Demo.install)
  ∧ exit_status (@script Demo.install true Demo.blocked) = 0.
Proof.
  assert (Hnf : no_file_on (fs Demo.blocked) (@OUTPUT_DIR Demo.install)).
  { apply (bool_decide_unpack _). by vm_compute. }
  split; [exact Hnf|].
  apply (icon_failures_are_isolated (I := Demo.install) Demo.blocked Demo.sprite_bytes
           (Demo.sheet_of 1550 50 Demo.sprite_bytes)).
  - reflexivity.
  - reflexivity.
  - exact Hnf.
Defined.

Lemma out_of_bounds_icon_is_degraded_witness :
  raster_ok 1520 50
    (Demo.chunks 1520 50 (Demo.expand (Demo.runs (drop 3 Demo.narrow_bytes))))
  ∧ exit_status (@script Demo.install true Demo.narrow) = 0.
Proof.
  assert (Hr : raster_ok 1520 50
    (Demo.chunks 1520 50 (Demo.expand (Demo.runs (drop 3 Demo.narrow_bytes))))).
  { apply (bool_decide_unpack _). by vm_compute. }
  split; [exact Hr|].
  apply (out_of_bounds_icon_is_degraded (I := Demo.install) Demo.narrow Demo.narrow_bytes
           (Demo.sheet_of 1520 50 Demo.narrow_bytes)
           (Demo.chunks 1520 50 (Demo.expand (Demo.runs (drop 3 Demo.narrow_bytes))))).
  - reflexivity.
  - reflexivity.
  - reflexivity.
  - exact Hr.
  - apply (bool_decide_unpack _). by vm_compute.
  - apply free_paths. apply (bool_decide_unpack _). by vm_compute.
Defined.

Lemma missing_sprite_is_fatal_witness :
  node_at (fs Demo.no_sprite) (@SPRITE_PATH Demo.install) = None
  ∧ exit_status (@script Demo.install true Demo.no_sprite) = 1.
Proof.
  split; [reflexivity|].
  apply (missing_sprite_is_fatal (I := Demo.install) Demo.no_sprite). reflexivity.
Defined.

Lemma undecodable_sprite_is_fatal_witness :
  no_file_on (fs Demo.bad_sprite) (@OUTPUT_DIR Demo.install)
  ∧ exit_status (@script Demo.install true Demo.bad_sprite) = 1.
Proof.
  assert (Hnf : no_file_on (fs Demo.bad_sprite) (@OUTPUT_DIR Demo.install)).
  { apply (bool_decide_unpack _). by vm_compute. }
  split; [exact Hnf|].
  apply (undecodable_sprite_is_fatal (I := Demo.install) Demo.bad_sprite [Byte.x2a]
           (mkExn OSError "cannot identify image file")).
  - reflexivity.
  - reflexivity.
  - exact Hnf.
Defined.

(** C6 as the specification words it, on a corrupt file.  The sheet of
    [Demo.truncated] is there, [Image.open] accepts it, and its pixel data
    fail to load: a file that fails to decode.  The run is not stopped: it
    crops 16 times and exits with status 0. *)
Lemma corrupt_sprite_is_not_fatal :
  fs Demo.truncated !! @SPRITE_PATH Demo.install = Some (File Demo.truncated_bytes)
  ∧ @PIL_open_bytes Demo.install Demo.truncated_bytes
    = inr (mkSprite 1550 50 (inl (mkExn OSError "image file is truncated")))
  ∧ exit_status (@script Demo.install true Demo.truncated) = 0
  ∧ length (crop_boxes (trace (final (@script Demo.install true Demo.truncated)))) = 16%nat
  ∧ ¬ (exit_status (@script Demo.install true Demo.truncated) ≠ 0
       ∧ crop_boxes (trace (final (@script Demo.install true Demo.truncated))) = []).
Proof.
  split_and!; [reflexivity|reflexivity|by vm_compute|by vm_compute|].
  intros [H _]. apply H. by vm_compute.
Qed.

Lemma summary_is_consistent_witness :
  exit_status (@script Demo.install true Demo.blocked) = 0
  ∧ ∃ pre n, stdout (final (@script Demo.install true Demo.blocked))
             = pre ++ @summary Demo.install n
             ∧ 0 ≤ n ≤ 16.
Proof.
  assert (Hexit : exit_status (@script Demo.install true Demo.blocked) = 0).
  { by vm_compute. }
  split; [exact Hexit|].
  destruct (summary_is_consistent (I := Demo.install) true Demo.blocked Hexit)
    as (pre & n & sprite & Hout & _ & _ & Hn & Hlen & _).
  exists pre, n. split; [exact Hout|]. by rewrite <-Hlen.
Defined.

Lemma rerun_is_idempotent_witness :
  exit_status (@script Demo.install true Demo.blocked) = 0
  ∧ fs (final (@script Demo.install true (final (@script Demo.install true Demo.blocked))))
    = fs (final (@script Demo.install true Demo.blocked)).
Proof.
  assert (Hexit : exit_status (@script Demo.install true Demo.blocked) = 0).
  { by vm_compute. }
  split; [exact Hexit|].
  apply (rerun_is_idempotent (I := Demo.install) Demo.blocked Hexit).
Defined.

Lemma output_directory_and_frame_witness :
  is_Some (node_at (fs Demo.fresh) (@SPRITE_PATH Demo.install))
  ∧ no_file_on (fs Demo.fresh) (@OUTPUT_DIR Demo.install)
  ∧ fs_closed (fs Demo.fresh)
  ∧ dirs_on (fs (final (@script Demo.install true Demo.fresh))) (@OUTPUT_DIR Demo.install).
Proof.
  assert (Hex : is_Some (node_at (fs Demo.fresh) (@SPRITE_PATH Demo.install))).
  { by eexists. }
  assert (Hnf : no_file_on (fs Demo.fresh) (@OUTPUT_DIR Demo.install)).
  { apply (bool_decide_unpack _). by vm_compute. }
  assert (Hc : fs_closed (fs Demo.fresh)).
  { apply (bool_decide_unpack _). by vm_compute. }
  split_and!; [exact Hex|exact Hnf|exact Hc|].
  by apply (proj1 (output_directory_and_frame (I := Demo.install) true Demo.fresh)).
Defined.

(** * The further properties on a concrete installation *)

(** A regular file in the place of the output directory, a directory in the
    place of the sprite sheet, a sheet of one pixel. *)
Example demo_clash :
  let r := Demo.run true Demo.clash in
  r.1 = 1
  ∧ length (stdout r.2) = 3%nat
  ∧ opened_paths (trace r.2) = [].
Proof. by vm_compute. Qed.

Example demo_sprite_is_dir :
  let r := Demo.run true Demo.sprite_is_dir in
  r.1 = 1
  ∧ stdout r.2 !! 4%nat
    = Some "❌ Erreur lors de l'ouverture du sprite : [Errno 21] Is a directory: 'opt/theia/zones/src/browser/assets/geocaching-sprite.png'".
Proof. by vm_compute. Qed.

Example demo_tiny :
  let r := Demo.run true Demo.tiny in
  r.1 = 0
  ∧ stdout r.2 !! 4%nat = Some "✓ Sprite chargé : 1x1 pixels"
  ∧ stdout r.2 !! 23%nat = Some "🎉 Terminé ! 16/16 icônes créées".
Proof. by vm_compute. Qed.

Lemma file_at_output_dir_is_uncaught_witness :
  is_Some (node_at (fs Demo.clash) (@SPRITE_PATH Demo.install))
  ∧ exit_status (@script Demo.install true Demo.clash) = 1.
Proof.
  assert (Hex : is_Some (node_at (fs Demo.clash) (@SPRITE_PATH Demo.install))).
  { by eexists. }
  split; [exact Hex|].
  apply (file_at_output_dir_is_uncaught (I := Demo.install) Demo.clash []).
  - exact Hex.
  - reflexivity.
Defined.

Lemma unloadable_sheet_fails_every_icon_witness :
  no_file_on (fs Demo.truncated) (@OUTPUT_DIR Demo.install)
  ∧ exit_status (@script Demo.install true Demo.truncated) = 0.
Proof.
  assert (Hnf : no_file_on (fs Demo.truncated) (@OUTPUT_DIR Demo.install)).
  { apply (bool_decide_unpack _). by vm_compute. }
  split; [exact Hnf|].
  apply (unloadable_sheet_fails_every_icon (I := Demo.install) Demo.truncated
           Demo.truncated_bytes
           (mkSprite 1550 50 (inl (mkExn OSError "image file is truncated")))
           (mkExn OSError "image file is truncated")).
  - reflexivity.
  - reflexivity.
  - reflexivity.
  - exact Hnf.
Defined.

Lemma any_sheet_is_reported_as_cut_witness :
  no_file_on (fs Demo.tiny) (@OUTPUT_DIR Demo.install)
  ∧ exit_status (@script Demo.install true Demo.tiny) = 0.
Proof.
  assert (Hnf : no_file_on (fs Demo.tiny) (@OUTPUT_DIR Demo.install)).
  { apply (bool_decide_unpack _). by vm_compute. }
  split; [exact Hnf|].
  apply (any_sheet_is_reported_as_cut (I := Demo.install) Demo.tiny Demo.tiny_bytes
           (Demo.sheet_of 1 1 Demo.tiny_bytes)
           (Demo.chunks 1 1 (Demo.expand (Demo.runs (drop 3 Demo.tiny_bytes))))).
  - reflexivity.
  - reflexivity.
  - reflexivity.
  - exact Hnf.
  - apply free_paths. apply (bool_decide_unpack _). by vm_compute.
Defined.

Lemma icon_beyond_the_sheet_is_blank_witness :
  ("wherigo", 1500, 0, 50, 50) ∈ ICONS
  ∧ sprite_width (Demo.sheet_of 1 1 Demo.tiny_bytes) ≤ 1500
  ∧ exit_status (@script Demo.install true Demo.tiny) = 0.
Proof.
  assert (Hin : ("wherigo", 1500, 0, 50, 50) ∈ ICONS).
  { apply (bool_decide_unpack _). by vm_compute. }
  assert (Hw : sprite_width (Demo.sheet_of 1 1 Demo.tiny_bytes) ≤ 1500).
  { cbn. lia. }
  split_and!; [exact Hin|exact Hw|].
  apply (icon_beyond_the_sheet_is_blank (I := Demo.install) Demo.tiny Demo.tiny_bytes
           (Demo.sheet_of 1 1 Demo.tiny_bytes)
           (Demo.chunks 1 1 (Demo.expand (Demo.runs (drop 3 Demo.tiny_bytes))))
           "wherigo" 1500 0 50 50).
  - reflexivity.
  - reflexivity.
  - reflexivity.
  - apply (bool_decide_unpack _). by vm_compute.
  - exact Hin.
  - done.
  - left. exact Hw.
Defined.

Lemma count_is_the_number_of_check_marks_witness :
  exit_status (@script Demo.install true Demo.blocked) = 0
  ∧ ∃ lines n,
      length lines = 16%nat
      ∧ n = Z.of_nat (length (filter (λ s, starts_with check_mark s = true) lines)).
Proof.
  assert (Hexit : exit_status (@script Demo.install true Demo.blocked) = 0).
  { by vm_compute. }
  split; [exact Hexit|].
  destruct (count_is_the_number_of_check_marks (I := Demo.install) true Demo.blocked Hexit)
    as (sprite & lines & n & _ & Hl & Hn & _).
  exists lines, n. split; [|exact Hn].
  symmetry. exact (Forall2_length _ _ _ Hl).
Defined.

Lemma directory_at_icon_path_fails_the_icon_witness :
  fs Demo.blocked !! @output_path Demo.install "mega" = Some Dir
  ∧ exit_status (@script Demo.install true Demo.blocked) = 0.
Proof.
  assert (Hdir : fs Demo.blocked !! @output_path Demo.install "mega" = Some Dir).
  { reflexivity. }
  split; [exact Hdir|].
  apply (directory_at_icon_path_fails_the_icon (I := Demo.install) Demo.blocked
           Demo.sprite_bytes (Demo.sheet_of 1550 50 Demo.sprite_bytes)
           (Demo.chunks 1550 50 (Demo.expand (Demo.runs (drop 3 Demo.sprite_bytes))))
           "mega" 600 0 50 50).
  - reflexivity.
  - reflexivity.
  - reflexivity.
  - apply (bool_decide_unpack _). by vm_compute.
  - apply (bool_decide_unpack _). by vm_compute.
  - exact Hdir.
Defined.

Lemma existing_output_dir_is_reused_witness :
  node_at (fs Demo.blocked) (@OUTPUT_DIR Demo.install) = Some Dir
  ∧ ∃ evs, trace (final (@script Demo.install true Demo.blocked))
           = trace Demo.blocked ++ evs
           ∧ mkdir_paths evs = [@OUTPUT_DIR Demo.install].
Proof.
  assert (Hdir : node_at (fs Demo.blocked) (@OUTPUT_DIR Demo.install) = Some Dir).
  { reflexivity. }
  split; [exact Hdir|].
  apply (existing_output_dir_is_reused (I := Demo.install) Demo.blocked).
  - by eexists.
  - exact Hdir.
Defined.

Lemma negative_size_is_reported_witness :
  (-50 < 0 ∨ 50 < 0)
  ∧ ∃ msg w',
      @cut_icon Demo.install (Demo.sheet_of 1550 50 Demo.sprite_bytes)
        ("mirror", 50, 0, -50, 50) 3 Demo.fresh = (Ok 3, w')
      ∧ stdout w' = [ "   ❌ Erreur avec mirror: " +:+ msg ].
Proof.
  assert (Hneg : -50 < 0 ∨ 50 < 0) by (left; lia).
  split; [exact Hneg|].
  destruct (negative_size_is_reported (I := Demo.install)
              (Demo.sheet_of 1550 50 Demo.sprite_bytes) "mirror" 50 0 (-50) 50 3
              Demo.fresh Hneg) as (msg & _ & Hrun).
  exists msg. eexists. split; [exact Hrun|]. reflexivity.
Defined.

Lemma directory_at_sprite_path_is_an_open_error_witness :
  no_file_on (fs Demo.sprite_is_dir) (@OUTPUT_DIR Demo.install)
  ∧ exit_status (@script Demo.install true Demo.sprite_is_dir) = 1.
Proof.
  assert (Hnf : no_file_on (fs Demo.sprite_is_dir) (@OUTPUT_DIR Demo.install)).
  { apply (bool_decide_unpack _). by vm_compute. }
  split; [exact Hnf|].
  apply (directory_at_sprite_path_is_an_open_error (I := Demo.install) Demo.sprite_is_dir).
  - reflexivity.
  - exact Hnf.
Defined.
